(** * chrome-launcher: the launch / readiness / teardown life cycle

    A shallow embedding of [src/chrome-launcher/chrome-launcher.ts].

    The TypeScript code is asynchronous and effectful.  It is embedded as
    state-passing functions over
    - the fields of the [Launcher] instance,
    - the caller's [Options] object (a mutable JS object),
    - a trace of every call that leaves the module (network, file system,
      child process, logger, timer), in program order.

    Everything the module imports is gathered in the record [World]; its
    answers may depend on the moment of the call (the number of calls made
    so far), so that a port can be closed at one probe and open at the next.
    A promise is embedded by its final state: resolved with a value,
    rejected with an error, or never settled.

    What the host may do is part of [World]: a connection is accepted or
    refused, [makeTmpDir], [openSync], [writeFileSync], [closeSync],
    [getRandomPort] and the termination call may throw, the child may or
    may not report ['close'].  Taken for granted: [childProcess.spawn]
    returns a child with a pid, the locator returns a sequence, [rimraf]
    calls its callback, and the logger and the timer do not fail.  Numbers
    are integers. *)

From Stdlib Require Import String Ascii List ZArith Arith Bool Lia.
From Stdlib Require Import DecimalString.
From Equations Require Import Equations.
Import ListNotations.
Open Scope string_scope.
Open Scope Z_scope.

Set Implicit Arguments.

(** ** JavaScript values used by the module *)

(** A JS [Error]; only its [message] is observed by the code. *)
Record Error : Type := mkError { message : string }.

(** Result of a synchronous call that may throw. *)
Inductive Result (A : Type) : Type :=
| Ok (a : A)
| Throw (e : Error).
Arguments Ok {A} a.
Arguments Throw {A} e.

(** Final state of a promise. *)
Inductive outcome (A : Type) : Type :=
| Resolved (a : A)
| Rejected (e : Error)
| Pending.
Arguments Resolved {A} a.
Arguments Rejected {A} e.
Arguments Pending {A}.

(** A number spliced into a template literal. *)
Definition num_str (n : Z) : string := NilZero.string_of_int (Z.to_int n).

(** [`${x}`] for an optional number or string: [undefined] prints as such. *)
Definition tmpl_num (x : option Z) : string :=
  match x with Some n => num_str n | None => "undefined" end.

Definition tmpl_str (x : option string) : string :=
  match x with Some s => s | None => "undefined" end.

(** [-x] for an optional number: [-undefined] is [NaN], written [None]. *)
Definition neg_num (x : option Z) : option Z :=
  match x with Some n => Some (- n) | None => None end.

(** The [TypeError] of [x.toString()] when [x] is [undefined]. *)
Definition undefined_toString_error : Error :=
  mkError "Cannot read property 'toString' of undefined".

(** Truthiness, as tested by [if (x)]. *)
Definition truthy_num (x : option Z) : bool :=
  match x with Some n => negb (n =? 0) | None => false end.

(** Modelled from the spec: the helper [defaults] of [./utils], which is not
    among the sources: "an optional-value-with-default helper". *)
Definition defaults {A : Type} (val : option A) (def : A) : A :=
  match val with Some v => v | None => def end.

(** ** Module constants *)

Definition _SIGINT : string := "SIGINT".
Definition _SIGINT_EXIT_CODE : Z := 130.
Definition _SUPPORTED_PLATFORMS : list string := ["darwin"; "linux"; "win32"].

Definition supported (platform : string) : bool :=
  existsb (String.eqb platform) _SUPPORTED_PLATFORMS.

(** ** Data *)

(** [interface Options]: every field is optional. *)
Record Options : Type := mkOptions {
  o_startingUrl : option string;
  o_chromeFlags : option (list string);
  o_port : option Z;
  o_handleSIGINT : option bool;
  o_chromePath : option string
}.

(** The part of [childProcess.ChildProcess] the launcher reads.  [pid] is
    [undefined] when the executable could not be started. *)
Record ChildProcess : Type := mkChild { cp_pid : option Z }.

(** The fields of [class Launcher].  A field that can be [undefined] at run
    time is an [option]. *)
Record Launcher : Type := mkLauncher {
  tmpDirandPidFileReady : bool;
  pollInterval : Z;
  pidFile : option string;
  startingUrl : string;
  TMP_PROFILE_DIR : option string;
  outFile : option Z;
  errFile : option Z;
  chromePath : option string;
  chromeFlags : list string;
  chrome : option ChildProcess;
  requestedPort : Z;
  port : option Z;
  pid : option Z
}.

(** [interface LaunchedChrome], without the [kill] closure (it is
    [instance.kill], embedded below as [kill]). *)
Record LaunchedChrome : Type := mkLaunched {
  h_pid : option Z;
  h_port : option Z
}.

Inductive LogLevel : Type := LLog | LVerbose | LWarn.

(** Calls that leave the module, with their arguments and their answer. *)
Inductive Event : Type :=
| EvLog (lvl : LogLevel) (title msg : string)
| EvOnSigint
| EvConnect (port : option Z) (r : option Error)
| EvMakeTmpDir (r : Result string)
| EvOpen (path flags : string) (r : Result Z)
| EvFind (platform : string) (installations : list string)
| EvGetRandomPort (r : Result Z)
| EvSpawn (execPath : string) (args : list string)
          (out err : option Z) (child : ChildProcess)
| EvWriteFile (path : option string) (data : string) (r : option Error)
| EvDelay (ms : Z)
| EvExecSync (cmd : string) (r : option Error)
| EvProcessKill (pid : option Z) (r : option Error)
| EvChildClose (child : ChildProcess)
| EvCloseSync (fd : Z) (r : option Error)
| EvRimraf (dir : string)
| EvExit (code : Z).

(** ** The imports of the module

    The first argument of every function is the moment of the call. *)
Record World : Type := mkWorld {
  (* process.platform *)
  platform : string;
  (* ./flags *)
  DEFAULT_FLAGS : list string;
  (* log.greenify(log.tick) *)
  green_tick : string;
  (* net.createConnection(port): None when 'connect' fires, the error when
     'error' fires *)
  w_connect : nat -> option Z -> option Error;
  (* ./utils makeTmpDir *)
  w_makeTmpDir : nat -> Result string;
  (* fs.openSync(path, flags) *)
  w_openSync : nat -> string -> string -> Result Z;
  (* chromeFinder[platform]() *)
  w_chromeFinder : nat -> string -> list string;
  (* ./random-port getRandomPort() *)
  w_getRandomPort : nat -> Result Z;
  (* childProcess.spawn(execPath, args, ...); the child has no pid when the
     executable could not be started *)
  w_spawn : nat -> string -> list string -> ChildProcess;
  (* fs.writeFileSync(path, data) *)
  w_writeFileSync : nat -> option string -> string -> option Error;
  (* childProcess.execSync(cmd) *)
  w_execSync : nat -> string -> option Error;
  (* process.kill(pid); the argument is NaN when it is None *)
  w_processKill : nat -> option Z -> option Error;
  (* does the child emit 'close' once the listener is registered? *)
  w_childCloses : nat -> ChildProcess -> bool;
  (* fs.closeSync(fd) *)
  w_closeSync : nat -> Z -> option Error
}.

(** [const isWindows = process.platform === 'win32'] *)
Definition isWindows (w : World) : bool := String.eqb (platform w) "win32".

(** ** The state threaded through the code *)

Record Sys : Type := mkSys {
  this : Launcher;
  trace : list Event
}.

Definition now (s : Sys) : nat := length (trace s).

(** An asynchronous (or throwing) computation. *)
Definition M (A : Type) : Type := Sys -> Sys * outcome A.

Definition ret {A} (a : A) : M A := fun s => (s, Resolved a).

Definition throw {A} (e : Error) : M A := fun s => (s, Rejected e).

Definition never {A} : M A := fun s => (s, Pending).

Definition bind {A B} (m : M A) (k : A -> M B) : M B :=
  fun s =>
    match m s with
    | (s', Resolved a) => k a s'
    | (s', Rejected e) => (s', Rejected e)
    | (s', Pending) => (s', Pending)
    end.

(** [try { m } catch (err) { h err }] *)
Definition try_catch {A} (m : M A) (h : Error -> M A) : M A :=
  fun s =>
    match m s with
    | (s', Rejected e) => h e s'
    | r => r
    end.

Declare Scope launcher_scope.
Delimit Scope launcher_scope with launcher.
Notation "x <- m ;; k" := (bind m (fun x => k))
  (at level 61, m at next level, right associativity) : launcher_scope.
Notation "m ;; k" := (bind m (fun _ => k))
  (at level 61, right associativity) : launcher_scope.
Open Scope launcher_scope.

Definition emit (e : Event) : M unit :=
  fun s => (mkSys (this s) (trace s ++ [e])%list, Resolved tt).

Definition get_this : M Launcher := fun s => (s, Resolved (this s)).

Definition modify (f : Launcher -> Launcher) : M unit :=
  fun s => (mkSys (f (this s)) (trace s), Resolved tt).

Definition clock : M nat := fun s => (s, Resolved (now s)).

Definition log (lvl : LogLevel) (title msg : string) : M unit :=
  emit (EvLog lvl title msg).

(** [x.toString()] for an optional number: a [TypeError] on [undefined]. *)
Definition toString (x : option Z) : M string :=
  match x with
  | Some n => ret (num_str n)
  | None => throw undefined_toString_error
  end.

(** Field assignments. *)
Definition set_ready (b : bool) (l : Launcher) : Launcher :=
  mkLauncher b (pollInterval l) (pidFile l) (startingUrl l) (TMP_PROFILE_DIR l)
    (outFile l) (errFile l) (chromePath l) (chromeFlags l) (chrome l)
    (requestedPort l) (port l) (pid l).

Definition set_pidFile (x : option string) (l : Launcher) : Launcher :=
  mkLauncher (tmpDirandPidFileReady l) (pollInterval l) x (startingUrl l)
    (TMP_PROFILE_DIR l) (outFile l) (errFile l) (chromePath l) (chromeFlags l)
    (chrome l) (requestedPort l) (port l) (pid l).

Definition set_TMP_PROFILE_DIR (x : option string) (l : Launcher) : Launcher :=
  mkLauncher (tmpDirandPidFileReady l) (pollInterval l) (pidFile l)
    (startingUrl l) x (outFile l) (errFile l) (chromePath l) (chromeFlags l)
    (chrome l) (requestedPort l) (port l) (pid l).

Definition set_outFile (x : option Z) (l : Launcher) : Launcher :=
  mkLauncher (tmpDirandPidFileReady l) (pollInterval l) (pidFile l)
    (startingUrl l) (TMP_PROFILE_DIR l) x (errFile l) (chromePath l)
    (chromeFlags l) (chrome l) (requestedPort l) (port l) (pid l).

Definition set_errFile (x : option Z) (l : Launcher) : Launcher :=
  mkLauncher (tmpDirandPidFileReady l) (pollInterval l) (pidFile l)
    (startingUrl l) (TMP_PROFILE_DIR l) (outFile l) x (chromePath l)
    (chromeFlags l) (chrome l) (requestedPort l) (port l) (pid l).

Definition set_chromePath (x : option string) (l : Launcher) : Launcher :=
  mkLauncher (tmpDirandPidFileReady l) (pollInterval l) (pidFile l)
    (startingUrl l) (TMP_PROFILE_DIR l) (outFile l) (errFile l) x
    (chromeFlags l) (chrome l) (requestedPort l) (port l) (pid l).

Definition set_chrome (x : option ChildProcess) (l : Launcher) : Launcher :=
  mkLauncher (tmpDirandPidFileReady l) (pollInterval l) (pidFile l)
    (startingUrl l) (TMP_PROFILE_DIR l) (outFile l) (errFile l) (chromePath l)
    (chromeFlags l) x (requestedPort l) (port l) (pid l).

Definition set_port (x : option Z) (l : Launcher) : Launcher :=
  mkLauncher (tmpDirandPidFileReady l) (pollInterval l) (pidFile l)
    (startingUrl l) (TMP_PROFILE_DIR l) (outFile l) (errFile l) (chromePath l)
    (chromeFlags l) (chrome l) (requestedPort l) x (pid l).

Definition set_pid (x : option Z) (l : Launcher) : Launcher :=
  mkLauncher (tmpDirandPidFileReady l) (pollInterval l) (pidFile l)
    (startingUrl l) (TMP_PROFILE_DIR l) (outFile l) (errFile l) (chromePath l)
    (chromeFlags l) (chrome l) (requestedPort l) (port l) x.

Definition set_handleSIGINT (x : option bool) (o : Options) : Options :=
  mkOptions (o_startingUrl o) (o_chromeFlags o) (o_port o) x (o_chromePath o).

(** ** The code *)

(** A rejection nobody listens to: the promise built by
    [new Promise(async (resolve) => ...)] stays pending when its executor
    throws, and so does [p.then(resolve)] when [p] rejects. *)
Definition drop_rejection {A} (m : M A) : M A :=
  fun s =>
    match m s with
    | (s', Rejected _) => (s', Pending)
    | r => r
    end.

Section Code.

Variable w : World.

(** *** Calls into the imports *)

Definition call {A} (ev : Result A -> Event) (f : nat -> Result A) : M A :=
  fun s =>
    let r := f (now s) in
    let s' := mkSys (this s) (trace s ++ [ev r]) in
    match r with
    | Ok a => (s', Resolved a)
    | Throw e => (s', Rejected e)
    end.

Definition call_void (ev : option Error -> Event) (f : nat -> option Error)
  : M unit :=
  fun s =>
    let r := f (now s) in
    let s' := mkSys (this s) (trace s ++ [ev r]) in
    match r with
    | None => (s', Resolved tt)
    | Some e => (s', Rejected e)
    end.

Definition makeTmpDir : M string := call EvMakeTmpDir (w_makeTmpDir w).

Definition openSync (path flags : string) : M Z :=
  call (EvOpen path flags) (fun t => w_openSync w t path flags).

Definition getRandomPort : M Z := call EvGetRandomPort (w_getRandomPort w).

Definition writeFileSync (path : option string) (data : string) : M unit :=
  call_void (EvWriteFile path data) (fun t => w_writeFileSync w t path data).

Definition execSync (cmd : string) : M unit :=
  call_void (EvExecSync cmd) (fun t => w_execSync w t cmd).

Definition process_kill (p : option Z) : M unit :=
  call_void (EvProcessKill p) (fun t => w_processKill w t p).

Definition closeSync (fd : Z) : M unit :=
  call_void (EvCloseSync fd) (fun t => w_closeSync w t fd).

Definition chromeFinder (plat : string) : M (list string) :=
  fun s =>
    let r := w_chromeFinder w (now s) plat in
    (mkSys (this s) (trace s ++ [EvFind plat r]), Resolved r).

Definition spawn_child (execPath : string) (args : list string)
  (out err : option Z) : M ChildProcess :=
  fun s =>
    let c := w_spawn w (now s) execPath args in
    (mkSys (this s) (trace s ++ [EvSpawn execPath args out err c]), Resolved c).

Definition delay (ms : Z) : M unit := emit (EvDelay ms).

(** [rimraf(dir, cb)]: [cb] is always called, whatever the removal did. *)
Definition rimraf (dir : string) : M unit := emit (EvRimraf dir).

(** *** [class Launcher] *)

(** [constructor(opts)], lines 85-91; the field initialisers are lines 71-72. *)
Definition new_Launcher (opts : Options) : Launcher :=
  {| tmpDirandPidFileReady := false;
     pollInterval := 500;
     pidFile := None;
     startingUrl := defaults (o_startingUrl opts) "about:blank";
     TMP_PROFILE_DIR := None;
     outFile := None;
     errFile := None;
     chromePath := o_chromePath opts;
     chromeFlags := defaults (o_chromeFlags opts) [];
     chrome := None;
     requestedPort := defaults (o_port opts) 0;
     port := None;
     pid := None |}.

(** [get flags()], lines 93-108. *)
Definition flags (l : Launcher) : list string :=
  let flags :=
    (DEFAULT_FLAGS w ++
       [("--remote-debugging-port=" ++ tmpl_num (port l))%string;
        ("--user-data-dir=" ++ tmpl_str (TMP_PROFILE_DIR l))%string])%list in
  let flags :=
    if String.eqb (platform w) "linux"
    then (flags ++ ["--disable-setuid-sandbox"])%list else flags in
  let flags := (flags ++ chromeFlags l)%list in
  (flags ++ [startingUrl l])%list.

(** [prepare()], lines 110-128. *)
Definition prepare : M unit :=
  if negb (supported (platform w))
  then throw (mkError ("Platform " ++ platform w ++ " is not supported"))
  else
    dir <- makeTmpDir ;;
    modify (set_TMP_PROFILE_DIR (Some dir)) ;;
    l <- get_this ;;
    out <- openSync (tmpl_str (TMP_PROFILE_DIR l) ++ "/chrome-out.log") "a" ;;
    modify (set_outFile (Some out)) ;;
    l <- get_this ;;
    err <- openSync (tmpl_str (TMP_PROFILE_DIR l) ++ "/chrome-err.log") "a" ;;
    modify (set_errFile (Some err)) ;;
    l <- get_this ;;
    modify (set_pidFile (Some (tmpl_str (TMP_PROFILE_DIR l) ++ "/chrome.pid"))) ;;
    l <- get_this ;;
    log LVerbose "ChromeLauncher" ("created " ++ tmpl_str (TMP_PROFILE_DIR l)) ;;
    modify (set_ready true).

(** [isDebuggerReady()], lines 203-215: one connection attempt to
    [this.port]; the socket is released ([cleanup], lines 193-200) on either
    answer. *)
Definition isDebuggerReady : M unit :=
  l <- get_this ;;
  call_void (EvConnect (port l)) (fun t => w_connect w t (port l)).

(** The start of one round of [poll], up to the probe (lines 225-230). *)
Definition announce (retries : nat) (waitStatus : string) : M unit :=
  (if (retries =? 0)%nat then log LLog "ChromeLauncher" waitStatus
   else ret tt) ;;
  log LLog "ChromeLauncher" (waitStatus ++ "..").

(** The closure [poll] of [waitUntilReady()], lines 224-243; [retries] and
    [waitStatus] are the values of the two captured variables on entry.  The
    test [retries > 10] is made on the incremented counter, [S retries].
    The recursion ends because the counter grows up to 11. *)
Equations? poll (retries : nat) (waitStatus : string) (s : Sys)
  : Sys * outcome unit by wf (11 - retries)%nat lt :=
poll retries waitStatus s
  with (announce retries waitStatus ;; isDebuggerReady) s => {
  | (s1, Resolved _) :=
      log LLog "ChromeLauncher" (waitStatus ++ ".." ++ green_tick w) s1;
  | (s1, Pending) := (s1, Pending);
  | (s1, Rejected err) with le_lt_dec (S retries) 10 => {
    | right _ := (s1, Rejected err);
    | left _ :=
        poll (S retries) (waitStatus ++ "..")
             (fst (delay (pollInterval (this s1)) s1)) } }.
Proof.
  clear poll.
  do 10 (destruct retries as [| retries]; [ simpl; lia | ]).
  exfalso; lia.
Qed.

(** [waitUntilReady()], lines 218-245. *)
Definition waitUntilReady : M unit := poll 0 "Waiting for browser.".

(** The executor of the promise built in [spawn(execPath)] (lines 163-186),
    in three parts:
    the choice of the port, the start of the child, and the whole;
    [resolve(x)] is its result. *)
Definition choose_port : M unit :=
  l <- get_this ;;
  if requestedPort l =? 0
  then p <- getRandomPort ;; modify (set_port (Some p))
  else ret tt.

Definition start_child (execPath : string) : M (option Z) :=
  l <- get_this ;;
  c <- spawn_child execPath (flags l) (outFile l) (errFile l) ;;
  modify (set_chrome (Some c)) ;;
  data <- toString (cp_pid c) ;;
  l <- get_this ;;
  writeFileSync (pidFile l) data ;;
  l <- get_this ;;
  log LVerbose "ChromeLauncher"
    ("Chrome running with pid " ++ tmpl_num (cp_pid c) ++ " on port "
       ++ tmpl_num (port l) ++ ".") ;;
  ret (cp_pid c).

Definition spawn_executor (execPath : string) : M (option Z) :=
  l <- get_this ;;
  match chrome l with
  | Some c =>
      log LLog "ChromeLauncher"
        ("Chrome already running with pid " ++ tmpl_num (cp_pid c) ++ ".") ;;
      ret (cp_pid c)
  | None => choose_port ;; start_child execPath
  end.

(** [spawn(execPath)], lines 161-191. *)
Definition spawn (execPath : string) : M (option Z) :=
  p <- drop_rejection (spawn_executor execPath) ;;
  waitUntilReady ;;
  ret p.

(** The first block of [launch()], lines 131-142: [true] when the method
    returns from inside the [try]. *)
Definition reuse_check : M bool :=
  l <- get_this ;;
  if negb (requestedPort l =? 0)
  then
    modify (set_port (Some (requestedPort l))) ;;
    try_catch (isDebuggerReady ;; ret true)
      (fun _ =>
         l <- get_this ;;
         log LLog "ChromeLauncher"
           ("No debugging port found on port " ++ tmpl_num (port l)
              ++ ", launching a new Chrome.") ;;
         ret false)
  else ret false.

(** The third block of [launch()], lines 148-155; the result is
    [this.chromePath] at its end. *)
Definition resolve_chromePath : M string :=
  l <- get_this ;;
  match chromePath l with
  | Some p => ret p
  | None =>
      installations <- chromeFinder (platform w) ;;
      match installations with
      | [] => throw (mkError "No Chrome Installations Found")
      | first :: _ => modify (set_chromePath (Some first)) ;; ret first
      end
  end.

(** [Launcher.launch()], lines 130-159. *)
Definition Launcher_launch : M unit :=
  reused <- reuse_check ;;
  if reused : bool then ret tt
  else
    l <- get_this ;;
    (if negb (tmpDirandPidFileReady l) then prepare else ret tt) ;;
    execPath <- resolve_chromePath ;;
    p <- spawn execPath ;;
    modify (set_pid p).

(** [destroyTmp()], lines 273-293; [close_log] is one of its two [if]
    blocks. *)
Definition close_log (fd : option Z) (clear : Launcher -> Launcher) : M unit :=
  match fd with
  | Some n => if n =? 0 then ret tt else closeSync n ;; modify clear
  | None => ret tt
  end.

Definition destroyTmp : M unit :=
  l <- get_this ;;
  match TMP_PROFILE_DIR l with
  | None => ret tt
  | Some dir =>
      if String.eqb dir "" then ret tt
      else
        log LVerbose "ChromeLauncher" ("Removing " ++ dir) ;;
        l <- get_this ;;
        close_log (outFile l) (set_outFile None) ;;
        l <- get_this ;;
        close_log (errFile l) (set_errFile None) ;;
        rimraf dir
  end.

(** The body of the [try] in [kill()], lines 256-260. *)
Definition os_kill (c : ChildProcess) : M unit :=
  if isWindows w
  then execSync ("taskkill /pid " ++ tmpl_num (cp_pid c) ++ " /T /F")
  else process_kill (neg_num (cp_pid c)).

(** The executor of the promise built in [kill()], lines 248-270.  It answers [Some c] when
    it leaves the promise to the ['close'] listener registered on the child
    [c], and [None] when it has called [resolve] itself. *)
Definition kill_executor : M (option ChildProcess) :=
  l <- get_this ;;
  match chrome l with
  | Some c =>
      log LLog "ChromeLauncher" "Killing all Chrome Instances" ;;
      try_catch (os_kill c)
        (fun err =>
           log LWarn "ChromeLauncher"
             ("Chrome could not be killed " ++ message err)) ;;
      modify (set_chrome None) ;;
      ret (Some c)
  | None => ret None
  end.

(** The ['close'] listener registered by [kill()], lines 250-252. *)
Definition on_close : M unit := drop_rejection destroyTmp.

(** [kill()], lines 247-271, followed until its promise settles (or is known
    never to). *)
Definition kill : M unit :=
  waiting <- kill_executor ;;
  match waiting with
  | None => ret tt
  | Some c =>
      t <- clock ;;
      if w_childCloses w t c
      then emit (EvChildClose c) ;; on_close
      else never
  end.

(** The [SIGINT] listener installed by the exported [launch], lines 59-62. *)
Definition on_SIGINT : M unit := kill ;; emit (EvExit _SIGINT_EXIT_CODE).

(** The exported [launch(opts)], lines 52-68, called with the caller's object
    [opts] when the trace is [tr].  The first component is the caller's
    object at the end of the call. *)
Definition launch (opts : Options) (tr : list Event)
  : Options * (Sys * outcome LaunchedChrome) :=
  let opts := set_handleSIGINT (Some (defaults (o_handleSIGINT opts) true)) opts in
  let instance := new_Launcher opts in
  let body :=
    (if defaults (o_handleSIGINT opts) false then emit EvOnSigint else ret tt) ;;
    Launcher_launch ;;
    l <- get_this ;;
    ret (mkLaunched (pid l) (port l)) in
  (opts, body (mkSys instance tr)).

End Code.

(** ** Vocabulary of the statements *)

(** The events a run added to the trace it started from. *)
Definition events_since (s s' : Sys) : list Event :=
  skipn (length (trace s)) (trace s').

(** The answer of the platform's termination call for child [c] at moment
    [t], and the event it leaves. *)
Definition os_kill_answer (w : World) (t : nat) (c : ChildProcess)
  : option Error :=
  if isWindows w
  then w_execSync w t ("taskkill /pid " ++ tmpl_num (cp_pid c) ++ " /T /F")
  else w_processKill w t (neg_num (cp_pid c)).

Definition os_kill_event (w : World) (c : ChildProcess) (r : option Error)
  : Event :=
  if isWindows w
  then EvExecSync ("taskkill /pid " ++ tmpl_num (cp_pid c) ++ " /T /F") r
  else EvProcessKill (neg_num (cp_pid c)) r.

Definition kill_warning (err : Error) : Event :=
  EvLog LWarn "ChromeLauncher" ("Chrome could not be killed " ++ message err).

(** What the executor of [kill()] adds to the trace when a child is tracked
    and the trace has length [t]. *)
Definition kill_events (w : World) (t : nat) (c : ChildProcess) : list Event :=
  EvLog LLog "ChromeLauncher" "Killing all Chrome Instances" ::
  os_kill_event w c (os_kill_answer w (S t) c) ::
  match os_kill_answer w (S t) c with
  | None => []
  | Some err => [kill_warning err]
  end.

(** Events of the workspace teardown. *)
Definition is_teardown (e : Event) : bool :=
  match e with
  | EvLog LVerbose _ _ | EvCloseSync _ _ | EvRimraf _ => true
  | _ => false
  end.

(** The line logged when the probe of a requested port fails. *)
Definition reuse_log (p : Z) : Event :=
  EvLog LLog "ChromeLauncher"
    ("No debugging port found on port " ++ num_str p ++ ", launching a new Chrome.").

(** The two errors [launch()] throws itself. *)
Definition unsupported_error (w : World) : Error :=
  mkError ("Platform " ++ platform w ++ " is not supported").

Definition no_installation_error : Error := mkError "No Chrome Installations Found".

(** The line logged once the child is started. *)
Definition running_log (c : ChildProcess) (p : option Z) : Event :=
  EvLog LVerbose "ChromeLauncher"
    ("Chrome running with pid " ++ tmpl_num (cp_pid c) ++ " on port "
       ++ tmpl_num p ++ ".").

(** Network and timer events: connection attempts and delays. *)
Definition net_timer (e : Event) : bool :=
  match e with EvConnect _ _ | EvDelay _ => true | _ => false end.

(** Events of the polling phase. *)
Definition is_polling (e : Event) : bool :=
  match e with
  | EvLog LLog _ _ | EvConnect _ _ | EvDelay _ => true
  | _ => false
  end.

(** Failed probes of port [p], one per error, [ms] apart. *)
Fixpoint poll_schedule (p : option Z) (ms : Z) (errs : list Error)
  : list Event :=
  match errs with
  | [] => []
  | [e] => [EvConnect p (Some e)]
  | e :: rest => EvConnect p (Some e) :: EvDelay ms :: poll_schedule p ms rest
  end.

(** What one round of [poll] logs before its probe. *)
Definition announce_events (retries : nat) (waitStatus : string) : list Event :=
  ((if (retries =? 0)%nat then [EvLog LLog "ChromeLauncher" waitStatus] else [])
     ++ [EvLog LLog "ChromeLauncher" (waitStatus ++ "..")])%list.

(** Events of [spawn(execPath)]. *)
Definition is_spawning (e : Event) : bool :=
  match e with
  | EvLog _ _ _ | EvGetRandomPort _ | EvSpawn _ _ _ _ _ | EvWriteFile _ _ _
  | EvConnect _ _ | EvDelay _ => true
  | _ => false
  end.

(** Hosts on which a launch gets as far as polling: the workspace can be
    created, an installation is found, a port is handed out, the child
    comes with a pid, the pid file can be written; each only where the
    instance [l] needs it. *)
Definition workspace_ok (w : World) : Prop :=
  (forall t, exists dir, w_makeTmpDir w t = Ok dir) /\
  (forall t path flags, exists fd, w_openSync w t path flags = Ok fd).

Definition locator_ok (w : World) : Prop :=
  forall t, w_chromeFinder w t (platform w) <> [].

Definition port_source_ok (w : World) : Prop :=
  forall t, exists p, w_getRandomPort w t = Ok p.

Definition pid_file_ok (w : World) : Prop :=
  forall t path data, w_writeFileSync w t path data = None.

Definition child_has_pid (w : World) : Prop :=
  forall t exe args, exists p, cp_pid (w_spawn w t exe args) = Some p.

Definition reaches_polling (w : World) (l : Launcher) : Prop :=
  (tmpDirandPidFileReady l = false ->
   supported (platform w) = true /\ workspace_ok w) /\
  (chromePath l = None -> locator_ok w) /\
  (chrome l = None ->
   child_has_pid w /\ pid_file_ok w /\
   (requestedPort l = 0 -> port_source_ok w)).

(** The instance and the trace at the moment the exported [launch] calls
    [instance.launch()]. *)
Definition launch_start (opts : Options) (tr : list Event) : Sys :=
  mkSys (new_Launcher opts)
    (tr ++ if defaults (o_handleSIGINT opts) true then [EvOnSigint] else []).

(** The object the exported [launch] returns. *)
Definition handle_of (s : Sys) : LaunchedChrome :=
  mkLaunched (pid (this s)) (port (this s)).

(** What a call of the exported [launch] adds to the trace, and how its
    promise settles. *)
Definition launch_events (w : World) (opts : Options) (tr : list Event)
  : list Event :=
  skipn (length tr) (trace (fst (snd (launch w opts tr)))).

Definition launch_outcome (w : World) (opts : Options) (tr : list Event)
  : outcome LaunchedChrome :=
  snd (snd (launch w opts tr)).

(** Events that create, use or remove a file, look for an installation,
    reserve a port or start a process. *)
Definition is_resource (e : Event) : bool :=
  match e with
  | EvMakeTmpDir _ | EvOpen _ _ _ | EvWriteFile _ _ _ | EvCloseSync _ _
  | EvRimraf _ | EvFind _ _ | EvGetRandomPort _ | EvSpawn _ _ _ _ _ => true
  | _ => false
  end.

(** The debugging-port flag, and the entries that have its form. *)
Definition port_flag (p : Z) : string := "--remote-debugging-port=" ++ num_str p.

Definition is_port_flag (f : string) : bool :=
  String.prefix "--remote-debugging-port=" f.

(** The flag added on Linux only. *)
Definition sandbox_flags (w : World) : list string :=
  if String.eqb (platform w) "linux" then ["--disable-setuid-sandbox"] else [].

(** The state after [n] successive calls of [kill()]. *)
Fixpoint kills (w : World) (n : nat) (s : Sys) : Sys :=
  match n with
  | O => s
  | S n' => kills w n' (fst (kill w s))
  end.

(** ** Concrete hosts and calls

    Used to run the code on explicit inputs. *)

(** The error of a refused connection. *)
Definition refused : Error := mkError "connect ECONNREFUSED".

(** A host on platform [plat] where the locator finds [found], a connection
    at moment [t] to port [p] is accepted when [listening t p], every file
    operation succeeds, the port source hands out 9333, the child gets pid
    4242 and reports its end, and the platform's termination call fails. *)
Definition host (plat : string) (found : list string)
  (listening : nat -> option Z -> bool) : World :=
  {| platform := plat;
     DEFAULT_FLAGS := ["--disable-translate"; "--disable-extensions"];
     green_tick := "ok";
     w_connect := fun t p => if listening t p then None else Some refused;
     w_makeTmpDir := fun _ => Ok "/tmp/lighthouse.XXXX";
     w_openSync := fun t _ _ => Ok (Z.of_nat t);
     w_chromeFinder := fun _ _ => found;
     w_getRandomPort := fun _ => Ok 9333;
     w_spawn := fun _ _ _ => mkChild (Some 4242);
     w_writeFileSync := fun _ _ _ => None;
     w_execSync := fun _ _ => Some (mkError "taskkill failed");
     w_processKill := fun _ _ => Some (mkError "kill ESRCH");
     w_childCloses := fun _ _ => true;
     w_closeSync := fun _ _ => None |}.

Definition chrome_bin : string := "/usr/bin/google-chrome".

(** Nothing ever listens. *)
Definition quiet_host : World := host "linux" [chrome_bin] (fun _ _ => false).

(** A browser is listening already. *)
Definition attached_host : World := host "linux" [chrome_bin] (fun _ _ => true).

(** The spawned browser listens from moment 14 on. *)
Definition starting_host : World :=
  host "linux" [chrome_bin] (fun t _ => (14 <=? t)%nat).

(** No installation is found. *)
Definition bare_host : World := host "linux" [] (fun _ _ => false).

(** A platform that is not supported, with a listener. *)
Definition bsd_host : World := host "freebsd" [chrome_bin] (fun _ _ => true).

(** [launch()], [launch({port: 9222})] and
    [launch({chromeFlags: ['--remote-debugging-port=9333']})]. *)
Definition no_options : Options := mkOptions None None None None None.

Definition port_9222 : Options := mkOptions None None (Some 9222) None None.

Definition extra_port_flag : Options :=
  mkOptions None (Some ["--remote-debugging-port=9333"]) None None None.

(** The instance after a launch that spawned a browser. *)
Definition launched : Sys := fst (snd (launch starting_host no_options [])).

(** ** Further vocabulary and hosts *)

(** Failed probes of port [p], each followed by a delay of [ms]. *)
Definition failed_rounds (p : option Z) (ms : Z) (errs : list Error)
  : list Event :=
  flat_map (fun e => [EvConnect p (Some e); EvDelay ms]) errs.

(** Events that [launch()] can leave: everything but terminations, teardown,
    the end of the program and the registration of the interrupt listener. *)
Definition is_launching (e : Event) : bool :=
  match e with
  | EvLog _ _ _ | EvConnect _ _ | EvMakeTmpDir _ | EvOpen _ _ _ | EvFind _ _
  | EvGetRandomPort _ | EvSpawn _ _ _ _ _ | EvWriteFile _ _ _ | EvDelay _ => true
  | _ => false
  end.

(** Terminations, teardown and the end of the program. *)
Definition is_cleanup (e : Event) : bool :=
  match e with
  | EvExecSync _ _ | EvProcessKill _ _ | EvChildClose _ | EvCloseSync _ _
  | EvRimraf _ | EvExit _ => true
  | _ => false
  end.

(** Events that [kill()] can leave. *)
Definition is_killing (e : Event) : bool :=
  match e with
  | EvLog _ _ _ | EvExecSync _ _ | EvProcessKill _ _ | EvChildClose _
  | EvCloseSync _ _ | EvRimraf _ => true
  | _ => false
  end.

(** Calls of the locator; creation of the workspace; release of the
    workspace; registrations of the interrupt listener. *)
Definition is_find (e : Event) : bool :=
  match e with EvFind _ _ => true | _ => false end.

Definition is_workspace_creation (e : Event) : bool :=
  match e with EvMakeTmpDir _ | EvOpen _ _ _ => true | _ => false end.

Definition is_workspace_release (e : Event) : bool :=
  match e with EvCloseSync _ _ | EvRimraf _ => true | _ => false end.

Definition is_sigint_registration (e : Event) : bool :=
  match e with EvOnSigint => true | _ => false end.

(** What a resolved teardown does with a log descriptor. *)
Definition released (fd : option Z) : list Event :=
  match fd with
  | Some n => if n =? 0 then [] else [EvCloseSync n None]
  | None => []
  end.

(** What a teardown that resolves adds to the trace, from the instance [l]
    it starts with: nothing without a directory name; otherwise the log
    line, the close of each descriptor that is held, and the removal of the
    directory. *)
Definition teardown_events (l : Launcher) : list Event :=
  match TMP_PROFILE_DIR l with
  | Some dir =>
      if String.eqb dir "" then []
      else
        (EvLog LVerbose "ChromeLauncher" ("Removing " ++ dir)
           :: released (outFile l) ++ released (errFile l)
           ++ [EvRimraf dir])%list
  | None => []
  end.

(** The host [base] where creating the directory answers [mk], the port
    source answers [rp], a spawned child is [child], writing a file answers
    [wr] and closing a descriptor answers [cl]. *)
Definition failing_host (base : World) (mk : Result string) (rp : Result Z)
  (child : ChildProcess) (wr cl : option Error) : World :=
  {| platform := platform base;
     DEFAULT_FLAGS := DEFAULT_FLAGS base;
     green_tick := green_tick base;
     w_connect := w_connect base;
     w_makeTmpDir := fun _ => mk;
     w_openSync := w_openSync base;
     w_chromeFinder := w_chromeFinder base;
     w_getRandomPort := fun _ => rp;
     w_spawn := fun _ _ _ => child;
     w_writeFileSync := fun _ _ _ => wr;
     w_execSync := w_execSync base;
     w_processKill := w_processKill base;
     w_childCloses := w_childCloses base;
     w_closeSync := fun _ _ => cl |}.

(** No directory can be created. *)
Definition no_tmp_host : World :=
  failing_host starting_host (Throw (mkError "EACCES")) (Ok 9333)
    (mkChild (Some 4242)) None None.

(** No port can be reserved. *)
Definition no_port_host : World :=
  failing_host starting_host (Ok "/tmp/lighthouse.XXXX")
    (Throw (mkError "EADDRINUSE")) (mkChild (Some 4242)) None None.

(** The pid file cannot be written. *)
Definition full_disk_host : World :=
  failing_host starting_host (Ok "/tmp/lighthouse.XXXX") (Ok 9333)
    (mkChild (Some 4242)) (Some (mkError "ENOSPC")) None.

(** Descriptors cannot be closed. *)
Definition stale_fd_host : World :=
  failing_host starting_host (Ok "/tmp/lighthouse.XXXX") (Ok 9333)
    (mkChild (Some 4242)) None (Some (mkError "EBADF")).

(** Nothing ever listens, and the pid file cannot be written. *)
Definition quiet_full_disk_host : World :=
  failing_host quiet_host (Ok "/tmp/lighthouse.XXXX") (Ok 9333)
    (mkChild (Some 4242)) (Some (mkError "ENOSPC")) None.

(** Nothing ever listens, and the executable cannot be started: the child
    comes without a pid. *)
Definition no_exec_host : World :=
  failing_host quiet_host (Ok "/tmp/lighthouse.XXXX") (Ok 9333)
    (mkChild None) None None.

(** [launch({chromePath: '/nonexistent'})]. *)
Definition nonexistent_chrome : Options :=
  mkOptions None None None None (Some "/nonexistent").

(** The arguments of the child that [launch()] spawns on these hosts. *)
Definition default_args : list string :=
  ["--disable-translate"; "--disable-extensions";
   "--remote-debugging-port=9333"; "--user-data-dir=/tmp/lighthouse.XXXX";
   "--disable-setuid-sandbox"; "about:blank"].

(** ** The specification's wording

    The three claims the code does not meet, stated as they are written. *)

(** On an unsupported platform [launch] raises the platform error, and no
    file, process or network resource is touched. *)
Definition spec_unsupported_platform (w : World) (opts : Options)
  (tr : list Event) : Prop :=
  supported (platform w) = false ->
  launch_outcome w opts tr = Rejected (unsupported_error w) /\
  Forall (fun e => is_resource e = false /\ net_timer e = false)
    (launch_events w opts tr).

(** With no requested port, the flags of the spawned child hold exactly one
    debugging-port entry, for the port of the returned handle. *)
Definition spec_one_port_flag (w : World) (opts : Options) (tr : list Event)
  : Prop :=
  defaults (o_port opts) 0 = 0 ->
  forall exe args out err c,
    In (EvSpawn exe args out err c) (launch_events w opts tr) ->
    exists p,
      (forall h, launch_outcome w opts tr = Resolved h -> h_port h = Some p) /\
      filter is_port_flag args = [port_flag p].

(** [launch] leaves the caller's options as they were. *)
Definition spec_options_immutable (w : World) (opts : Options)
  (tr : list Event) : Prop :=
  fst (launch w opts tr) = opts.

(** ** Reasoning support *)

Unset Implicit Arguments.

(** Unfold the monad and the event primitives. *)
Ltac unfold_monad :=
  unfold bind, ret, throw, never, try_catch, drop_rejection, log, delay,
    rimraf, emit, get_this, modify, clock, call, call_void in *.

(** Moments are trace lengths. *)
Lemma now_snoc (s : Sys) (l : Launcher) (e : Event) :
  now (mkSys l (trace s ++ [e])) = S (now s).
Proof. unfold now; cbn. rewrite length_app; cbn. lia. Qed.

Lemma now_app (s : Sys) (l : Launcher) (evs : list Event) :
  now (mkSys l (trace s ++ evs)) = (now s + length evs)%nat.
Proof. unfold now; cbn. apply length_app. Qed.

Lemma sys_eta (s : Sys) : mkSys (this s) (trace s) = s.
Proof. destruct s; reflexivity. Qed.

(** A run that extends the trace by [evs] added [evs]. *)
Lemma events_since_app (s s' : Sys) (evs : list Event) :
  trace s' = (trace s ++ evs)%list -> events_since s s' = evs.
Proof.
  intros H. unfold events_since. rewrite H.
  rewrite skipn_app, skipn_all, Nat.sub_diag. reflexivity.
Qed.

(** The termination call: one event, and a rejection when it throws. *)
Lemma os_kill_run (w : World) (c : ChildProcess) (s : Sys) :
  os_kill w c s =
    (mkSys (this s) (trace s ++ [os_kill_event w c (os_kill_answer w (now s) c)]),
     match os_kill_answer w (now s) c with
     | None => Resolved tt
     | Some e => Rejected e
     end).
Proof.
  unfold os_kill, os_kill_event, os_kill_answer, execSync, process_kill, call_void.
  destruct (isWindows w).
  - destruct (w_execSync _ _ _); reflexivity.
  - destruct (w_processKill _ _ _); reflexivity.
Qed.

(** The executor of [kill()], with and without a tracked child. *)
Lemma kill_executor_child (w : World) (s : Sys) (c : ChildProcess) :
  chrome (this s) = Some c ->
  kill_executor w s =
    (mkSys (set_chrome None (this s)) (trace s ++ kill_events w (now s) c),
     Resolved (Some c)).
Proof.
  intros H. unfold kill_executor, kill_events, kill_warning.
  unfold_monad. cbv beta iota. rewrite H. cbv beta iota.
  rewrite os_kill_run. rewrite now_snoc. cbn [this trace].
  destruct (os_kill_answer w (S (now s)) c); cbn [this trace];
    rewrite <- ?app_assoc; reflexivity.
Qed.

Lemma kill_executor_no_child (w : World) (s : Sys) :
  chrome (this s) = None -> kill_executor w s = (s, Resolved None).
Proof.
  intros H. unfold kill_executor. unfold_monad. cbv beta iota.
  rewrite H. reflexivity.
Qed.

Lemma kill_no_child (w : World) (s : Sys) :
  chrome (this s) = None -> kill w s = (s, Resolved tt).
Proof.
  intros H. unfold kill, bind. rewrite (kill_executor_no_child w s H).
  reflexivity.
Qed.

(** [kill()] on an instance that tracks a child: the executor runs; if the
    child then reports ['close'], the listener runs the teardown. *)
Lemma kill_child (w : World) (s : Sys) (c : ChildProcess) :
  chrome (this s) = Some c ->
  let s1 := mkSys (set_chrome None (this s)) (trace s ++ kill_events w (now s) c) in
  kill w s =
    if w_childCloses w (now s1) c
    then on_close w (mkSys (this s1) (trace s1 ++ [EvChildClose c]))
    else (s1, Pending).
Proof.
  intros H s1. unfold kill, bind at 1. rewrite (kill_executor_child w s c H).
  fold s1. unfold_monad. cbv beta iota.
  destruct (w_childCloses w (now s1) c); reflexivity.
Qed.

(** One [if] block of [destroyTmp()]: nothing for a falsy descriptor;
    otherwise the descriptor is closed and cleared, or the close throws. *)
Lemma close_log_spec (w : World) (fd : option Z) (clear : Launcher -> Launcher)
  (s : Sys) :
  exists evs,
    Forall (fun e => is_teardown e = true) evs /\
    (close_log w fd clear s = (mkSys (this s) (trace s ++ evs), Resolved tt)
       /\ truthy_num fd = false
     \/ close_log w fd clear s = (mkSys (clear (this s)) (trace s ++ evs), Resolved tt)
       /\ truthy_num fd = true
     \/ exists e,
         close_log w fd clear s = (mkSys (this s) (trace s ++ evs), Rejected e)).
Proof.
  unfold close_log. destruct fd as [n |].
  - destruct (n =? 0) eqn:Hn.
    + exists []. split; [constructor |]. left. cbn. rewrite Hn.
      rewrite app_nil_r, sys_eta. split; reflexivity.
    + unfold closeSync. unfold_monad. cbv beta iota.
      exists [EvCloseSync n (w_closeSync w (now s) n)].
      split; [repeat constructor |].
      destruct (w_closeSync w (now s) n) as [e |].
      * right; right. exists e. reflexivity.
      * right; left. cbn. rewrite Hn. split; reflexivity.
  - exists []. split; [constructor |]. left.
    rewrite app_nil_r, sys_eta. split; reflexivity.
Qed.

(** [destroyTmp()] settles; it only adds teardown events, only clears the two
    log descriptors, and when it resolves on an existing workspace both
    descriptors are released and the removal of the directory comes last. *)
Lemma destroyTmp_spec (w : World) (s : Sys) :
  exists evs l' o,
    destroyTmp w s = (mkSys l' (trace s ++ evs), o) /\
    Forall (fun e => is_teardown e = true) evs /\
    chrome l' = chrome (this s) /\
    TMP_PROFILE_DIR l' = TMP_PROFILE_DIR (this s) /\
    o <> Pending /\
    (o = Resolved tt ->
     forall dir, TMP_PROFILE_DIR (this s) = Some dir -> dir <> "" ->
       truthy_num (outFile l') = false /\
       truthy_num (errFile l') = false /\
       exists evs0, evs = (evs0 ++ [EvRimraf dir])%list) /\
    (o = Resolved tt -> evs = teardown_events (this s)).
Proof.
  unfold destroyTmp, close_log, closeSync. unfold_monad. cbv beta iota.
  destruct (TMP_PROFILE_DIR (this s)) as [dir |] eqn:Hdir.
  2:{ exists [], (this s), (Resolved tt). rewrite app_nil_r, sys_eta.
      unfold teardown_events. rewrite Hdir.
      repeat split; try constructor; try discriminate; auto. }
  destruct (String.eqb dir "") eqn:Hempty.
  { exists [], (this s), (Resolved tt). rewrite app_nil_r, sys_eta.
    unfold teardown_events. rewrite Hdir, Hempty.
    apply String.eqb_eq in Hempty.
    repeat split; try constructor; try discriminate; auto;
      intros; congruence. }
  cbn [this trace].
  destruct (outFile (this s)) as [fo |] eqn:Hout;
    [destruct (fo =? 0) eqn:Hfo;
      [| destruct (w_closeSync w _ fo) as [eo |] eqn:Hco] |];
    cbn [this trace outFile errFile set_outFile set_errFile].
  all: try (destruct (errFile (this s)) as [fe |] eqn:Herr;
    [destruct (fe =? 0) eqn:Hfe;
      [| destruct (w_closeSync w _ fe) as [ee |] eqn:Hce] |]);
    cbn [this trace outFile errFile set_outFile set_errFile].
  all: eexists _, _, _;
    (split; [rewrite <- ?app_assoc; cbn [app]; reflexivity |]).
  all: cbn [chrome TMP_PROFILE_DIR outFile errFile set_outFile set_errFile
              truthy_num].
  all: rewrite ?Hout, ?Herr; cbn [truthy_num]; rewrite ?Hfo, ?Hfe; cbn [negb].
  all: split; [repeat constructor |].
  all: split; [reflexivity |]; split; [assumption |]; split; [discriminate |].
  all: split;
    [| intros Ho; try discriminate Ho;
       unfold teardown_events, released;
       rewrite Hdir, Hempty, ?Hout, ?Herr, ?Hfo, ?Hfe; reflexivity ].
  all: try (intros Hx; discriminate Hx).
  all: intros _ d Hd Hne; injection Hd as <-.
  all: split; [reflexivity |]; split; [reflexivity |].
  all: first [ now (eexists [_]) | now (eexists [_; _])
             | now (eexists [_; _; _]) ].
Qed.

(** The ['close'] listener never rejects: a failed teardown leaves the
    promise of [kill()] pending. *)
Lemma on_close_spec (w : World) (s : Sys) :
  exists evs l' o,
    on_close w s = (mkSys l' (trace s ++ evs), o) /\
    Forall (fun e => is_teardown e = true) evs /\
    chrome l' = chrome (this s) /\
    (forall e, o <> Rejected e) /\
    (o = Resolved tt ->
     forall dir, TMP_PROFILE_DIR (this s) = Some dir -> dir <> "" ->
       truthy_num (outFile l') = false /\
       truthy_num (errFile l') = false /\
       exists evs0, evs = (evs0 ++ [EvRimraf dir])%list) /\
    (o = Resolved tt -> evs = teardown_events (this s)).
Proof.
  destruct (destroyTmp_spec w s)
    as (evs & l' & o & Hrun & Hev & Hch & _ & Hnp & Hres & Hexact).
  unfold on_close, drop_rejection. rewrite Hrun.
  destruct o as [[] | e |].
  - exists evs, l', (Resolved tt).
    split; [reflexivity |]. split; [exact Hev |]. split; [exact Hch |].
    split; [discriminate |]. split; [exact Hres | exact Hexact].
  - exists evs, l', Pending.
    split; [reflexivity |]. split; [exact Hev |]. split; [exact Hch |].
    split; [discriminate |]. split; discriminate.
  - contradiction.
Qed.

(** [kill()] has no path to [reject], and always clears the child. *)
Lemma kill_never_rejects (w : World) (s : Sys) (e : Error) :
  snd (kill w s) <> Rejected e.
Proof.
  destruct (chrome (this s)) as [c |] eqn:Hc.
  - rewrite (kill_child w s c Hc). cbv zeta.
    destruct (w_childCloses w _ c); [| discriminate].
    match goal with |- context [on_close w ?st] =>
      destruct (on_close_spec w st) as (evs & l' & o & -> & _ & _ & Hnr & _)
    end.
    apply Hnr.
  - rewrite (kill_no_child w s Hc). discriminate.
Qed.

Lemma kill_clears (w : World) (s : Sys) : chrome (this (fst (kill w s))) = None.
Proof.
  destruct (chrome (this s)) as [c |] eqn:Hc.
  - rewrite (kill_child w s c Hc). cbv zeta.
    destruct (w_childCloses w _ c); [| reflexivity].
    match goal with |- context [on_close w ?st] =>
      destruct (on_close_spec w st) as (evs & l' & o & -> & _ & Hch & _)
    end.
    exact Hch.
  - rewrite (kill_no_child w s Hc). exact Hc.
Qed.

Lemma kill_executor_clears (w : World) (s : Sys) :
  chrome (this (fst (kill_executor w s))) = None.
Proof.
  destruct (chrome (this s)) as [c |] eqn:Hc.
  - rewrite (kill_executor_child w s c Hc). reflexivity.
  - rewrite (kill_executor_no_child w s Hc). exact Hc.
Qed.

Lemma kills_fixed (w : World) (n : nat) (s : Sys) :
  chrome (this s) = None -> kills w n s = s.
Proof.
  intros H. induction n as [| n IH]; cbn [kills]; [reflexivity |].
  rewrite (kill_no_child w s H). exact IH.
Qed.

(** ** Polling *)

(** One probe: one event, resolved or rejected with the answer. *)
Lemma isDebuggerReady_run (w : World) (s : Sys) :
  isDebuggerReady w s =
    (mkSys (this s)
       (trace s ++ [EvConnect (port (this s)) (w_connect w (now s) (port (this s)))]),
     match w_connect w (now s) (port (this s)) with
     | None => Resolved tt
     | Some e => Rejected e
     end).
Proof.
  unfold isDebuggerReady. unfold_monad. cbv beta iota.
  destruct (w_connect w (now s) (port (this s))); reflexivity.
Qed.

(** One round of [poll] up to the answer of its probe. *)
Lemma probe_round_run (w : World) (retries : nat) (waitStatus : string) (s : Sys) :
  let s1 := mkSys (this s) (trace s ++ announce_events retries waitStatus) in
  (announce retries waitStatus ;; isDebuggerReady w) s =
    (mkSys (this s)
       (trace s1 ++ [EvConnect (port (this s)) (w_connect w (now s1) (port (this s)))]),
     match w_connect w (now s1) (port (this s)) with
     | None => Resolved tt
     | Some e => Rejected e
     end).
Proof.
  unfold announce, announce_events.
  destruct (retries =? 0)%nat; unfold_monad; cbv beta iota zeta;
    rewrite isDebuggerReady_run; cbn [this trace];
    rewrite <- ?app_assoc; cbn [app]; reflexivity.
Qed.

Lemma is_polling_announce retries waitStatus :
  Forall (fun e => is_polling e = true) (announce_events retries waitStatus).
Proof.
  unfold announce_events. destruct (retries =? 0)%nat; repeat constructor.
Qed.

(** [poll] assigns no field and only logs, probes and waits. *)
Lemma poll_footprint (w : World) (retries : nat) (waitStatus : string) (s : Sys) :
  exists tr,
    fst (poll w retries waitStatus s) = mkSys (this s) (trace s ++ tr) /\
    Forall (fun e => is_polling e = true) tr.
Proof.
  apply (poll_elim w (fun retries waitStatus s res =>
    exists tr, fst res = mkSys (this s) (trace s ++ tr) /\
               Forall (fun e => is_polling e = true) tr)); cbv zeta.
  - intros r ws s0 s1 [] Hround. rewrite probe_round_run in Hround. cbv zeta in Hround.
    injection Hround as <- _. unfold_monad. cbn [fst this trace].
    eexists. split; [rewrite <- !app_assoc; reflexivity |].
    apply Forall_app; split; [apply is_polling_announce | repeat constructor].
  - intros r ws s0 s1 Hround. rewrite probe_round_run in Hround. cbv zeta in Hround.
    injection Hround as <- _. cbn [fst this trace].
    eexists. split; [rewrite <- !app_assoc; reflexivity |].
    apply Forall_app; split; [apply is_polling_announce | repeat constructor].
  - intros r Hle ws s0 s1 err [tr [IH Htr]] _ Hround.
    rewrite probe_round_run in Hround. cbv zeta in Hround.
    injection Hround as <- _. rewrite IH. unfold_monad. cbn [fst this trace].
    eexists. split; [rewrite <- !app_assoc; reflexivity |].
    apply Forall_app; split; [apply is_polling_announce |].
    constructor; [reflexivity |]. constructor; [reflexivity | exact Htr].
  - intros r Hlt ws s0 s1 err _ Hround.
    rewrite probe_round_run in Hround. cbv zeta in Hround.
    injection Hround as <- _. cbn [fst this trace].
    eexists. split; [rewrite <- !app_assoc; reflexivity |].
    apply Forall_app; split; [apply is_polling_announce | repeat constructor].
Qed.

Lemma net_timer_announce retries waitStatus :
  filter net_timer (announce_events retries waitStatus) = [].
Proof. unfold announce_events. destruct (retries =? 0)%nat; reflexivity. Qed.

Lemma poll_schedule_cons p ms e errs e' :
  poll_schedule p ms (e :: errs ++ [e']) =
    EvConnect p (Some e) :: EvDelay ms :: poll_schedule p ms (errs ++ [e']).
Proof. destruct errs; reflexivity. Qed.

(** From counter [retries], with the port closed at all times, [poll] makes
    [11 - retries] probes, waits between them, and rejects with the error
    of the last one. *)
Lemma poll_exhausts (w : World) (retries : nat) (waitStatus : string) (s : Sys) :
  (forall t, w_connect w t (port (this s)) <> None) ->
  (retries <= 10)%nat ->
  exists errs e tr,
    length errs = (10 - retries)%nat /\
    poll w retries waitStatus s = (mkSys (this s) (trace s ++ tr), Rejected e) /\
    filter net_timer tr =
      poll_schedule (port (this s)) (pollInterval (this s)) (errs ++ [e]).
Proof.
  apply (poll_elim w (fun retries waitStatus s res =>
    (forall t, w_connect w t (port (this s)) <> None) ->
    (retries <= 10)%nat ->
    exists errs e tr,
      length errs = (10 - retries)%nat /\
      res = (mkSys (this s) (trace s ++ tr), Rejected e) /\
      filter net_timer tr =
        poll_schedule (port (this s)) (pollInterval (this s)) (errs ++ [e])));
    cbv zeta.
  - intros r ws s0 s1 [] Hround Hclosed _. rewrite probe_round_run in Hround.
    cbv zeta in Hround. exfalso.
    match type of Hround with context [w_connect w ?t ?p] =>
      specialize (Hclosed t); destruct (w_connect w t p); [discriminate | auto]
    end.
  - intros r ws s0 s1 Hround Hclosed _. rewrite probe_round_run in Hround.
    cbv zeta in Hround. exfalso.
    match type of Hround with context [w_connect w ?t ?p] =>
      specialize (Hclosed t); destruct (w_connect w t p); [discriminate | auto]
    end.
  - intros r Hle ws s0 s1 err IH _ Hround Hclosed _.
    rewrite probe_round_run in Hround. cbv zeta in Hround.
    match type of Hround with context [w_connect w ?t ?p] =>
      destruct (w_connect w t p) as [e0 |]; [| discriminate]
    end.
    injection Hround as <- <-. unfold delay, emit in *.
    cbn [fst this trace] in *.
    destruct (IH Hclosed Hle) as (errs & e & tr & Hlen & Hrun & Hsched).
    exists (e0 :: errs), e. eexists. split; [cbn [length]; lia |].
    split; [rewrite Hrun; rewrite <- !app_assoc; reflexivity |].
    rewrite !filter_app, net_timer_announce. cbn [filter net_timer app].
    rewrite Hsched. symmetry. apply poll_schedule_cons.
  - intros r Hlt ws s0 s1 err _ Hround Hclosed Hr.
    rewrite probe_round_run in Hround. cbv zeta in Hround.
    match type of Hround with context [w_connect w ?t ?p] =>
      destruct (w_connect w t p) as [e0 |]; [| discriminate]
    end.
    injection Hround as <- <-. cbn [this trace].
    exists [], e0. eexists. split; [cbn [length]; lia |].
    split; [rewrite <- !app_assoc; reflexivity |].
    rewrite !filter_app, net_timer_announce. reflexivity.
Qed.

Lemma waitUntilReady_exhausts (w : World) (s : Sys) :
  (forall t, w_connect w t (port (this s)) <> None) ->
  exists errs e tr,
    length errs = 10%nat /\
    waitUntilReady w s = (mkSys (this s) (trace s ++ tr), Rejected e) /\
    filter net_timer tr =
      poll_schedule (port (this s)) (pollInterval (this s)) (errs ++ [e]).
Proof.
  intros H. apply (poll_exhausts w 0 "Waiting for browser." s H). lia.
Qed.

(** ** The phases of [launch()] *)

(** The blocks of [launch()], as functions of the answers of the host. *)
Lemma now_same (s : Sys) (l : Launcher) : now (mkSys l (trace s)) = now s.
Proof. reflexivity. Qed.

Lemma reuse_check_run (w : World) (s : Sys) :
  reuse_check w s =
    if requestedPort (this s) =? 0 then (s, Resolved false)
    else
      let p := requestedPort (this s) in
      let l1 := set_port (Some p) (this s) in
      match w_connect w (now s) (Some p) with
      | None => (mkSys l1 (trace s ++ [EvConnect (Some p) None]), Resolved true)
      | Some e =>
          (mkSys l1 (trace s ++ [EvConnect (Some p) (Some e); reuse_log p]),
           Resolved false)
      end.
Proof.
  unfold reuse_check, reuse_log. unfold bind at 1, get_this at 1. cbv beta iota.
  destruct (requestedPort (this s) =? 0); [reflexivity |]. cbn [negb].
  unfold bind at 1, modify at 1. cbv beta iota. unfold try_catch, bind at 1.
  rewrite isDebuggerReady_run. cbn [this trace port set_port]. rewrite !now_same.
  destruct (w_connect w (now s) (Some (requestedPort (this s)))); [| reflexivity].
  unfold_monad. cbv beta iota. cbn [this trace port set_port tmpl_num].
  rewrite <- app_assoc. reflexivity.
Qed.

Lemma prepare_run (w : World) (s : Sys) :
  prepare w s =
    if negb (supported (platform w)) then (s, Rejected (unsupported_error w))
    else
      match w_makeTmpDir w (now s) with
      | Throw e => (mkSys (this s) (trace s ++ [EvMakeTmpDir (Throw e)]), Rejected e)
      | Ok dir =>
        let s1 := mkSys (set_TMP_PROFILE_DIR (Some dir) (this s))
                    (trace s ++ [EvMakeTmpDir (Ok dir)]) in
        match w_openSync w (now s1) (dir ++ "/chrome-out.log") "a" with
        | Throw e =>
            (mkSys (this s1)
               (trace s1 ++ [EvOpen (dir ++ "/chrome-out.log") "a" (Throw e)]),
             Rejected e)
        | Ok out =>
          let s2 := mkSys (set_outFile (Some out) (this s1))
                      (trace s1 ++ [EvOpen (dir ++ "/chrome-out.log") "a" (Ok out)]) in
          match w_openSync w (now s2) (dir ++ "/chrome-err.log") "a" with
          | Throw e =>
              (mkSys (this s2)
                 (trace s2 ++ [EvOpen (dir ++ "/chrome-err.log") "a" (Throw e)]),
               Rejected e)
          | Ok err =>
              (mkSys
                 (set_ready true
                    (set_pidFile (Some (dir ++ "/chrome.pid"))
                       (set_errFile (Some err) (this s2))))
                 (trace s2 ++
                    [EvOpen (dir ++ "/chrome-err.log") "a" (Ok err);
                     EvLog LVerbose "ChromeLauncher" ("created " ++ dir)]),
               Resolved tt)
          end
        end
      end.
Proof.
  unfold prepare, unsupported_error.
  destruct (negb (supported (platform w))); [reflexivity |].
  unfold makeTmpDir, openSync. unfold_monad. cbv beta iota zeta.
  destruct (w_makeTmpDir w (now s)) as [dir | e]; [| reflexivity].
  cbn [this trace TMP_PROFILE_DIR set_TMP_PROFILE_DIR tmpl_str].
  match goal with |- context [w_openSync w ?t ?p ?f] =>
    destruct (w_openSync w t p f) as [out | e]; [| reflexivity] end.
  cbn [this trace TMP_PROFILE_DIR set_TMP_PROFILE_DIR set_outFile tmpl_str].
  match goal with |- context [w_openSync w ?t (dir ++ "/chrome-err.log") ?f] =>
    destruct (w_openSync w t (dir ++ "/chrome-err.log") f) as [err | e]; [| reflexivity] end.
  cbn [this trace TMP_PROFILE_DIR set_TMP_PROFILE_DIR set_outFile set_errFile set_pidFile tmpl_str].
  rewrite <- app_assoc. reflexivity.
Qed.

Lemma resolve_chromePath_run (w : World) (s : Sys) :
  resolve_chromePath w s =
    match chromePath (this s) with
    | Some p => (s, Resolved p)
    | None =>
        let found := w_chromeFinder w (now s) (platform w) in
        let tr := (trace s ++ [EvFind (platform w) found])%list in
        match found with
        | [] => (mkSys (this s) tr, Rejected no_installation_error)
        | first :: _ =>
            (mkSys (set_chromePath (Some first) (this s)) tr, Resolved first)
        end
    end.
Proof.
  unfold resolve_chromePath, chromeFinder, no_installation_error.
  unfold_monad. cbv beta iota zeta.
  destruct (chromePath (this s)); [reflexivity |].
  destruct (w_chromeFinder w (now s) (platform w)); reflexivity.
Qed.

Lemma choose_port_run (w : World) (s : Sys) :
  choose_port w s =
    if requestedPort (this s) =? 0 then
      match w_getRandomPort w (now s) with
      | Ok p =>
          (mkSys (set_port (Some p) (this s)) (trace s ++ [EvGetRandomPort (Ok p)]),
           Resolved tt)
      | Throw e =>
          (mkSys (this s) (trace s ++ [EvGetRandomPort (Throw e)]), Rejected e)
      end
    else (s, Resolved tt).
Proof.
  unfold choose_port, getRandomPort. unfold_monad. cbv beta iota.
  destruct (requestedPort (this s) =? 0); [| reflexivity].
  destruct (w_getRandomPort w (now s)); reflexivity.
Qed.

Lemma start_child_run (w : World) (execPath : string) (s : Sys) :
  let l := this s in
  let c := w_spawn w (now s) execPath (flags w l) in
  let s1 := mkSys (set_chrome (Some c) l)
              (trace s ++ [EvSpawn execPath (flags w l) (outFile l) (errFile l) c]) in
  start_child w execPath s =
    match cp_pid c with
    | None => (s1, Rejected undefined_toString_error)
    | Some n =>
        match w_writeFileSync w (now s1) (pidFile l) (num_str n) with
        | Some e =>
            (mkSys (this s1)
               (trace s1 ++ [EvWriteFile (pidFile l) (num_str n) (Some e)]),
             Rejected e)
        | None =>
            (mkSys (this s1)
               (trace s1 ++ [EvWriteFile (pidFile l) (num_str n) None;
                             running_log c (port l)]),
             Resolved (cp_pid c))
        end
    end.
Proof.
  unfold start_child, spawn_child, writeFileSync, toString, running_log.
  unfold_monad. cbv beta iota zeta.
  cbn [this trace pidFile port set_chrome].
  destruct (cp_pid (w_spawn w (now s) execPath (flags w (this s))))
    as [n |] eqn:Hn; [| reflexivity].
  cbv beta iota. cbn [this trace pidFile port set_chrome].
  match goal with |- context [w_writeFileSync w ?t ?p ?d] =>
    destruct (w_writeFileSync w t p d); [reflexivity |] end.
  cbn [this trace pidFile port set_chrome].
  rewrite <- !app_assoc. reflexivity.
Qed.

Lemma spawn_executor_tracked (w : World) (execPath : string) (s : Sys) (c : ChildProcess) :
  chrome (this s) = Some c ->
  spawn_executor w execPath s =
    (mkSys (this s)
       (trace s ++ [EvLog LLog "ChromeLauncher"
                      ("Chrome already running with pid " ++ tmpl_num (cp_pid c) ++ ".")]),
     Resolved (cp_pid c)).
Proof.
  intros H. unfold spawn_executor. unfold bind at 1, get_this. cbv beta iota.
  rewrite H. reflexivity.
Qed.

Lemma spawn_executor_fresh (w : World) (execPath : string) (s : Sys) :
  chrome (this s) = None ->
  spawn_executor w execPath s = (choose_port w ;; start_child w execPath) s.
Proof.
  intros H. unfold spawn_executor. unfold bind at 1, get_this. cbv beta iota.
  rewrite H. reflexivity.
Qed.

(** ** Symbolic execution of [launch()] *)

(** The polling, whatever its end, seen from [spawn]. *)
Lemma waitUntilReady_footprint (w : World) (s : Sys) :
  exists tr o,
    waitUntilReady w s = (mkSys (this s) (trace s ++ tr), o) /\
    Forall (fun e => is_polling e = true) tr.
Proof.
  destruct (poll_footprint w 0 "Waiting for browser." s) as (tr & Hfst & Htr).
  unfold waitUntilReady. destruct (poll w 0 _ s) as [s' o]. cbn [fst] in Hfst.
  subst s'. exists tr, o. split; [reflexivity | exact Htr].
Qed.

Lemma Forall_not_In (P : Event -> bool) (tr : list Event) (e : Event) :
  Forall (fun x => P x = true) tr -> P e = false -> ~ In e tr.
Proof.
  intros H He Hin. rewrite Forall_forall in H. specialize (H e Hin). congruence.
Qed.

Lemma polling_is_spawning (tr : list Event) :
  Forall (fun e => is_polling e = true) tr ->
  Forall (fun e => is_spawning e = true) tr.
Proof.
  apply Forall_impl. intros [] H; try discriminate H; try reflexivity.
Qed.

(** Case analysis on the end of the polling. *)
Ltac exec_wait :=
  match goal with
  | |- context [waitUntilReady ?w ?st] =>
      let tr := fresh "tr" in let o := fresh "o" in
      let Hw := fresh "Hwait" in let Htr := fresh "Hpoll" in
      destruct (waitUntilReady_footprint w st) as (tr & o & Hw & Htr);
      rewrite Hw; clear Hw; cbn [this trace]; destruct o as [[] | ? |]
  end.

(** Symbolic execution of [spawn] up to the polling. *)
Ltac exec_spawn :=
  unfold spawn; unfold bind at 1; unfold drop_rejection;
  match goal with
  | |- context [spawn_executor ?w ?exe ?st] =>
      let c := fresh "c" in let Hc := fresh "Hchrome" in
      destruct (chrome (this st)) as [c |] eqn:Hc;
      [ rewrite (spawn_executor_tracked w exe st c Hc)
      | rewrite (spawn_executor_fresh w exe st Hc); unfold bind at 1;
        rewrite choose_port_run;
        let Hrp := fresh "Hrp" in
        destruct (requestedPort (this st) =? 0) eqn:Hrp;
        [ let p := fresh "p" in let e := fresh "e" in let Hp := fresh "Hport" in
          destruct (w_getRandomPort w (now st)) as [p | e] eqn:Hp |];
        cbv beta iota;
        try (rewrite start_child_run; cbv zeta;
             match goal with |- context [w_spawn ?w ?t ?x ?a] =>
               let c := fresh "c" in let Hc := fresh "Hspawnee" in
               remember (w_spawn w t x a) as c eqn:Hc;
               let n := fresh "n" in let Hn := fresh "Hpid" in
               destruct (cp_pid c) as [n |] eqn:Hn end;
             [ match goal with |- context [w_writeFileSync ?w ?t ?p ?d] =>
                 let e := fresh "e" in let Hw := fresh "Hwrite" in
                 destruct (w_writeFileSync w t p d) as [e |] eqn:Hw end
             | ]) ]
  end;
  cbv beta iota; cbn [this trace];
  try (unfold bind at 1).

(** Equal traces up to the bracketing of the appended events. *)
Ltac trace_shape :=
  rewrite <- ?app_assoc; cbn [app]; reflexivity.

Lemma launcher_eta (l : Launcher) :
  l = set_chrome (chrome l) (set_port (port l) l).
Proof. destruct l; reflexivity. Qed.

(** Case analysis on the position of an event in an explicit trace; events
    that the abstract tail cannot hold are ruled out. *)
Ltac split_in H :=
  lazymatch type of H with
  | In _ (_ :: _) => destruct H as [H | H]; [ try discriminate H | split_in H ]
  | In _ [] => destruct H
  | In ?e ?tr =>
      try (exfalso;
           match goal with
           | Hp : Forall (fun x => ?P x = true) tr |- _ =>
               exact (Forall_not_In P tr e Hp eq_refl H)
           end)
  | _ => idtac
  end.

(** [spawn(execPath)], every path: what it adds to the trace, what it
    assigns, with which arguments a child is started, when the port source
    is asked, and the child behind a resolved pid. *)
Lemma spawn_spec (w : World) (execPath : string) (s : Sys) :
  exists evs l' o,
    spawn w execPath s = (mkSys l' (trace s ++ evs), o) /\
    Forall (fun e => is_spawning e = true) evs /\
    l' = set_chrome (chrome l') (set_port (port l') (this s)) /\
    (requestedPort (this s) <> 0 -> port l' = port (this s)) /\
    (forall exe args out err c,
       In (EvSpawn exe args out err c) evs ->
       chrome (this s) = None /\ exe = execPath /\ args = flags w l' /\
       out = outFile l' /\ err = errFile l' /\ chrome l' = Some c /\
       (requestedPort (this s) = 0 ->
        exists p, port l' = Some p /\ In (EvGetRandomPort (Ok p)) evs)) /\
    (forall r, In (EvGetRandomPort r) evs ->
       requestedPort (this s) = 0 /\ chrome (this s) = None) /\
    (forall p, o = Resolved p -> exists c, chrome l' = Some c /\ cp_pid c = p).
Proof.
  pose proof (launcher_eta (this s)) as Heta.
  exec_spawn; try exec_wait; unfold ret.
  all: eexists _, _, _; (split; [trace_shape |]).
  all: split; [repeat (constructor; [reflexivity |]);
               try constructor; try (apply polling_is_spawning; assumption) |].
  all: split; [try exact Heta; destruct (this s); reflexivity |].
  all: split; [intros Hne; try reflexivity;
               try (apply Z.eqb_eq in Hrp; contradiction) |].
  all: split;
    [intros exe args out err c' Hin; split_in Hin;
     injection Hin as <- <- <- <- <-;
     do 6 (split; [reflexivity |]);
     intros H0;
     first [ exfalso; apply Z.eqb_neq in Hrp; contradiction
           | eexists; (split; [reflexivity | cbn [In]; auto]) ] |].
  all: split;
    [intros r Hin; split_in Hin;
     (split; [apply Z.eqb_eq; assumption | reflexivity]) |].
  all: intros q Hq; try discriminate Hq; injection Hq as <-.
  all: eexists; split;
    [eassumption || reflexivity | first [reflexivity | assumption]].
Qed.

(** Symbolic execution of [launch()]: one goal per path through the reuse
    check, the preparation and the choice of the executable. *)
Ltac exec_prepare :=
  match goal with
  | |- context [tmpDirandPidFileReady (this ?st)] =>
      let Hr := fresh "Hready" in
      destruct (tmpDirandPidFileReady (this st)) eqn:Hr; cbn [negb];
      [ unfold ret at 1
      | rewrite prepare_run;
        let Hs := fresh "Hsupported" in
        destruct (supported (platform _)) eqn:Hs; cbn [negb];
        [ let dir := fresh "dir" in let e := fresh "e" in
          let Hd := fresh "Hmktmp" in
          match goal with |- context [w_makeTmpDir ?w ?t] =>
            destruct (w_makeTmpDir w t) as [dir | e] eqn:Hd end;
          [ cbv zeta;
            let fo := fresh "fo" in let Ho := fresh "Hopen_out" in
            match goal with |- context [w_openSync ?w ?t ?p ?f] =>
              destruct (w_openSync w t p f) as [fo | e] eqn:Ho end;
            [ let fe := fresh "fe" in let He := fresh "Hopen_err" in
              match goal with
              | |- context [w_openSync ?w ?t (dir ++ "/chrome-err.log") ?f] =>
                  destruct (w_openSync w t (dir ++ "/chrome-err.log") f)
                    as [fe | e] eqn:He
              end
            | ]
          | ]
        | ] ]
  end; cbv beta iota; cbn [this trace].

Ltac exec_resolve :=
  unfold bind at 1; rewrite resolve_chromePath_run; cbn [this trace];
  cbn [chromePath set_port set_ready set_pidFile set_errFile set_outFile
         set_TMP_PROFILE_DIR];
  match goal with
  | |- context [match chromePath (this ?st) with _ => _ end] =>
      let exe := fresh "exe" in let Hcp := fresh "HchromePath" in
      destruct (chromePath (this st)) as [exe |] eqn:Hcp;
      [ | cbv zeta;
          let Hf := fresh "Hfound" in
          match goal with |- context [w_chromeFinder ?w ?t ?p] =>
            destruct (w_chromeFinder w t p) as [| exe ?] eqn:Hf end ]
  end; cbv beta iota; cbn [this trace].

Ltac exec_launch s :=
  unfold Launcher_launch; unfold bind at 1; rewrite reuse_check_run;
  let Hrp := fresh "Hrp0" in
  destruct (requestedPort (this s) =? 0) eqn:Hrp;
  [ | cbv zeta;
      let e := fresh "e0" in let Hp := fresh "Hprobe" in
      destruct (w_connect _ (now s) (Some (requestedPort (this s))))
        as [e |] eqn:Hp ];
  cbv beta iota;
  [ unfold bind at 1, get_this at 1; cbv beta iota; unfold bind at 1;
    exec_prepare
  | unfold bind at 1, get_this at 1; cbv beta iota; unfold bind at 1;
    cbn [this tmpDirandPidFileReady set_port]; exec_prepare
  | unfold ret ].

(** The events of a path, read off its final trace. *)
Lemma events_since_mk (s : Sys) (l : Launcher) (evs : list Event) :
  events_since s (mkSys l (trace s ++ evs)) = evs.
Proof. apply events_since_app. reflexivity. Qed.

Lemma events_since_same (s : Sys) (l : Launcher) :
  events_since s (mkSys l (trace s)) = [].
Proof. apply events_since_app. cbn. rewrite app_nil_r. reflexivity. Qed.

Lemma events_since_refl (s : Sys) : events_since s s = [].
Proof. apply events_since_app. rewrite app_nil_r. reflexivity. Qed.

(** The last step of a path: [spawn], through [spawn_spec]. *)
Ltac exec_spawn_spec :=
  unfold bind at 1;
  match goal with
  | |- context [spawn ?w ?exe ?st] =>
      let evs := fresh "evs" in let l' := fresh "l'" in let o := fresh "o" in
      let Hrun := fresh "Hspawn" in let Hfp := fresh "Hfoot" in
      let Hfr := fresh "Hframe" in let Hpt := fresh "Hport" in
      let Hsp := fresh "Hspawned" in let Hrp := fresh "Hrandom" in
      let Hres := fresh "Hresolved" in
      destruct (spawn_spec w exe st)
        as (evs & l' & o & Hrun & Hfp & Hfr & Hpt & Hsp & Hrp & Hres);
      rewrite Hrun; clear Hrun; destruct o as [? | ? |];
      cbv beta iota; unfold modify; cbn [this trace] in *
  end.

Ltac norm_events :=
  cbn [fst snd this trace]; rewrite <- ?app_assoc; cbn [app];
  rewrite ?events_since_mk, ?events_since_same, ?events_since_refl.

(** Name the result of a run, so that it is executed once. *)
Ltac name_result t :=
  let r := fresh "r" in let Hr := fresh "Hr" in
  set (r := t); assert (Hr : t = r) by reflexivity; clearbody r; revert Hr.

(** [spawn(execPath)] on a host that lets the child start, with the chosen
    port closed at all times: the polling is exhausted. *)
Lemma spawn_exhausts (w : World) (execPath : string) (s : Sys) :
  (chrome (this s) = None ->
   child_has_pid w /\ pid_file_ok w /\
   (requestedPort (this s) = 0 -> port_source_ok w)) ->
  exists evs l' o,
    spawn w execPath s = (mkSys l' (trace s ++ evs), o) /\
    ((forall t, w_connect w t (port l') <> None) ->
     exists errs e,
       length errs = 10%nat /\ o = Rejected e /\
       filter net_timer evs =
         poll_schedule (port l') (pollInterval (this s)) (errs ++ [e])).
Proof.
  intros Hhost. exec_spawn.
  all: try (destruct (Hhost eq_refl) as (Hchild & Hfile & Hsrc)).
  all: try (rewrite Hfile in Hwrite; discriminate Hwrite).
  all: try (match type of Hspawnee with _ = w_spawn _ ?t ?x ?a =>
              destruct (Hchild t x a) as [q Hq] end;
            rewrite <- Hspawnee, Hpid in Hq; discriminate Hq).
  all: try (apply Z.eqb_eq in Hrp; destruct (Hsrc Hrp (now s)) as [q Hq];
            rewrite Hq in Hport; discriminate Hport).
  all: match goal with
       | |- context [waitUntilReady ?w ?st] =>
           destruct (waitUntilReady_footprint w st) as (tr & o & Hw & _);
           pose proof (waitUntilReady_exhausts w st) as Hex;
           rewrite Hw in *; cbn [this trace] in *
       end.
  all: destruct o as [[] | e1 |]; cbv beta iota; unfold ret.
  all: eexists _, _, _; (split; [trace_shape |]).
  all: cbn [port set_chrome set_port]; intros Hclosed.
  all: destruct (Hex Hclosed) as (errs & e2 & tr2 & Hlen & Heq & Hsched).
  all: try discriminate Heq.
  all: injection Heq as Htr <-; apply app_inv_head in Htr; subst tr2.
  all: exists errs, e1; split; [exact Hlen |]; split; [reflexivity |].
  all: cbn [filter net_timer pollInterval set_chrome set_port] in *;
    exact Hsched.
Qed.

(** The exported [launch] around [Launcher.launch()]. *)
Lemma launch_run (w : World) (opts : Options) (tr : list Event) :
  launch w opts tr =
    (set_handleSIGINT (Some (defaults (o_handleSIGINT opts) true)) opts,
     match Launcher_launch w (launch_start opts tr) with
     | (s', Resolved _) => (s', Resolved (handle_of s'))
     | (s', Rejected e) => (s', Rejected e)
     | (s', Pending) => (s', Pending)
     end).
Proof.
  unfold launch, launch_start, handle_of. f_equal.
  cbn [o_handleSIGINT set_handleSIGINT defaults].
  replace (new_Launcher (set_handleSIGINT _ opts)) with (new_Launcher opts)
    by (destruct opts; reflexivity).
  unfold bind at 1.
  destruct (defaults (o_handleSIGINT opts) true).
  - unfold emit at 1. cbv beta iota. unfold bind at 1. cbn [this trace].
    destruct (Launcher_launch w _) as [s' [[] | e |]]; reflexivity.
  - unfold ret at 1. cbv beta iota. unfold bind at 1. rewrite app_nil_r.
    destruct (Launcher_launch w _) as [s' [[] | e |]]; reflexivity.
Qed.

(** [launch()] of a fresh instance on a platform that is not supported. *)
Lemma launch_unsupported (w : World) (s : Sys) :
  supported (platform w) = false ->
  tmpDirandPidFileReady (this s) = false ->
  Launcher_launch w s =
    if requestedPort (this s) =? 0 then (s, Rejected (unsupported_error w))
    else
      let p := requestedPort (this s) in
      match w_connect w (now s) (Some p) with
      | None =>
          (mkSys (set_port (Some p) (this s)) (trace s ++ [EvConnect (Some p) None]),
           Resolved tt)
      | Some e =>
          (mkSys (set_port (Some p) (this s))
             (trace s ++ [EvConnect (Some p) (Some e); reuse_log p]),
           Rejected (unsupported_error w))
      end.
Proof.
  intros Hsup Hready.
  unfold Launcher_launch. unfold bind at 1. rewrite reuse_check_run.
  destruct (requestedPort (this s) =? 0).
  - unfold bind at 1, get_this at 1. cbv beta iota. rewrite Hready. cbn [negb].
    unfold bind at 1. rewrite prepare_run, Hsup. reflexivity.
  - cbv zeta. destruct (w_connect w (now s) _); [| reflexivity].
    cbv beta iota. unfold bind at 1, get_this at 1. cbv beta iota.
    cbn [this tmpDirandPidFileReady set_port]. rewrite Hready. cbn [negb].
    unfold bind at 1. rewrite prepare_run, Hsup. reflexivity.
Qed.

Lemma skipn_length_app (A : Type) (l x : list A) : skipn (length l) (l ++ x) = x.
Proof. rewrite skipn_app, skipn_all, Nat.sub_diag. reflexivity. Qed.

(** The arguments of a child spawned by [launch()] when no port is
    requested. *)
Lemma launch_spawn_args (w : World) (s : Sys) (exe : string)
  (args : list string) (out err : option Z) (c : ChildProcess) :
  requestedPort (this s) = 0 ->
  In (EvSpawn exe args out err c) (events_since s (fst (Launcher_launch w s))) ->
  let l' := this (fst (Launcher_launch w s)) in
  args = flags w l' /\
  chromeFlags l' = chromeFlags (this s) /\
  startingUrl l' = startingUrl (this s) /\
  (exists p, port l' = Some p /\
     In (EvGetRandomPort (Ok p)) (events_since s (fst (Launcher_launch w s)))) /\
  (tmpDirandPidFileReady (this s) = false ->
   exists dir, TMP_PROFILE_DIR l' = Some dir /\
     In (EvMakeTmpDir (Ok dir)) (events_since s (fst (Launcher_launch w s)))).
Proof.
  intros Hzero. name_result (Launcher_launch w s).
  exec_launch s; try exec_resolve; try exec_spawn_spec; intros <-; norm_events.
  all: try (apply Z.eqb_neq in Hrp0; contradiction).
  all: intros Hin; split_in Hin.
  all: destruct (Hspawned _ _ _ _ _ Hin) as (_ & _ & -> & _ & _ & _ & Hp).
  all: destruct (Hp Hzero) as (p & Hpl & Hpin); clear Hp.
  all: pose proof (f_equal chromeFlags Hframe) as Hcf;
       pose proof (f_equal startingUrl Hframe) as Hsu;
       pose proof (f_equal TMP_PROFILE_DIR Hframe) as Htd;
       cbn in Hcf, Hsu, Htd.
  all: cbv zeta; cbn [this port chromeFlags startingUrl TMP_PROFILE_DIR set_pid].
  all: split; [reflexivity |]; split; [exact Hcf |]; split; [exact Hsu |].
  all: split; [exists p; split; [exact Hpl |]; cbn [In]; auto 10 |].
  all: intros Hnr; try discriminate Hnr.
  all: eexists; split; [exact Htd | cbn [In]; auto].
Qed.

(** [launch()] only appends to the trace. *)
Lemma launch_extends (w : World) (s : Sys) :
  exists evs, trace (fst (Launcher_launch w s)) = (trace s ++ evs)%list.
Proof.
  name_result (Launcher_launch w s).
  exec_launch s; try exec_resolve; try exec_spawn_spec; intros <-;
    cbn [fst this trace]; eexists; rewrite <- ?app_assoc; cbn [app];
    try reflexivity.
  all: symmetry; apply app_nil_r.
Qed.

Lemma launch_events_split (w : World) (opts : Options) (tr : list Event) :
  launch_events w opts tr =
    ((if defaults (o_handleSIGINT opts) true then [EvOnSigint] else [])
       ++ events_since (launch_start opts tr)
            (fst (Launcher_launch w (launch_start opts tr))))%list.
Proof.
  unfold launch_events. rewrite launch_run. cbn [fst snd].
  destruct (launch_extends w (launch_start opts tr)) as [evs Hevs].
  rewrite (events_since_app _ _ evs Hevs).
  destruct (Launcher_launch w (launch_start opts tr)) as [s' [[] | e |]];
    cbn [fst] in *; rewrite Hevs; cbn [launch_start trace];
    rewrite <- app_assoc; apply skipn_length_app.
Qed.

Lemma launch_outcome_handle (w : World) (opts : Options) (tr : list Event)
  (h : LaunchedChrome) :
  launch_outcome w opts tr = Resolved h ->
  h = handle_of (fst (Launcher_launch w (launch_start opts tr))).
Proof.
  unfold launch_outcome. rewrite launch_run. cbn [snd].
  destruct (Launcher_launch w (launch_start opts tr)) as [s' [[] | e |]];
    cbn [fst snd]; intros H; try discriminate H.
  injection H as <-. reflexivity.
Qed.

(** The order of the flags, and which of them are debugging-port flags. *)
Lemma flags_layout (w : World) (l : Launcher) :
  flags w l =
    (DEFAULT_FLAGS w
       ++ [("--remote-debugging-port=" ++ tmpl_num (port l))%string]
       ++ [("--user-data-dir=" ++ tmpl_str (TMP_PROFILE_DIR l))%string]
       ++ sandbox_flags w ++ chromeFlags l ++ [startingUrl l])%list.
Proof.
  unfold flags, sandbox_flags. destruct (String.eqb (platform w) "linux");
    rewrite <- ?app_assoc; reflexivity.
Qed.

Lemma is_port_flag_port_flag (p : Z) : is_port_flag (port_flag p) = true.
Proof.
  unfold is_port_flag, port_flag. cbn. destruct (num_str p); reflexivity.
Qed.

Lemma is_port_flag_user_data_dir (dir : string) :
  is_port_flag ("--user-data-dir=" ++ dir) = false.
Proof. reflexivity. Qed.

Lemma filter_none (A : Type) (f : A -> bool) (l : list A) :
  Forall (fun x => f x = false) l -> filter f l = [].
Proof.
  induction 1 as [| x l Hx _ IH]; cbn; [reflexivity |]. rewrite Hx. exact IH.
Qed.

(** [launch()] never assigns [chromeFlags] and [startingUrl]. *)
Lemma launch_keeps_config (w : World) (s : Sys) :
  chromeFlags (this (fst (Launcher_launch w s))) = chromeFlags (this s) /\
  startingUrl (this (fst (Launcher_launch w s))) = startingUrl (this s).
Proof.
  name_result (Launcher_launch w s).
  exec_launch s; try exec_resolve; try exec_spawn_spec; intros <-;
    cbn [fst this]; try (split; reflexivity).
  all: pose proof (f_equal chromeFlags Hframe) as Hcf;
       pose proof (f_equal startingUrl Hframe) as Hsu;
       cbn in Hcf, Hsu; cbn [chromeFlags startingUrl set_pid];
       split; assumption.
Qed.

(** The reuse path of [launch()]. *)
Lemma launch_reuse_run (w : World) (s : Sys) :
  requestedPort (this s) <> 0 ->
  w_connect w (now s) (Some (requestedPort (this s))) = None ->
  Launcher_launch w s =
    (mkSys (set_port (Some (requestedPort (this s))) (this s))
       (trace s ++ [EvConnect (Some (requestedPort (this s))) None]),
     Resolved tt).
Proof.
  intros Hne Hprobe.
  unfold Launcher_launch. unfold bind at 1. rewrite reuse_check_run.
  apply Z.eqb_neq in Hne. rewrite Hne. cbv zeta. rewrite Hprobe.
  reflexivity.
Qed.

(** The handle on the reuse path, and the pid on the path that spawns. *)
Lemma launch_reuse_handle (w : World) (opts : Options) (tr : list Event) (p : Z) :
  o_port opts = Some p -> p <> 0 ->
  w_connect w (now (launch_start opts tr)) (Some p) = None ->
  launch_outcome w opts tr = Resolved {| h_pid := None; h_port := Some p |}.
Proof.
  intros Hport Hne Hprobe. unfold launch_outcome. rewrite launch_run.
  cbn [snd].
  assert (Hrp : requestedPort (this (launch_start opts tr)) = p).
  { cbn. rewrite Hport. reflexivity. }
  rewrite (launch_reuse_run w (launch_start opts tr)).
  - unfold handle_of. cbn [this port pid set_port]. rewrite Hrp. reflexivity.
  - rewrite Hrp. exact Hne.
  - rewrite Hrp. exact Hprobe.
Qed.

Lemma launch_spawn_pid (w : World) (s : Sys) (exe : string)
  (args : list string) (out err : option Z) (c : ChildProcess) :
  In (EvSpawn exe args out err c) (events_since s (fst (Launcher_launch w s))) ->
  snd (Launcher_launch w s) = Resolved tt ->
  pid (this (fst (Launcher_launch w s))) = cp_pid c.
Proof.
  name_result (Launcher_launch w s).
  exec_launch s; try exec_resolve; try exec_spawn_spec; intros <-; norm_events.
  all: intros Hin Hout; try discriminate Hout; split_in Hin.
  all: destruct (Hspawned _ _ _ _ _ Hin) as (_ & _ & _ & _ & _ & Hc & _).
  all: destruct (Hresolved _ eq_refl) as (c0 & Hc0 & <-).
  all: cbn [pid set_pid]; congruence.
Qed.

(** ** The claims *)

(** C1. The claim at two launches where nothing listens on the chosen
    port: [launch()] on a host where the pid file cannot be written, and
    [launch({chromePath: '/nonexistent'})] on a host where that executable
    cannot be started, so that the child comes without a pid.  In both the
    executor of the promise built in [spawn] throws at line 182, after the
    child is spawned; the promise never settles and [waitUntilReady()] is
    never called.  No connection is attempted and no delay is taken, and
    [launch] stays pending: it makes none of the eleven probes and never
    rejects. *)
Theorem launch_hangs_before_polling :
  (forall t p, w_connect quiet_full_disk_host t p <> None) /\
  launch_outcome quiet_full_disk_host no_options [] = Pending /\
  launch_events quiet_full_disk_host no_options [] =
    [EvOnSigint; EvMakeTmpDir (Ok "/tmp/lighthouse.XXXX");
     EvOpen "/tmp/lighthouse.XXXX/chrome-out.log" "a" (Ok 2);
     EvOpen "/tmp/lighthouse.XXXX/chrome-err.log" "a" (Ok 3);
     EvLog LVerbose "ChromeLauncher" "created /tmp/lighthouse.XXXX";
     EvFind "linux" [chrome_bin];
     EvGetRandomPort (Ok 9333);
     EvSpawn chrome_bin default_args (Some 2) (Some 3) (mkChild (Some 4242));
     EvWriteFile (Some "/tmp/lighthouse.XXXX/chrome.pid") "4242"
       (Some (mkError "ENOSPC"))] /\
  filter net_timer (launch_events quiet_full_disk_host no_options []) = [] /\
  (forall t p, w_connect no_exec_host t p <> None) /\
  launch_outcome no_exec_host nonexistent_chrome [] = Pending /\
  launch_events no_exec_host nonexistent_chrome [] =
    [EvOnSigint; EvMakeTmpDir (Ok "/tmp/lighthouse.XXXX");
     EvOpen "/tmp/lighthouse.XXXX/chrome-out.log" "a" (Ok 2);
     EvOpen "/tmp/lighthouse.XXXX/chrome-err.log" "a" (Ok 3);
     EvLog LVerbose "ChromeLauncher" "created /tmp/lighthouse.XXXX";
     EvGetRandomPort (Ok 9333);
     EvSpawn "/nonexistent" default_args (Some 2) (Some 3) (mkChild None)] /\
  filter net_timer (launch_events no_exec_host nonexistent_chrome []) = [].
Proof.
  split; [intros t p; discriminate |].
  split; [vm_compute; reflexivity |].
  split; [vm_compute; reflexivity |].
  split; [vm_compute; reflexivity |].
  split; [intros t p; discriminate |].
  split; [vm_compute; reflexivity |].
  split; vm_compute; reflexivity.
Qed.

(** C2. When a port is requested (non-zero) and a listener accepts the
    connection of the first probe, [launch()] resolves; the only thing it
    does is that one connection, and the only field of the instance it
    writes is [port]: the locator is not asked, no directory, log file or
    pid file is created, and nothing is spawned. *)
Theorem launch_reuses_listener (w : World) (s : Sys) :
  requestedPort (this s) <> 0 ->
  w_connect w (now s) (Some (requestedPort (this s))) = None ->
  snd (Launcher_launch w s) = Resolved tt /\
  events_since s (fst (Launcher_launch w s)) =
    [EvConnect (Some (requestedPort (this s))) None] /\
  this (fst (Launcher_launch w s)) =
    set_port (Some (requestedPort (this s))) (this s).
Proof.
  intros Hne Hprobe. rewrite (launch_reuse_run w s Hne Hprobe).
  norm_events. repeat split.
Qed.

(** [launch({port: 9222})] on a host where a browser listens already. *)
Lemma launch_reuses_listener_witness :
  snd (Launcher_launch attached_host (launch_start port_9222 [])) = Resolved tt /\
  events_since (launch_start port_9222 [])
    (fst (Launcher_launch attached_host (launch_start port_9222 []))) =
    [EvConnect (Some 9222) None].
Proof.
  destruct (launch_reuses_listener attached_host (launch_start port_9222 []))
    as (Ho & Hev & _).
  - cbn. discriminate.
  - reflexivity.
  - split; [exact Ho | exact Hev].
Defined.

(** C3. Kill is idempotent.  From any state of an instance, whether or not a
    subprocess was ever spawned: the first call of [kill()] never rejects;
    a second call made once the first has run resolves and does nothing;
    so does a second call made right after the first has returned its
    promise (before the child has reported anything); and on an instance
    that tracks no subprocess, [kill()] resolves at once and does nothing. *)
Theorem kill_idempotent (w : World) (s : Sys) :
  (forall e, snd (kill w s) <> Rejected e) /\
  kill w (fst (kill w s)) = (fst (kill w s), Resolved tt) /\
  kill w (fst (kill_executor w s)) = (fst (kill_executor w s), Resolved tt) /\
  (chrome (this s) = None -> kill w s = (s, Resolved tt)).
Proof.
  split; [intros e; apply kill_never_rejects |].
  split; [apply kill_no_child, kill_clears |].
  split; [apply kill_no_child, kill_executor_clears |].
  apply kill_no_child.
Qed.

(** Two calls of [kill()] after a launch that spawned, and one call on an
    instance that never launched. *)
Lemma kill_idempotent_witness :
  kill starting_host (fst (kill starting_host launched)) =
    (fst (kill starting_host launched), Resolved tt) /\
  kill starting_host (launch_start no_options []) =
    (launch_start no_options [], Resolved tt).
Proof.
  destruct (kill_idempotent starting_host launched) as (_ & H2 & _ & _).
  destruct (kill_idempotent starting_host (launch_start no_options []))
    as (_ & _ & _ & H4).
  split; [exact H2 | apply H4; reflexivity].
Defined.

(** On platform freebsd with a listener on 9222, [launch({port: 9222})]
    connects to port 9222 and resolves; no error is raised. *)
Lemma launch_unsupported_platform_counterexample :
  ~ spec_unsupported_platform bsd_host port_9222 [] /\
  launch_events bsd_host port_9222 [] =
    [EvOnSigint; EvConnect (Some 9222) None] /\
  launch_outcome bsd_host port_9222 [] =
    Resolved {| h_pid := None; h_port := Some 9222 |}.
Proof.
  split; [| split; reflexivity].
  intros H. destruct (H eq_refl) as [Hout _]. vm_compute in Hout.
  discriminate Hout.
Qed.

(** C4, as amended. On a platform outside darwin, linux and win32 the
    exported [launch] never creates, uses or removes a file, never asks the
    locator or the port source and never spawns.  When no port is requested
    it rejects with the platform error and attempts no connection.  When a
    port is requested the probe of that port is attempted first, and is the
    only connection: if it fails, [launch] rejects with the platform error;
    if it succeeds, [launch] resolves by reuse. *)
Theorem launch_unsupported_platform (w : World) (opts : Options)
  (tr : list Event) :
  supported (platform w) = false ->
  let p := defaults (o_port opts) 0 in
  Forall (fun e => is_resource e = false) (launch_events w opts tr) /\
  (p = 0 ->
   launch_outcome w opts tr = Rejected (unsupported_error w) /\
   filter net_timer (launch_events w opts tr) = []) /\
  (p <> 0 ->
   exists ans,
     filter net_timer (launch_events w opts tr) = [EvConnect (Some p) ans] /\
     (ans <> None -> launch_outcome w opts tr = Rejected (unsupported_error w)) /\
     (ans = None ->
      launch_outcome w opts tr = Resolved (mkLaunched None (Some p)))).
Proof.
  intros Hsup p. unfold launch_events, launch_outcome.
  rewrite launch_run. cbn [fst snd].
  rewrite (launch_unsupported w (launch_start opts tr) Hsup eq_refl).
  cbn [this requestedPort launch_start new_Launcher]. fold p.
  destruct (p =? 0) eqn:Hp.
  - apply Z.eqb_eq in Hp. cbn [fst snd trace launch_start].
    rewrite skipn_length_app.
    split; [destruct (defaults (o_handleSIGINT opts) true); repeat constructor |].
    split; [| intros Hne; contradiction].
    intros _. split; [reflexivity |].
    destruct (defaults (o_handleSIGINT opts) true); reflexivity.
  - apply Z.eqb_neq in Hp. cbv zeta.
    match goal with |- context [w_connect w ?t ?q] =>
      destruct (w_connect w t q) as [e |] eqn:Hans end;
      cbn [fst snd trace launch_start]; rewrite <- app_assoc, skipn_length_app.
    + split; [destruct (defaults (o_handleSIGINT opts) true); repeat constructor |].
      split; [intros H0; contradiction |].
      intros _. exists (Some e).
      split; [destruct (defaults (o_handleSIGINT opts) true); reflexivity |].
      split; [reflexivity | discriminate].
    + split; [destruct (defaults (o_handleSIGINT opts) true); repeat constructor |].
      split; [intros H0; contradiction |].
      intros _. exists None.
      split; [destruct (defaults (o_handleSIGINT opts) true); reflexivity |].
      split; [intros H; contradiction | reflexivity].
Qed.

(** A launch with no options on platform freebsd. *)
Lemma launch_unsupported_platform_witness :
  supported (platform bsd_host) = false /\
  Forall (fun e => is_resource e = false) (launch_events bsd_host no_options []) /\
  launch_outcome bsd_host no_options [] = Rejected (unsupported_error bsd_host).
Proof.
  split; [reflexivity |].
  destruct (launch_unsupported_platform bsd_host no_options [] eq_refl)
    as (Hres & Hzero & _).
  split; [exact Hres |]. apply Hzero. reflexivity.
Defined.

(** With the extra flag [--remote-debugging-port=9333] and the port source
    handing out 9333, the child is spawned with that entry twice. *)
Lemma spawn_flag_sequence_counterexample :
  ~ spec_one_port_flag starting_host extra_port_flag [] /\
  In (EvSpawn chrome_bin
        ["--disable-translate"; "--disable-extensions";
         "--remote-debugging-port=9333";
         "--user-data-dir=/tmp/lighthouse.XXXX";
         "--disable-setuid-sandbox"; "--remote-debugging-port=9333";
         "about:blank"]
        (Some 2) (Some 3) (mkChild (Some 4242)))
     (launch_events starting_host extra_port_flag []).
Proof.
  assert (Hin : In (EvSpawn chrome_bin
        ["--disable-translate"; "--disable-extensions";
         "--remote-debugging-port=9333";
         "--user-data-dir=/tmp/lighthouse.XXXX";
         "--disable-setuid-sandbox"; "--remote-debugging-port=9333";
         "about:blank"]
        (Some 2) (Some 3) (mkChild (Some 4242)))
     (launch_events starting_host extra_port_flag [])).
  { vm_compute. tauto. }
  split; [| exact Hin].
  intros H. destruct (H eq_refl _ _ _ _ _ Hin) as [p [_ Hf]].
  vm_compute in Hf. discriminate Hf.
Qed.

(** C5, as amended. When no port is requested, the flags of any child
    spawned by the exported [launch] are, in this order: the default flags,
    the debugging-port flag for the port [p] obtained from the port source,
    the user-data-dir flag for the directory created for the workspace, on
    Linux only the sandbox flag, the caller's extra flags, and the starting
    URL last; [p] is the port of the handle when [launch] resolves.  The
    sequence has exactly one entry of the form of a debugging-port flag
    provided that none of the default flags, the caller's flags and the
    starting URL has that form. *)
Theorem spawn_flag_sequence (w : World) (opts : Options) (tr : list Event)
  (exe : string) (args : list string) (out err : option Z) (c : ChildProcess) :
  defaults (o_port opts) 0 = 0 ->
  In (EvSpawn exe args out err c) (launch_events w opts tr) ->
  exists p dir,
    In (EvGetRandomPort (Ok p)) (launch_events w opts tr) /\
    In (EvMakeTmpDir (Ok dir)) (launch_events w opts tr) /\
    args =
      (DEFAULT_FLAGS w ++ [port_flag p] ++ [("--user-data-dir=" ++ dir)%string]
         ++ sandbox_flags w ++ defaults (o_chromeFlags opts) []
         ++ [defaults (o_startingUrl opts) "about:blank"])%list /\
    (forall h, launch_outcome w opts tr = Resolved h -> h_port h = Some p) /\
    (Forall (fun f => is_port_flag f = false)
       (DEFAULT_FLAGS w ++ defaults (o_chromeFlags opts) []
          ++ [defaults (o_startingUrl opts) "about:blank"]) ->
     filter is_port_flag args = [port_flag p]).
Proof.
  intros Hzero Hin. rewrite launch_events_split in *.
  apply in_app_or in Hin. destruct Hin as [Hin | Hin].
  { destruct (defaults (o_handleSIGINT opts) true); cbn in Hin;
      intuition discriminate. }
  destruct (launch_spawn_args w (launch_start opts tr) exe args out err c
              Hzero Hin) as (Hargs & Hcf & Hsu & (p & Hp & Hpin) & Hdir).
  destruct (Hdir eq_refl) as (dir & Hd & Hdin).
  exists p, dir.
  split; [apply in_or_app; right; exact Hpin |].
  split; [apply in_or_app; right; exact Hdin |].
  assert (Hlay : args =
      (DEFAULT_FLAGS w ++ [port_flag p] ++ [("--user-data-dir=" ++ dir)%string]
         ++ sandbox_flags w ++ defaults (o_chromeFlags opts) []
         ++ [defaults (o_startingUrl opts) "about:blank"])%list).
  { rewrite Hargs, flags_layout, Hp, Hd, Hcf, Hsu. reflexivity. }
  split; [exact Hlay |].
  split.
  { intros h Hh. rewrite (launch_outcome_handle w opts tr h Hh). exact Hp. }
  intros Hnone. rewrite Hlay.
  apply Forall_app in Hnone. destruct Hnone as [Hdef Hrest].
  apply Forall_app in Hrest. destruct Hrest as [Hextra Hurl].
  rewrite !filter_app.
  rewrite (filter_none _ _ _ Hdef), (filter_none _ _ _ Hextra),
    (filter_none _ _ _ Hurl).
  cbn [filter]. rewrite is_port_flag_port_flag, is_port_flag_user_data_dir.
  unfold sandbox_flags. destruct (String.eqb (platform w) "linux"); reflexivity.
Qed.

(** A launch with no options that spawns a browser. *)
Lemma spawn_flag_sequence_witness :
  exists p dir,
    In (EvGetRandomPort (Ok p)) (launch_events starting_host no_options []) /\
    In (EvMakeTmpDir (Ok dir)) (launch_events starting_host no_options []) /\
    (forall h, launch_outcome starting_host no_options [] = Resolved h ->
               h_port h = Some p) /\
    filter is_port_flag
      ["--disable-translate"; "--disable-extensions";
       "--remote-debugging-port=9333"; "--user-data-dir=/tmp/lighthouse.XXXX";
       "--disable-setuid-sandbox"; "about:blank"] = [port_flag p].
Proof.
  destruct (spawn_flag_sequence starting_host no_options [] chrome_bin
    ["--disable-translate"; "--disable-extensions";
     "--remote-debugging-port=9333"; "--user-data-dir=/tmp/lighthouse.XXXX";
     "--disable-setuid-sandbox"; "about:blank"]
    (Some 2) (Some 3) (mkChild (Some 4242)))
    as (p & dir & Hp & Hd & _ & Hh & Hone).
  - reflexivity.
  - vm_compute. tauto.
  - exists p, dir. split; [exact Hp |]. split; [exact Hd |].
    split; [exact Hh |]. apply Hone. repeat constructor.
Defined.

(** C6. If the locator is asked during a launch and answers with the empty
    sequence, then [launch()] rejects with the error "No Chrome Installations
    Found", and the port source is not asked at any moment of that launch. *)
Theorem no_installation_found (w : World) (s : Sys) (plat : string) :
  In (EvFind plat []) (events_since s (fst (Launcher_launch w s))) ->
  snd (Launcher_launch w s) = Rejected no_installation_error /\
  forall r, ~ In (EvGetRandomPort r) (events_since s (fst (Launcher_launch w s))).
Proof.
  name_result (Launcher_launch w s).
  exec_launch s; try exec_resolve; try exec_spawn_spec; intros <-; norm_events.
  all: intros Hin; split_in Hin.
  all: split; [reflexivity |]; intros r Hr; split_in Hr.
Qed.

(** A launch with no options on a host without installation. *)
Lemma no_installation_found_witness :
  In (EvFind "linux" [])
    (events_since (launch_start no_options [])
       (fst (Launcher_launch bare_host (launch_start no_options [])))) /\
  snd (Launcher_launch bare_host (launch_start no_options [])) =
    Rejected no_installation_error.
Proof.
  assert (H : In (EvFind "linux" [])
    (events_since (launch_start no_options [])
       (fst (Launcher_launch bare_host (launch_start no_options []))))).
  { vm_compute. tauto. }
  split; [exact H |].
  apply (no_installation_found bare_host (launch_start no_options []) "linux" H).
Defined.

(** C7. When a subprocess is tracked and the platform's termination call
    fails with [err], [kill()] does not reject: the failure is logged as a
    warning right after the call, and nothing else is done with it.  The
    promise stays pending as long as the child has not reported ['close'].
    When it resolves, the child's ['close'] came first and the complete
    teardown followed it, and nothing else: for an existing workspace the
    log line, then the close of the output log descriptor and the close of
    the error log descriptor, each one that is held and each without error,
    then the removal of the directory, after which the instance holds
    neither descriptor; with no workspace (no directory name, or an empty
    one) there is nothing to tear down and nothing follows the ['close']. *)
Theorem kill_failure_swallowed (w : World) (s : Sys) (c : ChildProcess)
  (err : Error) :
  chrome (this s) = Some c ->
  os_kill_answer w (S (now s)) c = Some err ->
  let s' := fst (kill w s) in
  let out := snd (kill w s) in
  (forall e, out <> Rejected e) /\
  (exists rest,
     events_since s s' =
       (EvLog LLog "ChromeLauncher" "Killing all Chrome Instances"
          :: os_kill_event w c (Some err) :: kill_warning err :: rest)) /\
  (w_childCloses w (now s + 3) c = false -> out = Pending) /\
  (out = Resolved tt ->
   exists td,
     events_since s s' =
       (EvLog LLog "ChromeLauncher" "Killing all Chrome Instances"
          :: os_kill_event w c (Some err) :: kill_warning err
          :: EvChildClose c :: td) /\
     Forall (fun e => is_teardown e = true) td /\
     (forall dir, TMP_PROFILE_DIR (this s) = Some dir -> dir <> "" ->
        td = (EvLog LVerbose "ChromeLauncher" ("Removing " ++ dir)
                :: released (outFile (this s)) ++ released (errFile (this s))
                ++ [EvRimraf dir])%list /\
        truthy_num (outFile (this s')) = false /\
        truthy_num (errFile (this s')) = false) /\
     (TMP_PROFILE_DIR (this s) = None \/ TMP_PROFILE_DIR (this s) = Some "" ->
      td = [])).
Proof.
  intros Hc Herr s' out.
  split; [intros e; apply kill_never_rejects |].
  subst s' out. rewrite (kill_child w s c Hc). cbv zeta.
  unfold kill_events. rewrite Herr. rewrite now_app. cbn [length].
  destruct (w_childCloses w (now s + 3) c) eqn:Hcl.
  - match goal with |- context [on_close w ?st] =>
      destruct (on_close_spec w st)
        as (evs & l' & o & -> & Hev & _ & _ & Hres & Hexact)
    end.
    unfold teardown_events in Hexact.
    cbn [fst snd this trace TMP_PROFILE_DIR outFile errFile set_chrome] in *.
    split.
    { eexists. apply events_since_app. cbn [trace].
      rewrite <- !app_assoc. cbn [app]. reflexivity. }
    split; [discriminate |].
    intros Ho. exists evs. split.
    { apply events_since_app. cbn [trace].
      rewrite <- !app_assoc. cbn [app]. reflexivity. }
    split; [exact Hev |]. specialize (Hexact Ho). split.
    + intros dir Hdir Hne.
      destruct (Hres Ho dir Hdir Hne) as (Hfo & Hfe & _).
      rewrite Hdir in Hexact.
      destruct (String.eqb dir "") eqn:Hempty;
        [apply String.eqb_eq in Hempty; contradiction |].
      split; [exact Hexact |]. split; assumption.
    + intros [Hnone | Hempty]; rewrite ?Hnone, ?Hempty in Hexact;
        exact Hexact.
  - cbn [fst snd]. split.
    { exists []. apply events_since_app. reflexivity. }
    split; [reflexivity |]. discriminate.
Qed.

(** [kill()] after a launch that spawned, on a host where the termination
    call fails, the child reports ['close'] and the descriptors can be
    closed. *)
Lemma kill_failure_swallowed_witness :
  chrome (this launched) = Some (mkChild (Some 4242)) /\
  os_kill_answer starting_host (S (now launched)) (mkChild (Some 4242)) =
    Some (mkError "kill ESRCH") /\
  snd (kill starting_host launched) = Resolved tt /\
  events_since launched (fst (kill starting_host launched)) =
    [EvLog LLog "ChromeLauncher" "Killing all Chrome Instances";
     EvProcessKill (Some (-4242)) (Some (mkError "kill ESRCH"));
     EvLog LWarn "ChromeLauncher" "Chrome could not be killed kill ESRCH";
     EvChildClose (mkChild (Some 4242));
     EvLog LVerbose "ChromeLauncher" "Removing /tmp/lighthouse.XXXX";
     EvCloseSync 2 None; EvCloseSync 3 None;
     EvRimraf "/tmp/lighthouse.XXXX"].
Proof.
  assert (Hk : snd (kill starting_host launched) = Resolved tt).
  { vm_compute. reflexivity. }
  assert (Hne : "/tmp/lighthouse.XXXX" <> "") by discriminate.
  split; [reflexivity |]. split; [reflexivity |]. split; [exact Hk |].
  pose proof (kill_failure_swallowed starting_host launched
                (mkChild (Some 4242)) (mkError "kill ESRCH") eq_refl eq_refl)
    as H.
  cbv zeta in H. destruct H as (_ & _ & _ & Hres).
  destruct (Hres Hk) as (td & Hev & _ & Hdir & _).
  destruct (Hdir "/tmp/lighthouse.XXXX" eq_refl Hne) as (Htd & _).
  rewrite Hev, Htd. reflexivity.
Defined.

(** C8. The reuse path, run: on a host where a browser listens on 9222,
    [launch({port: 9222})] resolves with a handle whose port is 9222 and
    whose [pid] is [undefined]. *)
Theorem launch_reuse_handle_without_pid :
  launch_outcome attached_host port_9222 [] =
    Resolved {| h_pid := None; h_port := Some 9222 |}.
Proof. vm_compute. reflexivity. Qed.

(** After [launch(opts)] with an empty [opts], [opts.handleSIGINT] is
    [true]. *)
Lemma options_immutable_counterexample :
  ~ spec_options_immutable quiet_host no_options [] /\
  fst (launch quiet_host no_options []) =
    mkOptions None None None (Some true) None.
Proof.
  split; [| reflexivity].
  intros H. vm_compute in H. discriminate H.
Qed.

(** C9, as amended. The exported [launch] writes one field of the caller's
    options, [handleSIGINT], which becomes its value or [true] when it was
    absent; the other four fields stay as they were, and so does the whole
    object when the caller had set [handleSIGINT].  The sequence of extra
    flags, which the instance holds from the caller, has the same entries
    after the launch. *)
Theorem launch_writes_only_handleSIGINT (w : World) (opts : Options)
  (tr : list Event) :
  let opts' := fst (launch w opts tr) in
  o_startingUrl opts' = o_startingUrl opts /\
  o_chromeFlags opts' = o_chromeFlags opts /\
  o_port opts' = o_port opts /\
  o_chromePath opts' = o_chromePath opts /\
  o_handleSIGINT opts' = Some (defaults (o_handleSIGINT opts) true) /\
  (forall b, o_handleSIGINT opts = Some b -> opts' = opts) /\
  chromeFlags (this (fst (snd (launch w opts tr)))) =
    defaults (o_chromeFlags opts) [].
Proof.
  rewrite launch_run. cbn [fst snd]. do 5 (split; [reflexivity |]). split.
  - intros b Hb. destruct opts; cbn in *. subst. reflexivity.
  - destruct (launch_keeps_config w (launch_start opts tr)) as [Hcf _].
    destruct (Launcher_launch w (launch_start opts tr)) as [s' [[] | e |]];
      cbn [fst] in *; exact Hcf.
Qed.

(** [launch({handleSIGINT: false})]. *)
Lemma launch_writes_only_handleSIGINT_witness :
  fst (launch quiet_host (mkOptions None None None (Some false) None) []) =
    mkOptions None None None (Some false) None.
Proof.
  apply (launch_writes_only_handleSIGINT quiet_host
           (mkOptions None None None (Some false) None) []) with (b := false).
  reflexivity.
Defined.

(** C10. After a call of [kill()] on an instance that tracks a subprocess,
    the reference to the subprocess is cleared, whatever the platform's
    termination call answered (also when it threw): cleared when the call
    returns, and still cleared when its promise has settled.  Every later
    call of [kill()] then takes the branch without subprocess: it resolves
    and adds nothing to the trace, so no termination and no teardown is
    attempted again. *)
Theorem kill_clears_child (w : World) (s : Sys) (c : ChildProcess) :
  chrome (this s) = Some c ->
  chrome (this (fst (kill_executor w s))) = None /\
  chrome (this (fst (kill w s))) = None /\
  forall n,
    kills w n (fst (kill w s)) = fst (kill w s) /\
    kill w (kills w n (fst (kill w s))) = (fst (kill w s), Resolved tt).
Proof.
  intros _.
  split; [apply kill_executor_clears |].
  split; [apply kill_clears |].
  intros n. rewrite (kills_fixed w n _ (kill_clears w s)).
  split; [reflexivity |]. apply kill_no_child, kill_clears.
Qed.

(** [kill()] after a launch that spawned, on a host where the termination
    call fails. *)
Lemma kill_clears_child_witness :
  chrome (this launched) = Some (mkChild (Some 4242)) /\
  chrome (this (fst (kill starting_host launched))) = None.
Proof.
  split; [reflexivity |].
  apply (kill_clears_child starting_host launched (mkChild (Some 4242))). reflexivity.
Defined.

(** ** Further reasoning support *)

Lemma poll_schedule_rounds p ms errs e :
  poll_schedule p ms (errs ++ [e]) =
    (failed_rounds p ms errs ++ [EvConnect p (Some e)])%list.
Proof.
  induction errs as [| x errs IH]; [reflexivity |].
  cbn [app]. rewrite poll_schedule_cons, IH. reflexivity.
Qed.

Lemma poll_settles (w : World) (retries : nat) (waitStatus : string) (s : Sys) :
  (retries <= 10)%nat ->
  exists errs tr o,
    poll w retries waitStatus s = (mkSys (this s) (trace s ++ tr), o) /\
    (o = Resolved tt /\ (length errs <= 10 - retries)%nat /\
     filter net_timer tr =
       (failed_rounds (port (this s)) (pollInterval (this s)) errs
          ++ [EvConnect (port (this s)) None])%list
     \/
     exists e, o = Rejected e /\ length errs = (10 - retries)%nat /\
       filter net_timer tr =
         (failed_rounds (port (this s)) (pollInterval (this s)) errs
            ++ [EvConnect (port (this s)) (Some e)])%list).
Proof.
  apply (poll_elim w (fun retries waitStatus s res =>
    (retries <= 10)%nat ->
    exists errs tr o,
      res = (mkSys (this s) (trace s ++ tr), o) /\
      (o = Resolved tt /\ (length errs <= 10 - retries)%nat /\
       filter net_timer tr =
         (failed_rounds (port (this s)) (pollInterval (this s)) errs
            ++ [EvConnect (port (this s)) None])%list
       \/
       exists e, o = Rejected e /\ length errs = (10 - retries)%nat /\
         filter net_timer tr =
           (failed_rounds (port (this s)) (pollInterval (this s)) errs
              ++ [EvConnect (port (this s)) (Some e)])%list)));
    cbv zeta.
  - intros r ws s0 s1 [] Hround _. rewrite probe_round_run in Hround.
    cbv zeta in Hround.
    match type of Hround with context [w_connect w ?t ?p] =>
      destruct (w_connect w t p) as [e0 |] eqn:Hans; [discriminate |]
    end.
    injection Hround as <-. unfold log, emit. cbn [this trace].
    exists []. eexists _, _. split; [rewrite <- !app_assoc; reflexivity |].
    left. split; [reflexivity |]. split; [cbn; lia |].
    rewrite !filter_app, net_timer_announce. reflexivity.
  - intros r ws s0 s1 Hround _. rewrite probe_round_run in Hround.
    cbv zeta in Hround. exfalso.
    match type of Hround with context [w_connect w ?t ?p] =>
      destruct (w_connect w t p); discriminate
    end.
  - intros r Hle ws s0 s1 err IH _ Hround _.
    rewrite probe_round_run in Hround. cbv zeta in Hround.
    match type of Hround with context [w_connect w ?t ?p] =>
      destruct (w_connect w t p) as [e0 |]; [| discriminate]
    end.
    injection Hround as <- <-. unfold delay, emit in *.
    cbn [fst this trace] in *.
    destruct (IH Hle) as (errs & tr & o & Hrun & Hcases).
    exists (e0 :: errs). eexists _, o.
    split; [rewrite Hrun; rewrite <- !app_assoc; reflexivity |].
    rewrite !filter_app, net_timer_announce. cbn [filter net_timer app failed_rounds flat_map].
    destruct Hcases as [(Ho & Hlen & Hf) | (e & Ho & Hlen & Hf)].
    + left. split; [exact Ho |]. split; [cbn [length]; lia |].
      rewrite Hf. reflexivity.
    + right. exists e. split; [exact Ho |]. split; [cbn [length]; lia |].
      rewrite Hf. reflexivity.
  - intros r Hlt ws s0 s1 err _ Hround Hr.
    rewrite probe_round_run in Hround. cbv zeta in Hround.
    match type of Hround with context [w_connect w ?t ?p] =>
      destruct (w_connect w t p) as [e0 |]; [| discriminate]
    end.
    injection Hround as <- <-. cbn [this trace].
    exists []. eexists _, _. split; [rewrite <- !app_assoc; reflexivity |].
    right. exists e0. split; [reflexivity |]. split; [cbn [length]; lia |].
    rewrite !filter_app, net_timer_announce. reflexivity.
Qed.

Lemma filter_none_impl (f g : Event -> bool) (l : list Event) :
  (forall e, g e = true -> f e = false) ->
  Forall (fun e => g e = true) l -> filter f l = [].
Proof.
  intros Hfg H. apply filter_none. revert H. apply Forall_impl. exact Hfg.
Qed.

Lemma in_failed_rounds p ms errs q r :
  In (EvConnect q r) (failed_rounds p ms errs) -> q = p.
Proof.
  induction errs as [| e errs IH]; cbn; [tauto |].
  intros [H | [H | H]]; [injection H as <- _; reflexivity | discriminate H | auto].
Qed.

Lemma in_filter_net_timer q r tr :
  In (EvConnect q r) tr -> In (EvConnect q r) (filter net_timer tr).
Proof. intros H. apply filter_In. split; [exact H | reflexivity]. Qed.

(** The polling, every end: it assigns no field, only logs, probes and
    waits, probes the port of the instance only, and settles. *)
Lemma waitUntilReady_full (w : World) (s : Sys) :
  exists errs tr o,
    waitUntilReady w s = (mkSys (this s) (trace s ++ tr), o) /\
    Forall (fun e => is_polling e = true) tr /\
    (forall q r, In (EvConnect q r) tr -> q = port (this s)) /\
    (o = Resolved tt /\ (length errs <= 10)%nat /\
     filter net_timer tr =
       (failed_rounds (port (this s)) (pollInterval (this s)) errs
          ++ [EvConnect (port (this s)) None])%list
     \/
     exists e, o = Rejected e /\ length errs = 10%nat /\
       filter net_timer tr =
         (failed_rounds (port (this s)) (pollInterval (this s)) errs
            ++ [EvConnect (port (this s)) (Some e)])%list).
Proof.
  destruct (poll_settles w 0 "Waiting for browser." s) as (errs & tr & o & Hrun & Hc);
    [lia |].
  destruct (waitUntilReady_footprint w s) as (tr' & o' & Hrun' & Hfoot).
  unfold waitUntilReady in *. rewrite Hrun in Hrun'.
  injection Hrun' as Htr Ho. apply app_inv_head in Htr. subst tr' o'.
  exists errs, tr, o. split; [exact Hrun |]. split; [exact Hfoot |].
  split; [| exact Hc].
  intros q r Hin. apply in_filter_net_timer in Hin.
  destruct Hc as [(_ & _ & Hf) | (e & _ & _ & Hf)]; rewrite Hf in Hin;
    apply in_app_or in Hin; destruct Hin as [Hin | [Hin | []]];
    try (apply in_failed_rounds in Hin; exact Hin);
    injection Hin as <- _; reflexivity.
Qed.

Ltac exec_wait_full :=
  match goal with
  | |- context [waitUntilReady ?w ?st] =>
      let errs := fresh "errs" in
      let tr := fresh "tr" in let o := fresh "o" in
      let Hw := fresh "Hwait" in let Htr := fresh "Hpoll" in
      let Hq := fresh "Hprobes" in let Hc := fresh "Hsettled" in
      destruct (waitUntilReady_full w st) as (errs & tr & o & Hw & Htr & Hq & Hc);
      rewrite Hw; clear Hw; cbn [this trace port set_chrome set_port] in *;
      destruct o as [[] | ? |];
      [ | | exfalso; destruct Hc as [(Hc & _) | (? & Hc & _)]; discriminate Hc ]
  end.

Lemma polling_is_launching (tr : list Event) :
  Forall (fun e => is_polling e = true) tr ->
  Forall (fun e => is_launching e = true) tr.
Proof. apply Forall_impl. intros [] H; try discriminate H; reflexivity. Qed.

Lemma polling_no_resource (tr : list Event) :
  Forall (fun e => is_polling e = true) tr ->
  Forall (fun e => is_resource e = false) tr.
Proof. apply Forall_impl. intros [] H; try discriminate H; reflexivity. Qed.

(** [spawn(execPath)], every path, in more detail than [spawn_spec]. *)
Lemma spawn_detail (w : World) (execPath : string) (s : Sys) :
  exists evs l' o,
    spawn w execPath s = (mkSys l' (trace s ++ evs), o) /\
    Forall (fun e => is_spawning e = true) evs /\
    l' = set_chrome (chrome l') (set_port (port l') (this s)) /\
    (requestedPort (this s) <> 0 -> port l' = port (this s)) /\
    (* probes *)
    (forall q r, In (EvConnect q r) evs -> q = port l') /\
    (* a tracked child *)
    (forall c, chrome (this s) = Some c ->
       l' = this s /\ Forall (fun e => is_resource e = false) evs /\
       forall p, o = Resolved p -> p = cp_pid c) /\
    (* the port source *)
    (forall r, In (EvGetRandomPort r) evs ->
       requestedPort (this s) = 0 /\ chrome (this s) = None /\
       match r with
       | Ok p => port l' = Some p
       | Throw _ =>
           o = Pending /\ l' = this s /\
           forall x, In x evs -> x = EvGetRandomPort r
       end) /\
    (* the child *)
    (forall exe args out err c,
       In (EvSpawn exe args out err c) evs ->
       chrome (this s) = None /\ exe = execPath /\ args = flags w l' /\
       out = outFile (this s) /\ err = errFile (this s) /\
       chrome l' = Some c /\
       (requestedPort (this s) = 0 ->
        exists p, port l' = Some p /\ In (EvGetRandomPort (Ok p)) evs) /\
       match cp_pid c with
       | Some n =>
           exists r, In (EvWriteFile (pidFile (this s)) (num_str n) r) evs
       | None =>
           o = Pending /\ filter net_timer evs = [] /\
           forall path data r, ~ In (EvWriteFile path data r) evs
       end) /\
    (* the pid file *)
    (forall path data r,
       In (EvWriteFile path data r) evs ->
       exists exe args out err c n,
         In (EvSpawn exe args out err c) evs /\
         path = pidFile (this s) /\ cp_pid c = Some n /\ data = num_str n /\
         (r <> None -> o = Pending /\ filter net_timer evs = [])) /\
    (* how it settles *)
    (forall p, o = Resolved p ->
       (exists c, chrome l' = Some c /\ cp_pid c = p) /\
       (chrome (this s) = None ->
        (exists args out err c n,
           In (EvSpawn execPath args out err c) evs /\
           cp_pid c = Some n /\ p = Some n) /\
        (requestedPort (this s) = 0 -> exists q, port l' = Some q))) /\
    (o = Pending ->
       (exists e, In (EvGetRandomPort (Throw e)) evs) \/
       (exists path data e, In (EvWriteFile path data (Some e)) evs) \/
       (exists exe args out err c,
          In (EvSpawn exe args out err c) evs /\ cp_pid c = None)) /\
    (forall e, o = Rejected e ->
       exists errs c, length errs = 10%nat /\ chrome l' = Some c /\
         filter net_timer evs =
           (failed_rounds (port l') (pollInterval (this s)) errs
              ++ [EvConnect (port l') (Some e)])%list).
Proof.
  pose proof (launcher_eta (this s)) as Heta.
  exec_spawn; try exec_wait_full; unfold ret.
  all: eexists _, _, _; (split; [trace_shape |]).
  all: split; [repeat (constructor; [reflexivity |]);
               try constructor; try (apply polling_is_spawning; assumption) |].
  all: split; [try exact Heta; destruct (this s); reflexivity |].
  all: split; [intros Hne; try reflexivity;
               try (apply Z.eqb_eq in Hrp; contradiction) |].
  all: split;
    [intros q r Hin; split_in Hin;
     first [ eapply Hprobes; eassumption
           | injection Hin as <- _; reflexivity ] |].
  all: split;
    [intros c' Hc';
     first
       [ discriminate Hc'
       | injection Hc' as <-;
         (split; [reflexivity |]);
         (split; [constructor; [reflexivity | apply polling_no_resource; assumption] |]);
         intros p Hp; first [discriminate Hp | injection Hp as <-; reflexivity] ] |].
  all: split;
    [intros r Hin; split_in Hin; try injection Hin as <-;
     (split; [apply Z.eqb_eq; assumption |]); (split; [reflexivity |]);
     first [ reflexivity
           | (split; [reflexivity |]); (split; [reflexivity |]);
             intros x [Hx | []]; auto ] |].
  all: split;
    [intros exe args out err c' Hin; split_in Hin;
     injection Hin as <- <- <- <- <-;
     do 6 (split; [reflexivity |]);
     (split;
      [ intros H0;
        first [ exfalso; apply Z.eqb_neq in Hrp; contradiction
              | eexists; (split; [reflexivity | cbn [In]; auto]) ]
      | rewrite Hpid;
        first
          [ solve [eexists; cbn [In]; auto 6]
          | (split; [reflexivity |]); (split; [reflexivity |]);
            intros pa da r0 Hw; split_in Hw ] ]) |].
  all: split;
    [intros path data r Hin; split_in Hin;
     injection Hin as <- <- <-;
     do 6 eexists; (split; [cbn [In]; auto 6 |]);
     (split; [reflexivity |]); (split; [eassumption |]);
     (split; [reflexivity |]);
     intros Hr; first [ contradiction | split; reflexivity ] |].
  all: split;
    [intros q Hq; first
       [ discriminate Hq
       | injection Hq as <-;
         (split; [eexists; split; [eassumption || reflexivity
                                  | first [reflexivity | assumption]] |]);
         intros Hn;
         first
           [ discriminate Hn
           | (split; [do 5 eexists; split;
                        [cbn [In]; auto 6
                        | split; [eassumption | reflexivity]] |]);
             intros Hz;
             first [ exfalso; apply Z.eqb_neq in Hrp; contradiction
                   | eexists; reflexivity ] ] ] |].
  all: split;
    [ intros Hp; first
        [ discriminate Hp
        | solve [left; eexists; cbn [In]; auto]
        | solve [right; left; do 3 eexists; cbn [In]; auto 6]
        | solve [right; right; do 5 eexists;
                 split; [cbn [In]; auto 6 | assumption]] ] |].
  all: intros e' He'; try discriminate He'; injection He' as <-.
  all: destruct Hsettled as [(H & _) | (e'' & H & Hlen & Hf)];
    [discriminate H |]; injection H as <-.
  all: exists errs; eexists; split; [exact Hlen |].
  all: split; [first [eassumption | reflexivity] |].
  all: cbn [filter net_timer pollInterval set_port set_chrome]; exact Hf.
Qed.

Ltac exec_spawn_detail :=
  unfold bind at 1;
  match goal with
  | |- context [spawn ?w ?exe ?st] =>
      let evs := fresh "evs" in let l' := fresh "l'" in let o := fresh "o" in
      let Hrun := fresh "Hspawn" in let Hfp := fresh "Hfoot" in
      let Hfr := fresh "Hframe" in let Hpt := fresh "Hport" in
      let Hpr := fresh "Hprobes" in let Htr := fresh "Htracked" in
      let Hso := fresh "Hsource" in let Hch := fresh "Hchild" in
      let Hpf := fresh "Hpidfile" in let Hre := fresh "Hres" in
      let Hpe := fresh "Hpend" in let Hrj := fresh "Hrej" in
      destruct (spawn_detail w exe st)
        as (evs & l' & o & Hrun & Hfp & Hfr & Hpt & Hpr & Htr & Hso & Hch
            & Hpf & Hre & Hpe & Hrj);
      rewrite Hrun; clear Hrun; destruct o as [? | ? |];
      cbv beta iota; unfold modify; cbn [this trace] in *
  end.

Ltac exec_paths s :=
  exec_launch s; try exec_resolve; try exec_spawn_detail; intros <-;
  norm_events.

Lemma spawning_is_launching (tr : list Event) :
  Forall (fun e => is_spawning e = true) tr ->
  Forall (fun e => is_launching e = true) tr.
Proof. apply Forall_impl. intros [] H; try discriminate H; reflexivity. Qed.

(** [launch()] only logs, probes, prepares, locates, reserves a port,
    spawns, writes the pid file and waits. *)
Lemma launch_footprint (w : World) (s : Sys) :
  Forall (fun e => is_launching e = true)
    (events_since s (fst (Launcher_launch w s))).
Proof.
  name_result (Launcher_launch w s).
  exec_paths s.
  all: repeat (constructor; [reflexivity |]);
    try constructor; try (apply spawning_is_launching; assumption).
Qed.

Lemma launching_no_cleanup (tr : list Event) :
  Forall (fun e => is_launching e = true) tr ->
  Forall (fun e => is_cleanup e = false) tr.
Proof. apply Forall_impl. intros [] H; try discriminate H; reflexivity. Qed.

Lemma spawning_no_find (tr : list Event) :
  Forall (fun e => is_spawning e = true) tr -> filter is_find tr = [].
Proof. apply filter_none_impl. intros [] H; try discriminate H; reflexivity. Qed.

Lemma spawning_no_creation (tr : list Event) :
  Forall (fun e => is_spawning e = true) tr ->
  filter is_workspace_creation tr = [].
Proof. apply filter_none_impl. intros [] H; try discriminate H; reflexivity. Qed.

Lemma launch_resolved_fields (w : World) (s : Sys) :
  chrome (this s) = None ->
  snd (Launcher_launch w s) = Resolved tt ->
  (exists q, port (this (fst (Launcher_launch w s))) = Some q /\
     (requestedPort (this s) <> 0 -> q = requestedPort (this s))) /\
  ((exists exe args out err c n,
      In (EvSpawn exe args out err c)
         (events_since s (fst (Launcher_launch w s))) /\
      cp_pid c = Some n /\
      pid (this (fst (Launcher_launch w s))) = Some n)
   \/
   requestedPort (this s) <> 0 /\
   pid (this (fst (Launcher_launch w s))) = pid (this s) /\
   chrome (this (fst (Launcher_launch w s))) = None /\
   events_since s (fst (Launcher_launch w s)) =
     [EvConnect (Some (requestedPort (this s))) None]).
Proof.
  intros Hnc.
  name_result (Launcher_launch w s).
  exec_paths s.
  all: intros Ho; try discriminate Ho.
  all: cbn [chrome port pid set_pid set_port set_chromePath set_ready
              set_pidFile set_errFile set_outFile set_TMP_PROFILE_DIR
              requestedPort] in *.
  all: try (destruct (Hres _ eq_refl) as (_ & Hfresh);
            destruct (Hfresh Hnc)
              as ((args & out & err & c & n & Hin & Hn & ->) & Hq)).
  all: try (split;
       [ first
           [ apply Z.eqb_eq in Hrp0; destruct (Hq Hrp0) as (q & Hq');
             exists q; split; [exact Hq' | intros Hne; contradiction]
           | apply Z.eqb_neq in Hrp0; exists (requestedPort (this s));
             split; [rewrite (Hport Hrp0); reflexivity | reflexivity] ]
       | left; do 6 eexists; split;
         [cbn [In]; eauto 10 | split; [eassumption | reflexivity] ] ]).
  apply Z.eqb_neq in Hrp0.
  split; [eexists; split; reflexivity |].
  right. split; [exact Hrp0 |]. split; [reflexivity |].
  split; [exact Hnc | reflexivity].
Qed.

Lemma teardown_is_killing (tr : list Event) :
  Forall (fun e => is_teardown e = true) tr ->
  Forall (fun e => is_killing e = true) tr.
Proof. apply Forall_impl. intros [] H; try discriminate H; reflexivity. Qed.

(** [destroyTmp()], every path: the fields it assigns, what a failing close
    entails, and what it releases when it resolves. *)
Lemma destroyTmp_detail (w : World) (s : Sys) :
  exists evs l' o,
    destroyTmp w s = (mkSys l' (trace s ++ evs), o) /\
    l' = set_errFile (errFile l') (set_outFile (outFile l') (this s)) /\
    Forall (fun e => is_teardown e = true) evs /\
    (forall fd e, In (EvCloseSync fd (Some e)) evs ->
       o = Rejected e /\ (forall d, ~ In (EvRimraf d) evs) /\
       exists pre, evs = (pre ++ [EvCloseSync fd (Some e)])%list) /\
    (o <> Resolved tt -> exists fd e, In (EvCloseSync fd (Some e)) evs) /\
    (o = Resolved tt ->
     filter is_workspace_release evs =
       match TMP_PROFILE_DIR (this s) with
       | Some dir =>
           if String.eqb dir "" then []
           else (released (outFile (this s)) ++ released (errFile (this s))
                   ++ [EvRimraf dir])%list
       | None => []
       end).
Proof.
  unfold destroyTmp, close_log, closeSync. unfold_monad. cbv beta iota.
  destruct (TMP_PROFILE_DIR (this s)) as [dir |] eqn:Hdir.
  2:{ exists [], (this s), (Resolved tt). rewrite app_nil_r, sys_eta.
      split; [reflexivity |]. split; [destruct (this s); reflexivity |].
      split; [constructor |]. split; [intros fd e [] |].
      split; [intros H; contradiction | reflexivity]. }
  destruct (String.eqb dir "") eqn:Hempty.
  { exists [], (this s), (Resolved tt). rewrite app_nil_r, sys_eta.
    split; [reflexivity |]. split; [destruct (this s); reflexivity |].
    split; [constructor |]. split; [intros fd e [] |].
    split; [intros H; contradiction | reflexivity]. }
  cbn [this trace].
  destruct (outFile (this s)) as [fo |] eqn:Hout;
    [destruct (fo =? 0) eqn:Hfo;
      [| destruct (w_closeSync w _ fo) as [eo |] eqn:Hco] |];
    cbn [this trace outFile errFile set_outFile set_errFile].
  all: try (destruct (errFile (this s)) as [fe |] eqn:Herr;
    [destruct (fe =? 0) eqn:Hfe;
      [| destruct (w_closeSync w _ fe) as [ee |] eqn:Hce] |]);
    cbn [this trace outFile errFile set_outFile set_errFile].
  all: eexists _, _, _;
    (split; [rewrite <- ?app_assoc; cbn [app]; reflexivity |]).
  all: cbn [outFile errFile set_outFile set_errFile].
  all: split; [destruct (this s); cbn in *; subst; reflexivity |].
  all: split; [repeat constructor |].
  all: split;
    [ intros fd e Hin; cbn [In] in Hin;
      repeat (destruct Hin as [Hin | Hin]; [try discriminate Hin |]);
      try contradiction;
      injection Hin as <- <-;
      (split; [reflexivity |]);
      (split;
        [ intros d Hd; cbn [In] in Hd;
          repeat (destruct Hd as [Hd | Hd]; [discriminate Hd |]); contradiction
        | first [ now (eexists [_]) | now (eexists [_; _]) ] ])
    | split;
       [ intros Ho; first [ exfalso; apply Ho; reflexivity
                          | do 2 eexists; cbn [In]; eauto 10 ] |];
      intros Ho; try discriminate Ho;
      cbn [filter is_workspace_release released app];
      rewrite ?Hfo, ?Hfe; reflexivity ].
Qed.

(** [kill()] on an instance that tracks a child, every path. *)
Lemma kill_detail (w : World) (s : Sys) (c : ChildProcess) :
  chrome (this s) = Some c ->
  exists evs l' o,
    kill w s = (mkSys l' (trace s ++ kill_events w (now s) c ++ evs), o) /\
    l' = set_errFile (errFile l')
           (set_outFile (outFile l') (set_chrome None (this s))) /\
    (forall e, o <> Rejected e) /\
    (evs = [] /\ o = Pending /\
     w_childCloses w (now s + length (kill_events w (now s) c)) c = false
     \/
     exists td,
       w_childCloses w (now s + length (kill_events w (now s) c)) c = true /\
       evs = EvChildClose c :: td /\
       Forall (fun e => is_teardown e = true) td /\
       (forall fd e, In (EvCloseSync fd (Some e)) td ->
          o = Pending /\ (forall d, ~ In (EvRimraf d) td) /\
          exists pre, td = (pre ++ [EvCloseSync fd (Some e)])%list) /\
       (o = Pending -> exists fd e, In (EvCloseSync fd (Some e)) td) /\
       (o = Resolved tt ->
        filter is_workspace_release td =
          match TMP_PROFILE_DIR (this s) with
          | Some dir =>
              if String.eqb dir "" then []
              else (released (outFile (this s)) ++ released (errFile (this s))
                      ++ [EvRimraf dir])%list
          | None => []
          end /\
        forall dir, TMP_PROFILE_DIR (this s) = Some dir -> dir <> "" ->
          truthy_num (outFile l') = false /\ truthy_num (errFile l') = false)).
Proof.
  intros Hc. rewrite (kill_child w s c Hc). cbv zeta.
  rewrite now_app.
  destruct (w_childCloses w _ c) eqn:Hcl.
  - unfold on_close, drop_rejection.
    match goal with |- context [destroyTmp w ?st] =>
      destruct (destroyTmp_detail w st)
        as (td & l' & o & Hrun & Hframe & Htd & Hfail & Hconv & Hrel);
      destruct (destroyTmp_spec w st)
        as (td2 & l2 & o2 & Hrun2 & _ & _ & _ & _ & Hfalsy & _);
      rewrite Hrun in Hrun2; injection Hrun2 as <- _ <-; rewrite Hrun;
      clear Hrun
    end.
    cbn [this trace TMP_PROFILE_DIR outFile errFile set_chrome] in *.
    exists (EvChildClose c :: td), l'.
    destruct o as [[] | e |].
    + exists (Resolved tt).
      split; [rewrite <- !app_assoc; reflexivity |].
      split; [exact Hframe |]. split; [discriminate |].
      right. exists td. split; [reflexivity |]. split; [reflexivity |].
      split; [exact Htd |].
      split; [| split; [discriminate |]].
      { intros fd e Hin. destruct (Hfail fd e Hin) as [Ho _]. discriminate Ho. }
      intros Ho. split; [exact (Hrel Ho) |].
      intros dir Hdir Hne. destruct (Hfalsy Ho dir Hdir Hne) as (H1 & H2 & _).
      split; assumption.
    + exists Pending.
      split; [rewrite <- !app_assoc; reflexivity |].
      split; [exact Hframe |]. split; [discriminate |].
      right. exists td. split; [reflexivity |]. split; [reflexivity |].
      split; [exact Htd |].
      split; [| split; [intros _; apply Hconv; discriminate | discriminate]].
      intros fd e' Hin. destruct (Hfail fd e' Hin) as (_ & Hno & Hlast).
      split; [reflexivity |]. split; [exact Hno | exact Hlast].
    + exists Pending.
      split; [rewrite <- !app_assoc; reflexivity |].
      split; [exact Hframe |]. split; [discriminate |].
      right. exists td. split; [reflexivity |]. split; [reflexivity |].
      split; [exact Htd |].
      split; [| split; [intros _; apply Hconv; discriminate | discriminate]].
      intros fd e' Hin. destruct (Hfail fd e' Hin) as [Ho _]. discriminate Ho.
  - exists [], (set_chrome None (this s)), Pending.
    split; [rewrite app_nil_r; reflexivity |].
    split; [destruct (this s); reflexivity |]. split; [discriminate |].
    left. split; [reflexivity |]. split; reflexivity.
Qed.

Lemma kill_events_killing (w : World) (t : nat) (c : ChildProcess) :
  Forall (fun e => is_killing e = true) (kill_events w t c).
Proof.
  unfold kill_events, os_kill_event, kill_warning.
  destruct (isWindows w); destruct (os_kill_answer w (S t) c);
    repeat constructor.
Qed.

Lemma kill_events_no_release (w : World) (t : nat) (c : ChildProcess) :
  filter is_workspace_release (kill_events w t c) = [].
Proof.
  unfold kill_events, os_kill_event, kill_warning.
  destruct (isWindows w); destruct (os_kill_answer w (S t) c); reflexivity.
Qed.

Lemma in_release (e : Event) (tr : list Event) :
  is_workspace_release e = true -> In e tr ->
  In e (filter is_workspace_release tr).
Proof. intros He Hin. apply filter_In. split; assumption. Qed.

(** What [kill()] adds to the trace, in every case. *)
Lemma kill_run (w : World) (s : Sys) :
  exists evs, trace (fst (kill w s)) = (trace s ++ evs)%list.
Proof.
  destruct (chrome (this s)) as [c |] eqn:Hc.
  - destruct (kill_detail w s c Hc) as (evs & l' & o & -> & _).
    eexists. reflexivity.
  - rewrite (kill_no_child w s Hc). exists []. symmetry. apply app_nil_r.
Qed.

Lemma kill_footprint (w : World) (s : Sys) :
  Forall (fun e => is_killing e = true) (events_since s (fst (kill w s))).
Proof.
  destruct (chrome (this s)) as [c |] eqn:Hc.
  - destruct (kill_detail w s c Hc)
      as (evs & l' & o & -> & _ & _ & [(-> & _) | (td & _ & -> & Htd & _)]).
    + cbn [fst]. rewrite events_since_mk, app_nil_r. apply kill_events_killing.
    + cbn [fst]. rewrite events_since_mk. apply Forall_app.
      split; [apply kill_events_killing |].
      constructor; [reflexivity | apply teardown_is_killing; exact Htd].
  - rewrite (kill_no_child w s Hc), events_since_refl. constructor.
Qed.

Lemma killing_no_exit (tr : list Event) (code : Z) :
  Forall (fun e => is_killing e = true) tr -> ~ In (EvExit code) tr.
Proof. intros H. apply (Forall_not_In is_killing tr (EvExit code) H). reflexivity. Qed.

(** The release events of a call of [kill()] are those of its teardown. *)
Lemma kill_release_events (w : World) (s : Sys) (c : ChildProcess)
  (td : list Event) (l' : Launcher) (o : outcome unit) :
  kill w s = (mkSys l' (trace s ++ kill_events w (now s) c ++ EvChildClose c :: td), o) ->
  filter is_workspace_release (events_since s (fst (kill w s))) =
    filter is_workspace_release td.
Proof.
  intros ->. cbn [fst]. rewrite events_since_mk, filter_app.
  rewrite kill_events_no_release. reflexivity.
Qed.

(** The state [launch()] leaves when it spawned a child. *)
Lemma launch_spawn_state (w : World) (s : Sys) (exe : string)
  (args : list string) (out err : option Z) (c : ChildProcess) :
  In (EvSpawn exe args out err c) (events_since s (fst (Launcher_launch w s))) ->
  let l' := this (fst (Launcher_launch w s)) in
  chrome (this s) = None /\
  chrome l' = Some c /\ outFile l' = out /\ errFile l' = err /\
  args = flags w l' /\ tmpDirandPidFileReady l' = true /\
  match cp_pid c with
  | Some n =>
      exists r,
        In (EvWriteFile (pidFile l') (num_str n) r)
           (events_since s (fst (Launcher_launch w s)))
  | None =>
      snd (Launcher_launch w s) = Pending /\
      forall path data r,
        ~ In (EvWriteFile path data r)
             (events_since s (fst (Launcher_launch w s)))
  end /\
  (tmpDirandPidFileReady (this s) = true ->
   out = outFile (this s) /\ err = errFile (this s) /\
   TMP_PROFILE_DIR l' = TMP_PROFILE_DIR (this s) /\
   pidFile l' = pidFile (this s) /\
   filter is_workspace_creation (events_since s (fst (Launcher_launch w s))) = []) /\
  (tmpDirandPidFileReady (this s) = false ->
   exists dir fo fe,
     filter is_workspace_creation (events_since s (fst (Launcher_launch w s))) =
       [EvMakeTmpDir (Ok dir);
        EvOpen (dir ++ "/chrome-out.log") "a" (Ok fo);
        EvOpen (dir ++ "/chrome-err.log") "a" (Ok fe)] /\
     TMP_PROFILE_DIR l' = Some dir /\
     pidFile l' = Some (dir ++ "/chrome.pid") /\
     out = Some fo /\ err = Some fe).
Proof.
  name_result (Launcher_launch w s).
  exec_paths s.
  all: intros Hin; split_in Hin.
  all: destruct (Hchild _ _ _ _ _ Hin)
         as (Hnc & _ & -> & -> & -> & Hc & _ & Hwr).
  all: pose proof (f_equal TMP_PROFILE_DIR Hframe) as Htd;
       pose proof (f_equal outFile Hframe) as Hof;
       pose proof (f_equal errFile Hframe) as Hef;
       pose proof (f_equal pidFile Hframe) as Hpf;
       pose proof (f_equal tmpDirandPidFileReady Hframe) as Hrd';
       cbn in Htd, Hof, Hef, Hpf, Hrd'.
  all: cbv zeta;
       cbn [this chrome outFile errFile TMP_PROFILE_DIR pidFile
              tmpDirandPidFileReady set_pid
              set_port set_chromePath set_ready set_pidFile set_errFile
              set_outFile set_TMP_PROFILE_DIR] in *.
  all: split; [exact Hnc |]; split; [exact Hc |].
  all: split; [exact Hof |]; split; [exact Hef |]; split; [reflexivity |].
  all: split; [congruence |].
  all: split;
    [ destruct (cp_pid c) as [n |];
      [ destruct Hwr as (r & Hr); exists r; rewrite Hpf; cbn [In]; auto 10
      | destruct Hwr as (Ho & _ & Hnw);
        first [ discriminate Ho
              | split; [reflexivity |];
                intros pa da r Hw; split_in Hw; exact (Hnw _ _ _ Hw) ] ] |].
  all: cbn [filter is_workspace_creation reuse_log];
       rewrite (spawning_no_creation _ Hfoot).
  all: split; intros Hrd; try discriminate Hrd.
  all: try (split; [reflexivity |]; split; [reflexivity |];
            split; [exact Htd |]; split; [exact Hpf | reflexivity]).
  all: exists dir, fo, fe; split; [reflexivity |]; split; [exact Htd |];
       split; [exact Hpf |]; split; reflexivity.
Qed.

(** ** Further properties of the code *)

(** X1. A call of the exported [launch] registers the interrupt listener
    exactly once when [handleSIGINT] is absent or true and never when it is
    false, whatever the launch then does; when it is registered, the
    registration is the first thing the call does. *)
Theorem launch_registers_SIGINT (w : World) (opts : Options) (tr : list Event) :
  filter is_sigint_registration (launch_events w opts tr) =
    (if defaults (o_handleSIGINT opts) true then [EvOnSigint] else []) /\
  (defaults (o_handleSIGINT opts) true = true ->
   exists rest, launch_events w opts tr = EvOnSigint :: rest).
Proof.
  rewrite launch_events_split.
  pose proof (launch_footprint w (launch_start opts tr)) as Hfoot.
  split.
  - rewrite filter_app.
    rewrite (filter_none_impl is_sigint_registration is_launching _
               (fun e H => ltac:(destruct e; try discriminate H; reflexivity))
               Hfoot).
    destruct (defaults (o_handleSIGINT opts) true); reflexivity.
  - intros ->. eexists. reflexivity.
Qed.

(** X2. The interrupt listener never rejects and leaves the instance as
    [kill()] does.  When the promise of [kill()] resolves, the listener
    resolves and ends the program with code 130 after everything [kill()]
    did; when that promise stays pending, the listener does exactly what
    [kill()] does and never ends the program.  [kill()] itself never ends
    the program. *)
Theorem on_SIGINT_exits_after_kill (w : World) (s : Sys) :
  (forall e, snd (on_SIGINT w s) <> Rejected e) /\
  this (fst (on_SIGINT w s)) = this (fst (kill w s)) /\
  (snd (kill w s) = Resolved tt ->
   snd (on_SIGINT w s) = Resolved tt /\
   events_since s (fst (on_SIGINT w s)) =
     (events_since s (fst (kill w s)) ++ [EvExit 130])%list) /\
  (snd (kill w s) = Pending ->
   on_SIGINT w s = kill w s /\
   forall code, ~ In (EvExit code) (events_since s (fst (on_SIGINT w s)))) /\
  forall code, ~ In (EvExit code) (events_since s (fst (kill w s))).
Proof.
  pose proof (kill_footprint w s) as Hfoot.
  pose proof (kill_never_rejects w s) as Hnr.
  destruct (kill_run w s) as (evs & Hevs).
  unfold on_SIGINT, bind, emit, _SIGINT_EXIT_CODE.
  destruct (kill w s) as [s' [[] | e |]]; cbn [fst snd this trace] in *.
  - split; [discriminate |]. split; [reflexivity |].
    split; [| split; [discriminate |]].
    + intros _. split; [reflexivity |].
      rewrite (events_since_app s s' evs Hevs).
      apply events_since_app. cbn [trace]. rewrite Hevs, <- app_assoc.
      reflexivity.
    + intros code. apply killing_no_exit. exact Hfoot.
  - exfalso. exact (Hnr e eq_refl).
  - split; [discriminate |]. split; [reflexivity |].
    split; [discriminate |]. split.
    + intros _. split; [reflexivity |].
      intros code. apply killing_no_exit. exact Hfoot.
    + intros code. apply killing_no_exit. exact Hfoot.
Qed.

(** X3. When the exported [launch] resolves, the handle has a port, the
    requested one when a port was requested.  Its pid is the pid of the
    child the call spawned; or else a port was requested, a listener was
    found there and the pid is [undefined]: apart from the registration of
    the interrupt listener, the accepted connection to the requested port
    is all the call did, so it touched no file, no process, no locator and
    no port source. *)
Theorem launch_handle (w : World) (opts : Options) (tr : list Event)
  (h : LaunchedChrome) :
  launch_outcome w opts tr = Resolved h ->
  (exists q, h_port h = Some q /\
     (defaults (o_port opts) 0 <> 0 -> q = defaults (o_port opts) 0)) /\
  ((exists exe args out err c n,
      In (EvSpawn exe args out err c) (launch_events w opts tr) /\
      cp_pid c = Some n /\ h_pid h = Some n)
   \/
   defaults (o_port opts) 0 <> 0 /\ h_pid h = None /\
   launch_events w opts tr =
     ((if defaults (o_handleSIGINT opts) true then [EvOnSigint] else [])
        ++ [EvConnect (Some (defaults (o_port opts) 0)) None])%list /\
   Forall (fun e => is_resource e = false) (launch_events w opts tr)).
Proof.
  intros Hh. pose proof (launch_outcome_handle w opts tr h Hh) as ->.
  assert (Ho : snd (Launcher_launch w (launch_start opts tr)) = Resolved tt).
  { unfold launch_outcome in Hh. rewrite launch_run in Hh. cbn [snd] in Hh.
    destruct (Launcher_launch w (launch_start opts tr)) as [s' [[] | e |]];
      [reflexivity | discriminate Hh | discriminate Hh]. }
  destruct (launch_resolved_fields w (launch_start opts tr) eq_refl Ho)
    as (Hport & Hpid).
  split; [exact Hport |].
  rewrite launch_events_split.
  destruct Hpid
    as [(exe & args & out & err & c & n & Hin & Hn & Hp)
       | (Hne & Hp & _ & Hev)].
  - left. exists exe, args, out, err, c, n.
    split; [apply in_or_app; right; exact Hin |].
    split; [exact Hn | exact Hp].
  - right. split; [exact Hne |]. split; [exact Hp |]. rewrite Hev.
    split; [reflexivity |].
    destruct (defaults (o_handleSIGINT opts) true); repeat constructor.
Qed.

(** The handle of a launch with no options that spawns a browser. *)
Lemma launch_handle_witness :
  launch_outcome starting_host no_options [] =
    Resolved {| h_pid := Some 4242; h_port := Some 9333 |} /\
  exists q, h_port {| h_pid := Some 4242; h_port := Some 9333 |} = Some q.
Proof.
  assert (H : launch_outcome starting_host no_options [] =
                Resolved {| h_pid := Some 4242; h_port := Some 9333 |}).
  { vm_compute. reflexivity. }
  split; [exact H |].
  destruct (launch_handle starting_host no_options []
              {| h_pid := Some 4242; h_port := Some 9333 |} H)
    as ((q & Hq & _) & _).
  exists q. exact Hq.
Defined.

(** X4. When a port is requested, [launch()] leaves it in [port], never
    asks the port source, and every child it spawns gets the
    debugging-port flag of the requested port. *)
Theorem launch_keeps_requested_port (w : World) (s : Sys) :
  requestedPort (this s) <> 0 ->
  port (this (fst (Launcher_launch w s))) = Some (requestedPort (this s)) /\
  (forall r, ~ In (EvGetRandomPort r)
                  (events_since s (fst (Launcher_launch w s)))) /\
  forall exe args out err c,
    In (EvSpawn exe args out err c) (events_since s (fst (Launcher_launch w s))) ->
    In (port_flag (requestedPort (this s))) args.
Proof.
  intros Hne.
  name_result (Launcher_launch w s).
  exec_paths s; try (apply Z.eqb_eq in Hrp0; contradiction).
  all: cbn [port set_pid set_port set_chromePath set_ready set_pidFile
              set_errFile set_outFile set_TMP_PROFILE_DIR requestedPort] in *.
  all: try (specialize (Hport Hne)).
  all: split; [try reflexivity; try exact Hport |].
  all: split;
    [intros r Hin; split_in Hin;
     destruct (Hsource _ Hin) as (Hz & _); contradiction |].
  all: intros exe' args out err c' Hin; split_in Hin.
  all: destruct (Hchild _ _ _ _ _ Hin) as (_ & _ & -> & _).
  all: rewrite flags_layout, Hport; apply in_or_app; right; left; reflexivity.
Qed.

(** [launch({port: 9222})] on a host where the browser has to be spawned. *)
Lemma launch_keeps_requested_port_witness :
  requestedPort (this (launch_start port_9222 [])) <> 0 /\
  port (this (fst (Launcher_launch starting_host (launch_start port_9222 [])))) =
    Some 9222.
Proof.
  assert (H : requestedPort (this (launch_start port_9222 [])) <> 0)
    by discriminate.
  split; [exact H |].
  destruct (launch_keeps_requested_port starting_host
              (launch_start port_9222 []) H) as (Hp & _).
  exact Hp.
Defined.

(** X5. Every connection attempt of a [launch()], the first probe and the
    polling alike, goes to the port the instance holds when the launch
    ends. *)
Theorem launch_probes_final_port (w : World) (s : Sys) (q : option Z)
  (r : option Error) :
  In (EvConnect q r) (events_since s (fst (Launcher_launch w s))) ->
  q = port (this (fst (Launcher_launch w s))).
Proof.
  name_result (Launcher_launch w s).
  exec_paths s.
  all: intros Hin; split_in Hin.
  all: try (injection Hin as <- _).
  all: cbn [port set_pid set_port set_chromePath set_ready set_pidFile
              set_errFile set_outFile set_TMP_PROFILE_DIR requestedPort] in *.
  all: try reflexivity.
  all: try (apply Hprobes in Hin; exact Hin).
  all: symmetry; apply Hport; apply Z.eqb_neq; assumption.
Qed.

(** [launch({port: 9222})] next to a listening browser. *)
Lemma launch_probes_final_port_witness :
  Some 9222 =
    port (this (fst (Launcher_launch attached_host (launch_start port_9222 [])))).
Proof.
  apply (launch_probes_final_port attached_host (launch_start port_9222 [])
           (Some 9222) None).
  vm_compute. tauto.
Defined.

(** X6. When creating the directory or opening a log file throws [e],
    [launch()] rejects with [e]; the workspace was not ready before and is
    still marked not ready, the locator is not asked and nothing is
    spawned.  What was acquired before the failure stays recorded: the
    directory in [TMP_PROFILE_DIR] and an opened log file in [outFile]. *)
Theorem launch_prepare_failure (w : World) (s : Sys) (e : Error) :
  let s' := fst (Launcher_launch w s) in
  In (EvMakeTmpDir (Throw e)) (events_since s s') \/
  (exists path fl, In (EvOpen path fl (Throw e)) (events_since s s')) ->
  snd (Launcher_launch w s) = Rejected e /\
  tmpDirandPidFileReady (this s) = false /\
  tmpDirandPidFileReady (this s') = false /\
  filter is_find (events_since s s') = [] /\
  (forall exe args out err c,
     ~ In (EvSpawn exe args out err c) (events_since s s')) /\
  (forall d, In (EvMakeTmpDir (Ok d)) (events_since s s') ->
     TMP_PROFILE_DIR (this s') = Some d) /\
  (forall path fl fd, In (EvOpen path fl (Ok fd)) (events_since s s') ->
     outFile (this s') = Some fd).
Proof.
  cbv zeta.
  name_result (Launcher_launch w s).
  exec_paths s.
  all: intros [Hin | (path & fl & Hin)]; split_in Hin.
  all: first [injection Hin as <- <- <- | injection Hin as <-].
  all: cbn [tmpDirandPidFileReady TMP_PROFILE_DIR outFile set_port
              set_TMP_PROFILE_DIR set_outFile].
  all: split; [reflexivity |]; split; [first [reflexivity | assumption] |].
  all: split; [first [reflexivity | assumption] |].
  all: split; [reflexivity |].
  all: split; [intros exe' args out err c' Hs; split_in Hs |].
  all: split;
    [ intros d Hd; split_in Hd; injection Hd as <-; reflexivity
    | intros pa fl' fd Hd; split_in Hd; injection Hd as <- <- <-; reflexivity ].
Qed.

(** A launch with no options when no directory can be created. *)
Lemma launch_prepare_failure_witness :
  snd (Launcher_launch no_tmp_host (launch_start no_options [])) =
    Rejected (mkError "EACCES") /\
  tmpDirandPidFileReady
    (this (fst (Launcher_launch no_tmp_host (launch_start no_options [])))) = false.
Proof.
  assert (H : In (EvMakeTmpDir (Throw (mkError "EACCES")))
    (events_since (launch_start no_options [])
       (fst (Launcher_launch no_tmp_host (launch_start no_options []))))).
  { vm_compute. tauto. }
  destruct (launch_prepare_failure no_tmp_host (launch_start no_options [])
              (mkError "EACCES") (or_introl H)) as (Ho & _ & Hr & _).
  split; [exact Ho | exact Hr].
Defined.

(** X7. A [launch()] that starts from an unprepared instance and spawns a
    child has created exactly one directory and opened, in this order, its
    two log files [chrome-out.log] and [chrome-err.log] in append mode; the
    child gets the two descriptors and the directory as its user-data-dir
    flag; its pid, when it has one, is written to [chrome.pid] in that
    directory, and nothing is written when it has none; the instance
    records the directory and is marked ready. *)
Theorem launch_workspace (w : World) (s : Sys) (exe : string)
  (args : list string) (out err : option Z) (c : ChildProcess) :
  tmpDirandPidFileReady (this s) = false ->
  In (EvSpawn exe args out err c) (events_since s (fst (Launcher_launch w s))) ->
  exists dir fo fe,
    filter is_workspace_creation (events_since s (fst (Launcher_launch w s))) =
      [EvMakeTmpDir (Ok dir);
       EvOpen (dir ++ "/chrome-out.log") "a" (Ok fo);
       EvOpen (dir ++ "/chrome-err.log") "a" (Ok fe)] /\
    out = Some fo /\ err = Some fe /\
    In ("--user-data-dir=" ++ dir)%string args /\
    match cp_pid c with
    | Some n =>
        exists r,
          In (EvWriteFile (Some (dir ++ "/chrome.pid")) (num_str n) r)
             (events_since s (fst (Launcher_launch w s)))
    | None =>
        forall path data r,
          ~ In (EvWriteFile path data r)
               (events_since s (fst (Launcher_launch w s)))
    end /\
    TMP_PROFILE_DIR (this (fst (Launcher_launch w s))) = Some dir /\
    tmpDirandPidFileReady (this (fst (Launcher_launch w s))) = true.
Proof.
  intros Hnr Hin.
  destruct (launch_spawn_state w s exe args out err c Hin)
    as (_ & _ & _ & _ & Hargs & Hrd & Hwr & _ & Hfresh).
  destruct (Hfresh Hnr) as (dir & fo & fe & Hcreate & Hdir & Hpf & -> & ->).
  exists dir, fo, fe.
  split; [exact Hcreate |]. split; [reflexivity |]. split; [reflexivity |].
  split.
  { rewrite Hargs, flags_layout, Hdir. apply in_or_app. right. right. left.
    reflexivity. }
  split; [| split; [exact Hdir | exact Hrd]].
  rewrite Hpf in Hwr. destruct (cp_pid c) as [n |]; [exact Hwr |].
  exact (proj2 Hwr).
Qed.

(** A launch with no options creates the workspace it hands to the child. *)
Lemma launch_workspace_witness :
  exists dir fo fe,
    filter is_workspace_creation
      (events_since (launch_start no_options [])
         (fst (Launcher_launch starting_host (launch_start no_options [])))) =
      [EvMakeTmpDir (Ok dir);
       EvOpen (dir ++ "/chrome-out.log") "a" (Ok fo);
       EvOpen (dir ++ "/chrome-err.log") "a" (Ok fe)] /\
    In ("--user-data-dir=" ++ dir)%string default_args.
Proof.
  assert (H : In (EvSpawn chrome_bin default_args (Some 2) (Some 3) (mkChild (Some 4242)))
    (events_since (launch_start no_options [])
       (fst (Launcher_launch starting_host (launch_start no_options []))))).
  { vm_compute. tauto. }
  destruct (launch_workspace starting_host (launch_start no_options [])
              chrome_bin default_args (Some 2) (Some 3) (mkChild (Some 4242))
              eq_refl H)
    as (dir & fo & fe & Hc & _ & _ & Hd & _).
  exists dir, fo, fe. split; [exact Hc | exact Hd].
Defined.

(** X8. The executable of a spawned child is the instance's [chromePath]
    when that is set, and then the locator is not asked; otherwise the
    locator is asked exactly once and the executable is the first
    installation it found.  Either way the instance holds the executable in
    [chromePath] afterwards. *)
Theorem launch_executable (w : World) (s : Sys) (exe : string)
  (args : list string) (out err : option Z) (c : ChildProcess) :
  In (EvSpawn exe args out err c) (events_since s (fst (Launcher_launch w s))) ->
  chromePath (this (fst (Launcher_launch w s))) = Some exe /\
  match chromePath (this s) with
  | Some p =>
      exe = p /\
      filter is_find (events_since s (fst (Launcher_launch w s))) = []
  | None =>
      exists rest,
        filter is_find (events_since s (fst (Launcher_launch w s))) =
          [EvFind (platform w) (exe :: rest)]
  end.
Proof.
  name_result (Launcher_launch w s).
  exec_paths s.
  all: intros Hin; split_in Hin.
  all: destruct (Hchild _ _ _ _ _ Hin) as (_ & -> & _).
  all: pose proof (f_equal chromePath Hframe) as Hcp; cbn in Hcp.
  all: cbn [chromePath set_pid]; rewrite ?HchromePath in *.
  all: split; [exact Hcp |].
  all: cbn [filter is_find reuse_log]; rewrite (spawning_no_find _ Hfoot).
  all: first [ split; reflexivity | eexists; reflexivity ].
Qed.

(** A launch with no options that spawns the first installation found. *)
Lemma launch_executable_witness :
  chromePath
    (this (fst (Launcher_launch starting_host (launch_start no_options [])))) =
    Some chrome_bin.
Proof.
  assert (H : In (EvSpawn chrome_bin default_args (Some 2) (Some 3) (mkChild (Some 4242)))
    (events_since (launch_start no_options [])
       (fst (Launcher_launch starting_host (launch_start no_options []))))).
  { vm_compute. tauto. }
  destruct (launch_executable starting_host (launch_start no_options [])
              chrome_bin default_args (Some 2) (Some 3) (mkChild (Some 4242)) H)
    as (Hp & _).
  exact Hp.
Defined.

(** X9. Every rejection of [launch()] has one of five causes: the platform
    is not supported (and the workspace was not ready); creating the
    directory threw the error; opening a log file threw it; the locator was
    asked and found nothing; or a child is tracked and the polling made its
    eleven attempts, ten failures each followed by a delay and a last one
    that failed with the error, after at most the one probe of a requested
    port. *)
Theorem launch_rejection_causes (w : World) (s : Sys) (e : Error) :
  let s' := fst (Launcher_launch w s) in
  snd (Launcher_launch w s) = Rejected e ->
  (e = unsupported_error w /\ supported (platform w) = false /\
   tmpDirandPidFileReady (this s) = false)
  \/ In (EvMakeTmpDir (Throw e)) (events_since s s')
  \/ (exists path fl, In (EvOpen path fl (Throw e)) (events_since s s'))
  \/ (e = no_installation_error /\ chromePath (this s) = None /\
      In (EvFind (platform w) []) (events_since s s'))
  \/ (exists errs c,
        length errs = 10%nat /\ chrome (this s') = Some c /\
        filter net_timer (events_since s s') =
          ((if requestedPort (this s) =? 0 then []
            else [EvConnect (Some (requestedPort (this s)))
                    (w_connect w (now s) (Some (requestedPort (this s))))])
           ++ failed_rounds (port (this s')) (pollInterval (this s)) errs
           ++ [EvConnect (port (this s')) (Some e)])%list).
Proof.
  cbv zeta.
  name_result (Launcher_launch w s).
  exec_paths s.
  all: intros Ho; try discriminate Ho; injection Ho as <-.
  all: try solve [left; repeat split; reflexivity].
  all: try solve [right; left; cbn [In]; auto 10].
  all: try solve [right; right; left; do 2 eexists; cbn [In]; auto 10].
  all: try solve [right; right; right; left; repeat split; try reflexivity;
                  cbn [In]; auto 10].
  all: right; right; right; right.
  all: destruct (Hrej _ eq_refl) as (errs & c' & Hlen & Hc' & Hf).
  all: exists errs, c'; split; [exact Hlen |]; split; [exact Hc' |].
  all: cbn [filter net_timer reuse_log port pollInterval set_pid set_port
              set_chromePath set_ready set_pidFile set_errFile set_outFile
              set_TMP_PROFILE_DIR app] in *.
  all: rewrite Hf; reflexivity.
Qed.

(** A launch with no options on a host where nothing ever listens. *)
Lemma launch_rejection_causes_witness :
  exists e errs,
    snd (Launcher_launch quiet_host (launch_start no_options [])) = Rejected e /\
    length errs = 10%nat /\
    filter net_timer
      (events_since (launch_start no_options [])
         (fst (Launcher_launch quiet_host (launch_start no_options [])))) =
      (failed_rounds (Some 9333) 500 errs ++ [EvConnect (Some 9333) (Some e)])%list.
Proof.
  assert (H : snd (Launcher_launch quiet_host (launch_start no_options [])) =
              Rejected refused).
  { vm_compute. reflexivity. }
  exists refused.
  destruct (launch_rejection_causes quiet_host (launch_start no_options [])
              refused H)
    as [(_ & Hs & _) | [Hin | [(pa & fl & Hin) | [(He & _) | Hpoll]]]].
  - discriminate Hs.
  - exfalso. vm_compute in Hin. intuition discriminate.
  - exfalso. vm_compute in Hin. intuition discriminate.
  - discriminate He.
  - destruct Hpoll as (errs & c & Hlen & _ & Hf). exists errs.
    split; [exact H |]. split; [exact Hlen |]. exact Hf.
Defined.


(** X11. When the port source throws, the promise of [launch()] stays
    pending, no child is spawned or tracked, and no connection is
    attempted. *)
Theorem launch_port_source_failure (w : World) (s : Sys) (e : Error) :
  In (EvGetRandomPort (Throw e)) (events_since s (fst (Launcher_launch w s))) ->
  snd (Launcher_launch w s) = Pending /\
  chrome (this (fst (Launcher_launch w s))) = None /\
  (forall exe args out err c,
     ~ In (EvSpawn exe args out err c)
          (events_since s (fst (Launcher_launch w s)))) /\
  forall q r, ~ In (EvConnect q r) (events_since s (fst (Launcher_launch w s))).
Proof.
  name_result (Launcher_launch w s).
  exec_paths s.
  all: intros Hin; split_in Hin.
  all: destruct (Hsource _ Hin) as (Hz & Hnc & Ho & Hl & Hall).
  all: try discriminate Ho.
  all: try (apply Z.eqb_neq in Hrp0; cbn in Hz; contradiction).
  all: subst l'; cbn [chrome set_port set_chromePath set_ready set_pidFile
                        set_errFile set_outFile set_TMP_PROFILE_DIR] in *.
  all: split; [reflexivity |]; split; [exact Hnc |].
  all: split;
    [ intros exe' args out err c' Hs; split_in Hs;
      specialize (Hall _ Hs); discriminate Hall
    | intros q r Hs; split_in Hs; specialize (Hall _ Hs); discriminate Hall ].
Qed.

(** A launch with no options when no port can be reserved. *)
Lemma launch_port_source_failure_witness :
  snd (Launcher_launch no_port_host (launch_start no_options [])) = Pending.
Proof.
  assert (H : In (EvGetRandomPort (Throw (mkError "EADDRINUSE")))
    (events_since (launch_start no_options [])
       (fst (Launcher_launch no_port_host (launch_start no_options []))))).
  { vm_compute. tauto. }
  destruct (launch_port_source_failure no_port_host (launch_start no_options [])
              (mkError "EADDRINUSE") H) as (Ho & _).
  exact Ho.
Defined.

(** X12. When writing the pid file throws, the promise of [launch()] stays
    pending and [pid] is not assigned, although the child whose pid was to
    be written has been spawned and is tracked; the polling never starts:
    the only connection attempt is the probe of a requested port. *)
Theorem launch_pid_file_failure (w : World) (s : Sys) (path : option string)
  (data : string) (e : Error) :
  In (EvWriteFile path data (Some e))
     (events_since s (fst (Launcher_launch w s))) ->
  snd (Launcher_launch w s) = Pending /\
  pid (this (fst (Launcher_launch w s))) = pid (this s) /\
  (exists exe args out err c n,
     In (EvSpawn exe args out err c)
        (events_since s (fst (Launcher_launch w s))) /\
     chrome (this (fst (Launcher_launch w s))) = Some c /\
     cp_pid c = Some n /\ data = num_str n) /\
  filter net_timer (events_since s (fst (Launcher_launch w s))) =
    if requestedPort (this s) =? 0 then []
    else [EvConnect (Some (requestedPort (this s)))
            (w_connect w (now s) (Some (requestedPort (this s))))].
Proof.
  name_result (Launcher_launch w s).
  exec_paths s.
  all: intros Hin; split_in Hin.
  all: destruct (Hpidfile _ _ _ Hin)
         as (exe' & args & out & err & c & n & Hs & _ & Hn & -> & Hfail).
  all: destruct Hfail as (Ho & Hnt); [discriminate |]; try discriminate Ho.
  all: destruct (Hchild _ _ _ _ _ Hs) as (_ & _ & _ & _ & _ & Hc & _).
  all: pose proof (f_equal pid Hframe) as Hpid; cbn in Hpid.
  all: split; [reflexivity |]; split; [exact Hpid |].
  all: split;
    [exists exe', args, out, err, c, n;
     split; [cbn [In]; auto 10
            | split; [exact Hc | split; [exact Hn | reflexivity]]] |].
  all: cbn [filter net_timer reuse_log]; rewrite Hnt, ?Hprobe; reflexivity.
Qed.

(** A launch with no options when the pid file cannot be written. *)
Lemma launch_pid_file_failure_witness :
  snd (Launcher_launch full_disk_host (launch_start no_options [])) = Pending /\
  filter net_timer
    (events_since (launch_start no_options [])
       (fst (Launcher_launch full_disk_host (launch_start no_options [])))) = [].
Proof.
  assert (H : In (EvWriteFile (Some "/tmp/lighthouse.XXXX/chrome.pid") "4242"
                    (Some (mkError "ENOSPC")))
    (events_since (launch_start no_options [])
       (fst (Launcher_launch full_disk_host (launch_start no_options []))))).
  { vm_compute. tauto. }
  destruct (launch_pid_file_failure full_disk_host (launch_start no_options [])
              (Some "/tmp/lighthouse.XXXX/chrome.pid") "4242"
              (mkError "ENOSPC") H) as (Ho & _ & _ & Hnt).
  split; [exact Ho | exact Hnt].
Defined.

(** X13. [launch()] never terminates a process, closes a descriptor,
    removes a directory or ends the program, however it ends; and every
    child it spawned is the one the instance tracks afterwards. *)
Theorem launch_never_cleans_up (w : World) (s : Sys) :
  Forall (fun e => is_cleanup e = false)
    (events_since s (fst (Launcher_launch w s))) /\
  forall exe args out err c,
    In (EvSpawn exe args out err c) (events_since s (fst (Launcher_launch w s))) ->
    chrome (this (fst (Launcher_launch w s))) = Some c.
Proof.
  split; [apply launching_no_cleanup, launch_footprint |].
  name_result (Launcher_launch w s).
  exec_paths s.
  all: intros exe' args out err c' Hin; split_in Hin.
  all: destruct (Hchild _ _ _ _ _ Hin) as (_ & _ & _ & _ & _ & Hc & _).
  all: cbn [chrome set_pid]; exact Hc.
Qed.

(** X14. [launch()] on a prepared instance that knows its executable and
    tracks a child creates no file, asks no locator and no port source and
    spawns nothing, and the child stays tracked.  When a port was requested
    and a listener answers the first probe, the launch resolves, that
    connection is all it does, and [pid] is left as it was.  In every other
    case (no port requested, or the first probe refused), when the launch
    resolves [pid] is the tracked child's pid. *)
Theorem relaunch_spawns_nothing (w : World) (s : Sys) (c : ChildProcess)
  (exe : string) :
  tmpDirandPidFileReady (this s) = true ->
  chromePath (this s) = Some exe ->
  chrome (this s) = Some c ->
  Forall (fun e => is_resource e = false)
    (events_since s (fst (Launcher_launch w s))) /\
  chrome (this (fst (Launcher_launch w s))) = Some c /\
  (requestedPort (this s) <> 0 ->
   w_connect w (now s) (Some (requestedPort (this s))) = None ->
   snd (Launcher_launch w s) = Resolved tt /\
   pid (this (fst (Launcher_launch w s))) = pid (this s) /\
   events_since s (fst (Launcher_launch w s)) =
     [EvConnect (Some (requestedPort (this s))) None]) /\
  (requestedPort (this s) = 0 \/
   w_connect w (now s) (Some (requestedPort (this s))) <> None ->
   snd (Launcher_launch w s) = Resolved tt ->
   pid (this (fst (Launcher_launch w s))) = cp_pid c).
Proof.
  intros Hready Hpath Hc.
  name_result (Launcher_launch w s).
  exec_paths s; try discriminate.
  all: try (cbn [chrome set_port] in Htracked;
            destruct (Htracked c Hc) as (-> & Hnone & Hpid)).
  all: cbn [chrome pid set_pid set_port].
  all: split; [repeat (constructor; [reflexivity |]); try constructor;
               try assumption |].
  all: split; [exact Hc |].
  all: split;
    [ intros Hne Hpr;
      first [ apply Z.eqb_eq in Hrp0; contradiction
            | discriminate Hpr
            | split; [reflexivity |]; split; reflexivity ]
    | intros Hcase Ho; try discriminate Ho;
      first [ rewrite (Hpid _ eq_refl); reflexivity
            | destruct Hcase as [Hz | Hn];
              [ apply Z.eqb_neq in Hrp0; contradiction
              | exfalso; apply Hn; reflexivity ] ] ].
Qed.

(** A second launch of the instance that spawned a browser. *)
Lemma relaunch_spawns_nothing_witness :
  Forall (fun e => is_resource e = false)
    (events_since launched (fst (Launcher_launch starting_host launched))) /\
  chrome (this (fst (Launcher_launch starting_host launched))) =
    Some (mkChild (Some 4242)).
Proof.
  destruct (relaunch_spawns_nothing starting_host launched (mkChild (Some 4242))
              chrome_bin eq_refl eq_refl eq_refl) as (H1 & H2 & _).
  split; assumption.
Defined.

(** X15. [waitUntilReady()] always settles.  It assigns no field and only
    logs, connects and waits.  Its connection attempts all go to the
    instance's port: at most ten failed ones, each followed by a delay of
    [pollInterval], then a last one; the promise resolves when the last one
    connected, and rejects with its error when it failed, which happens
    only after ten failures. *)
Theorem waitUntilReady_settles (w : World) (s : Sys) :
  let s' := fst (waitUntilReady w s) in
  let p := port (this s) in
  this s' = this s /\
  Forall (fun e => is_polling e = true) (events_since s s') /\
  exists errs last,
    (length errs <= 10)%nat /\
    filter net_timer (events_since s s') =
      (failed_rounds p (pollInterval (this s)) errs ++ [EvConnect p last])%list /\
    snd (waitUntilReady w s) =
      match last with None => Resolved tt | Some e => Rejected e end /\
    (last <> None -> length errs = 10%nat).
Proof.
  destruct (waitUntilReady_full w s)
    as (errs & tr & o & -> & Hfoot & _ & Hc).
  cbn [fst snd this]. rewrite events_since_mk.
  split; [reflexivity |]. split; [exact Hfoot |].
  destruct Hc as [(-> & Hlen & Hf) | (e & -> & Hlen & Hf)].
  - exists errs, None. split; [exact Hlen |]. split; [exact Hf |].
    split; [reflexivity |]. intros H; contradiction.
  - exists errs, (Some e). split; [lia |]. split; [exact Hf |].
    split; [reflexivity |]. intros _; exact Hlen.
Qed.

(** X16. [kill()] assigns no field but [chrome], which it clears, and the
    two log descriptors: the ready flag, the directory, the pid-file path
    and the executable stay, and so do the pid and the port a handle
    reports. *)
Theorem kill_assigns (w : World) (s : Sys) :
  let l' := this (fst (kill w s)) in
  (exists fo fe,
     l' = set_errFile fe (set_outFile fo (set_chrome None (this s)))) /\
  tmpDirandPidFileReady l' = tmpDirandPidFileReady (this s) /\
  TMP_PROFILE_DIR l' = TMP_PROFILE_DIR (this s) /\
  pidFile l' = pidFile (this s) /\
  chromePath l' = chromePath (this s) /\
  handle_of (fst (kill w s)) = handle_of s.
Proof.
  cbv zeta.
  assert (H : exists fo fe, this (fst (kill w s)) =
            set_errFile fe (set_outFile fo (set_chrome None (this s)))).
  { destruct (chrome (this s)) as [c |] eqn:Hc.
    - destruct (kill_detail w s c Hc) as (evs & l' & o & -> & Hframe & _).
      cbn [fst this]. eexists _, _. exact Hframe.
    - rewrite (kill_no_child w s Hc). cbn [fst].
      exists (outFile (this s)), (errFile (this s)).
      destruct (this s); cbn in *; subst; reflexivity. }
  split; [exact H |].
  destruct H as (fo & fe & H). unfold handle_of. rewrite H.
  repeat split.
Qed.

(** X17. The promise of [kill()] on an instance that tracks a child stays
    pending exactly when the child does not report ['close'] after the
    termination call, or closing a log descriptor throws. *)
Theorem kill_pending_iff (w : World) (s : Sys) (c : ChildProcess) :
  chrome (this s) = Some c ->
  snd (kill w s) = Pending <->
  w_childCloses w (now s + length (kill_events w (now s) c)) c = false \/
  exists fd e, In (EvCloseSync fd (Some e)) (events_since s (fst (kill w s))).
Proof.
  intros Hc.
  destruct (kill_detail w s c Hc)
    as (evs & l' & o & Hrun & _ & Hnr
        & [(-> & -> & Hcl) | (td & Hcl & -> & Htd & Hfail & Hconv & _)]).
  - rewrite Hrun. cbn [fst snd]. split; [intros _; left; exact Hcl | reflexivity].
  - pose proof (kill_release_events w s c td l' o Hrun) as Hrel.
    rewrite Hrun in *. cbn [fst snd] in *. split.
    + intros Ho. right. destruct (Hconv Ho) as (fd & e & Hin).
      exists fd, e. rewrite events_since_mk. apply in_or_app. right. right.
      exact Hin.
    + intros [Hno | (fd & e & Hin)]; [congruence |].
      apply in_release in Hin; [| reflexivity]. rewrite Hrel in Hin.
      apply filter_In in Hin. destruct Hin as [Hin _].
      apply (Hfail fd e Hin).
Qed.

(** [kill()] of the spawned browser when its log descriptors cannot be
    closed. *)
Lemma kill_pending_iff_witness :
  chrome (this launched) = Some (mkChild (Some 4242)) /\
  snd (kill stale_fd_host launched) = Pending.
Proof.
  split; [reflexivity |].
  apply (kill_pending_iff stale_fd_host launched (mkChild (Some 4242)) eq_refl).
  right. exists 2, (mkError "EBADF"). vm_compute. tauto.
Defined.

(** X18. When closing a log descriptor throws during [kill()], that is the
    last thing the call does: the promise stays pending and the directory is
    not removed. *)
Theorem kill_teardown_failure (w : World) (s : Sys) (fd : Z) (e : Error) :
  In (EvCloseSync fd (Some e)) (events_since s (fst (kill w s))) ->
  snd (kill w s) = Pending /\
  (forall d, ~ In (EvRimraf d) (events_since s (fst (kill w s)))) /\
  exists pre,
    events_since s (fst (kill w s)) = (pre ++ [EvCloseSync fd (Some e)])%list.
Proof.
  destruct (chrome (this s)) as [c |] eqn:Hc.
  2:{ rewrite (kill_no_child w s Hc). cbn [fst]. rewrite events_since_refl.
      intros []. }
  destruct (kill_detail w s c Hc)
    as (evs & l' & o & Hrun & _ & _
        & [(-> & -> & _) | (td & _ & -> & _ & Hfail & _)]).
  - rewrite Hrun. cbn [fst snd]. rewrite events_since_mk, app_nil_r.
    intros Hin. apply in_release in Hin; [| reflexivity].
    rewrite kill_events_no_release in Hin. destruct Hin.
  - pose proof (kill_release_events w s c td l' o Hrun) as Hrel.
    rewrite Hrun in *. cbn [fst snd] in *. intros Hin.
    apply in_release in Hin; [| reflexivity]. rewrite Hrel in Hin.
    apply filter_In in Hin. destruct Hin as [Hin _].
    destruct (Hfail fd e Hin) as (-> & Hno & pre & ->).
    split; [reflexivity |]. split.
    + intros d Hd. apply in_release in Hd; [| reflexivity].
      rewrite Hrel in Hd. apply filter_In in Hd. destruct Hd as [Hd _].
      exact (Hno d Hd).
    + exists (kill_events w (now s) c ++ EvChildClose c :: pre)%list.
      rewrite events_since_mk, <- app_assoc. reflexivity.
Qed.

Lemma kill_teardown_failure_witness :
  In (EvCloseSync 2 (Some (mkError "EBADF")))
    (events_since launched (fst (kill stale_fd_host launched))) /\
  forall d, ~ In (EvRimraf d)
    (events_since launched (fst (kill stale_fd_host launched))).
Proof.
  assert (H : In (EvCloseSync 2 (Some (mkError "EBADF")))
    (events_since launched (fst (kill stale_fd_host launched)))).
  { vm_compute. tauto. }
  split; [exact H |].
  destruct (kill_teardown_failure stale_fd_host launched 2 (mkError "EBADF") H)
    as (_ & Hno & _).
  exact Hno.
Defined.

(** X19. After a [launch()] that resolved on an instance without child,
    either the launch spawned a child, [pid] is its pid, and [kill()] logs
    and then asks the platform to terminate exactly that child; or a port
    was requested, the accepted connection to it is all the launch did, so
    it touched no resource, and [kill()] resolves without doing anything. *)
Theorem kill_after_launch (w : World) (s : Sys) :
  chrome (this s) = None ->
  snd (Launcher_launch w s) = Resolved tt ->
  let s' := fst (Launcher_launch w s) in
  (exists exe args out err c n rest,
     In (EvSpawn exe args out err c) (events_since s s') /\
     cp_pid c = Some n /\ pid (this s') = Some n /\
     events_since s' (fst (kill w s')) =
       EvLog LLog "ChromeLauncher" "Killing all Chrome Instances"
         :: os_kill_event w c (os_kill_answer w (S (now s')) c) :: rest)
  \/
  (requestedPort (this s) <> 0 /\
   events_since s s' = [EvConnect (Some (requestedPort (this s))) None] /\
   Forall (fun e => is_resource e = false) (events_since s s') /\
   kill w s' = (s', Resolved tt)).
Proof.
  intros Hnc Ho. cbv zeta.
  destruct (launch_resolved_fields w s Hnc Ho)
    as (_ & [(exe & args & out & err & c & n & Hin & Hn & Hpid)
            | (Hne & Hpid & Hchrome & Hev)]).
  - left. destruct (launch_spawn_state w s exe args out err c Hin)
      as (_ & Hc & _).
    destruct (kill_detail w _ c Hc) as (evs & l' & o & Hrun & _).
    exists exe, args, out, err, c, n. eexists.
    split; [exact Hin |]. split; [exact Hn |]. split; [exact Hpid |].
    rewrite Hrun. cbn [fst]. rewrite events_since_mk.
    unfold kill_events. cbn [app]. reflexivity.
  - right. split; [exact Hne |]. split; [exact Hev |].
    split; [rewrite Hev; repeat constructor |].
    apply kill_no_child. exact Hchrome.
Qed.

(** [kill()] of the browser spawned by a launch with no options. *)
Lemma kill_after_launch_witness :
  let s := launch_start no_options [] in
  let s' := fst (Launcher_launch starting_host s) in
  snd (Launcher_launch starting_host s) = Resolved tt /\
  ((exists exe args out err c n rest,
      In (EvSpawn exe args out err c) (events_since s s') /\
      cp_pid c = Some n /\ pid (this s') = Some n /\
      events_since s' (fst (kill starting_host s')) =
        EvLog LLog "ChromeLauncher" "Killing all Chrome Instances"
          :: os_kill_event starting_host c
               (os_kill_answer starting_host (S (now s')) c) :: rest)
   \/
   (requestedPort (this s) <> 0 /\
    events_since s s' = [EvConnect (Some (requestedPort (this s))) None] /\
    Forall (fun e => is_resource e = false) (events_since s s') /\
    kill starting_host s' = (s', Resolved tt))).
Proof.
  assert (H : snd (Launcher_launch starting_host (launch_start no_options []))
              = Resolved tt).
  { vm_compute. reflexivity. }
  split; [exact H |].
  exact (kill_after_launch starting_host (launch_start no_options []) eq_refl H).
Defined.

(** X20. When a [launch()] from an unprepared instance has spawned a child
    and a following [kill()] resolves, the child has reported ['close'] and
    the teardown released what the launch acquired: it closed the two log
    descriptors the launch opened (one that is 0 is skipped), in the order
    they were opened, and then removed the directory the launch created
    (nothing is done for an empty directory name). *)
Theorem launch_kill_round_trip (w : World) (s : Sys) (exe : string)
  (args : list string) (out err : option Z) (c : ChildProcess) :
  let s' := fst (Launcher_launch w s) in
  tmpDirandPidFileReady (this s) = false ->
  In (EvSpawn exe args out err c) (events_since s s') ->
  snd (kill w s') = Resolved tt ->
  exists dir fo fe,
    filter is_workspace_creation (events_since s s') =
      [EvMakeTmpDir (Ok dir);
       EvOpen (dir ++ "/chrome-out.log") "a" (Ok fo);
       EvOpen (dir ++ "/chrome-err.log") "a" (Ok fe)] /\
    filter is_workspace_release (events_since s' (fst (kill w s'))) =
      (if String.eqb dir "" then []
       else released (Some fo) ++ released (Some fe) ++ [EvRimraf dir])%list /\
    In (EvChildClose c) (events_since s' (fst (kill w s'))).
Proof.
  cbv zeta. intros Hnr Hin Hk.
  destruct (launch_spawn_state w s exe args out err c Hin)
    as (_ & Hc & Hof & Hef & _ & _ & _ & _ & Hfresh).
  destruct (Hfresh Hnr) as (dir & fo & fe & Hcreate & Hdir & _ & -> & ->).
  exists dir, fo, fe. split; [exact Hcreate |].
  destruct (kill_detail w _ c Hc)
    as (evs & l' & o & Hrun & _ & _
        & [(-> & -> & _) | (td & _ & -> & _ & _ & _ & Hrel)]).
  - rewrite Hrun in Hk. discriminate Hk.
  - rewrite (kill_release_events w _ c td l' o Hrun).
    rewrite Hrun in *. cbn [fst snd] in *.
    destruct (Hrel Hk) as (-> & _). rewrite Hdir, Hof, Hef.
    split; [reflexivity |].
    rewrite events_since_mk. apply in_or_app. right. left. reflexivity.
Qed.

(** A launch with no options, then [kill()]. *)
Lemma launch_kill_round_trip_witness :
  let s := launch_start no_options [] in
  let s' := fst (Launcher_launch starting_host s) in
  snd (kill starting_host s') = Resolved tt /\
  exists dir fo fe,
    filter is_workspace_creation (events_since s s') =
      [EvMakeTmpDir (Ok dir);
       EvOpen (dir ++ "/chrome-out.log") "a" (Ok fo);
       EvOpen (dir ++ "/chrome-err.log") "a" (Ok fe)] /\
    filter is_workspace_release
      (events_since s' (fst (kill starting_host s'))) =
      (if String.eqb dir "" then []
       else released (Some fo) ++ released (Some fe) ++ [EvRimraf dir])%list.
Proof.
  assert (Hk : snd (kill starting_host
                      (fst (Launcher_launch starting_host
                              (launch_start no_options [])))) = Resolved tt).
  { vm_compute. reflexivity. }
  assert (H : In (EvSpawn chrome_bin default_args (Some 2) (Some 3) (mkChild (Some 4242)))
    (events_since (launch_start no_options [])
       (fst (Launcher_launch starting_host (launch_start no_options []))))).
  { vm_compute. tauto. }
  split; [exact Hk |].
  destruct (launch_kill_round_trip starting_host (launch_start no_options [])
              chrome_bin default_args (Some 2) (Some 3) (mkChild (Some 4242))
              eq_refl H Hk)
    as (dir & fo & fe & Hc & Hr & _).
  exists dir, fo, fe. split; [exact Hc | exact Hr].
Defined.

(** X21. A resolved [kill()] on a prepared instance that tracks a child
    and has a non-empty directory name removes the directory but leaves the
    instance marked ready: a following [launch()] creates no directory and
    opens no log file, and a child it spawns gets the removed directory as
    user-data-dir and log descriptors that are [undefined] or 0; its pid,
    when it has one, is written to the old pid-file path, and nothing is
    written when it has none. *)
Theorem relaunch_after_kill (w : World) (s : Sys) (c : ChildProcess)
  (dir exe : string) (args : list string) (out err : option Z)
  (c' : ChildProcess) :
  let s1 := fst (kill w s) in
  let s2 := fst (Launcher_launch w s1) in
  chrome (this s) = Some c ->
  tmpDirandPidFileReady (this s) = true ->
  TMP_PROFILE_DIR (this s) = Some dir -> dir <> "" ->
  snd (kill w s) = Resolved tt ->
  In (EvSpawn exe args out err c') (events_since s1 s2) ->
  In (EvRimraf dir) (events_since s s1) /\
  filter is_workspace_creation (events_since s1 s2) = [] /\
  In ("--user-data-dir=" ++ dir) args /\
  truthy_num out = false /\ truthy_num err = false /\
  match cp_pid c' with
  | Some n =>
      exists r,
        In (EvWriteFile (pidFile (this s)) (num_str n) r) (events_since s1 s2)
  | None =>
      forall path data r, ~ In (EvWriteFile path data r) (events_since s1 s2)
  end.
Proof.
  cbv zeta. intros Hc Hrd Hdir Hne Hk Hin.
  destruct (launch_spawn_state w _ exe args out err c' Hin)
    as (_ & _ & _ & _ & Hargs & _ & Hwrite & Hready & _).
  destruct (kill_detail w s c Hc)
    as (evs & l' & o & Hrun & Hframe & _
        & [(-> & -> & _) | (td & _ & -> & _ & _ & _ & Hrel)]).
  { rewrite Hrun in Hk. discriminate Hk. }
  pose proof (kill_release_events w s c td l' o Hrun) as Hfilter.
  rewrite Hrun in *. cbn [fst snd this] in *.
  destruct (Hrel Hk) as (Htd & Hfalsy).
  destruct (Hfalsy dir Hdir Hne) as (Hfo & Hfe).
  assert (Hrd' : tmpDirandPidFileReady l' = true).
  { rewrite Hframe. cbn. exact Hrd. }
  assert (Hdir' : TMP_PROFILE_DIR l' = Some dir).
  { rewrite Hframe. cbn. exact Hdir. }
  assert (Hpf : pidFile l' = pidFile (this s)).
  { rewrite Hframe. reflexivity. }
  destruct (Hready Hrd') as (-> & -> & Htd' & Hpf' & Hnocreate).
  split.
  { assert (H : In (EvRimraf dir) (filter is_workspace_release td)).
    { rewrite Htd, Hdir.
      destruct (String.eqb dir "") eqn:He;
        [apply String.eqb_eq in He; contradiction |].
      apply in_or_app. right. apply in_or_app. right. left. reflexivity. }
    rewrite <- Hfilter in H. apply filter_In in H. exact (proj1 H). }
  split; [exact Hnocreate |].
  split.
  { rewrite Hargs, flags_layout, Htd', Hdir'. apply in_or_app. right.
    right. left. reflexivity. }
  split; [exact Hfo |]. split; [exact Hfe |].
  rewrite Hpf', Hpf in Hwrite.
  destruct (cp_pid c') as [n |]; [exact Hwrite | exact (proj2 Hwrite)].
Qed.

(** A launch with no options, [kill()], then a second launch. *)
Lemma relaunch_after_kill_witness :
  In (EvRimraf "/tmp/lighthouse.XXXX")
    (events_since launched (fst (kill starting_host launched))) /\
  In "--user-data-dir=/tmp/lighthouse.XXXX" default_args /\
  filter is_workspace_creation
    (events_since (fst (kill starting_host launched))
       (fst (Launcher_launch starting_host (fst (kill starting_host launched))))) = [].
Proof.
  assert (Hne : "/tmp/lighthouse.XXXX" <> "") by discriminate.
  assert (Hk : snd (kill starting_host launched) = Resolved tt).
  { vm_compute. reflexivity. }
  assert (H : In (EvSpawn chrome_bin default_args None None (mkChild (Some 4242)))
    (events_since (fst (kill starting_host launched))
       (fst (Launcher_launch starting_host (fst (kill starting_host launched)))))).
  { vm_compute. tauto. }
  destruct (relaunch_after_kill starting_host launched (mkChild (Some 4242))
              "/tmp/lighthouse.XXXX" chrome_bin default_args None None
              (mkChild (Some 4242)) eq_refl eq_refl eq_refl Hne Hk H)
    as (Hr & Hc & Hd & _).
  split; [exact Hr |]. split; [exact Hd | exact Hc].
Defined.

(** X22. On a host where the launch gets as far as polling (the workspace
    can be prepared, an installation is found, a port is handed out, the
    child comes with a pid and the pid file can be written, each only where
    the instance needs it), if nothing listens on the port the instance
    ends up with, then [launch()] rejects, and its connection attempts and
    delays are exactly: the probe of the requested port (when one was
    requested), then eleven failed probes of the chosen port with a delay
    of 500 between consecutive ones (ten delays); the rejection carries the
    error of the eleventh probe. *)
Theorem launch_retry_exhaustion (w : World) (s : Sys) :
  reaches_polling w (this s) ->
  pollInterval (this s) = 500 ->
  (forall t,
     w_connect w t (port (this (fst (Launcher_launch w s)))) <> None) ->
  exists errs e,
    length errs = 10%nat /\
    snd (Launcher_launch w s) = Rejected e /\
    filter net_timer (events_since s (fst (Launcher_launch w s))) =
      ((if requestedPort (this s) =? 0 then []
        else [EvConnect (Some (requestedPort (this s)))
                (w_connect w (now s) (Some (requestedPort (this s))))])
         ++ poll_schedule (port (this (fst (Launcher_launch w s)))) 500
              (errs ++ [e]))%list.
Proof.
  intros (Hws & Hloc & Hsp) Hms.
  name_result (Launcher_launch w s).
  exec_launch s; try exec_resolve.
  all: try (destruct (Hws eq_refl) as [Hsup [Hmk Hop]]).
  all: try congruence.
  all: try (match goal with H : w_makeTmpDir _ ?t = Throw _ |- _ =>
              destruct (Hmk t) as [? Hx]; congruence end).
  all: try (match goal with H : w_openSync _ ?t ?p ?f = Throw _ |- _ =>
              destruct (Hop t p f) as [? Hx]; congruence end).
  all: try (match goal with H : w_chromeFinder _ ?t _ = [] |- _ =>
              exfalso; apply (Hloc eq_refl t); exact H end).
  all: try (unfold bind at 1;
       match goal with
       | |- context [spawn ?w0 ?exe ?st] =>
           let Hh := fresh "Hh" in
           assert (Hh : chrome (this st) = None ->
                        child_has_pid w0 /\ pid_file_ok w0 /\
                        (requestedPort (this st) = 0 -> port_source_ok w0))
             by exact Hsp;
           destruct (spawn_exhausts w0 exe st Hh) as (evs & l' & o & Hrun & Hex);
           rewrite Hrun; clear Hrun Hh
       end).
  all: try (intros <-; cbn [fst this port set_port]; intros Hclosed;
            exfalso; apply (Hclosed (now s)); exact Hprobe).
  all: destruct o as [q | e1 |]; unfold modify; intros <-; norm_events;
    cbn [this port set_pid]; intros Hclosed;
    destruct (Hex Hclosed) as (errs & e2 & Hlen & Ho & Hsched);
    try discriminate Ho; injection Ho as <-.
  all: exists errs, e1; split; [exact Hlen |]; split; [reflexivity |].
  all: cbn [filter net_timer app reuse_log]; rewrite Hsched.
  all: cbn [pollInterval this set_chromePath set_ready set_pidFile set_errFile
              set_outFile set_TMP_PROFILE_DIR set_port]; rewrite Hms.
  all: rewrite ?Hprobe; reflexivity.
Qed.

(** A launch with no options on a host where nothing ever listens. *)
Lemma launch_retry_exhaustion_witness :
  (reaches_polling quiet_host (this (launch_start no_options [])) /\
   pollInterval (this (launch_start no_options [])) = 500 /\
   forall t, w_connect quiet_host t (Some 9333) <> None) /\
  exists errs e,
    length errs = 10%nat /\
    snd (Launcher_launch quiet_host (launch_start no_options [])) = Rejected e /\
    filter net_timer
      (events_since (launch_start no_options [])
         (fst (Launcher_launch quiet_host (launch_start no_options [])))) =
      poll_schedule (Some 9333) 500 (errs ++ [e]).
Proof.
  assert (H : reaches_polling quiet_host (this (launch_start no_options []))).
  { repeat split; intros; try discriminate; eexists; reflexivity. }
  assert (Hclosed : forall t, w_connect quiet_host t (Some 9333) <> None).
  { intros t. discriminate. }
  split; [split; [exact H | split; [reflexivity | exact Hclosed]] |].
  exact (launch_retry_exhaustion quiet_host (launch_start no_options []) H
           eq_refl Hclosed).
Defined.

(** X23. When the child that [launch()] spawned has no pid (its executable
    could not be started), the promise of [launch()] stays pending and
    [pid] is not assigned, although the child is tracked; no pid file is
    written and the polling never starts: the only connection attempt is
    the probe of a requested port. *)
Theorem launch_child_without_pid (w : World) (s : Sys) (exe : string)
  (args : list string) (out err : option Z) (c : ChildProcess) :
  In (EvSpawn exe args out err c) (events_since s (fst (Launcher_launch w s))) ->
  cp_pid c = None ->
  snd (Launcher_launch w s) = Pending /\
  pid (this (fst (Launcher_launch w s))) = pid (this s) /\
  chrome (this (fst (Launcher_launch w s))) = Some c /\
  (forall path data r,
     ~ In (EvWriteFile path data r)
          (events_since s (fst (Launcher_launch w s)))) /\
  filter net_timer (events_since s (fst (Launcher_launch w s))) =
    if requestedPort (this s) =? 0 then []
    else [EvConnect (Some (requestedPort (this s)))
            (w_connect w (now s) (Some (requestedPort (this s))))].
Proof.
  name_result (Launcher_launch w s).
  exec_paths s.
  all: intros Hin Hn; split_in Hin.
  all: destruct (Hchild _ _ _ _ _ Hin) as (_ & _ & _ & _ & _ & Hc & _ & Hwr).
  all: rewrite Hn in Hwr; destruct Hwr as (Ho & Hnt & Hnw);
    try discriminate Ho.
  all: pose proof (f_equal pid Hframe) as Hpid; cbn in Hpid.
  all: split; [reflexivity |]; split; [exact Hpid |]; split; [exact Hc |].
  all: split; [intros pa da r Hw; split_in Hw; exact (Hnw _ _ _ Hw) |].
  all: cbn [filter net_timer reuse_log]; rewrite Hnt, ?Hprobe; reflexivity.
Qed.

(** [launch({chromePath: '/nonexistent'})] when the executable cannot be
    started. *)
Lemma launch_child_without_pid_witness :
  snd (Launcher_launch no_exec_host (launch_start nonexistent_chrome [])) =
    Pending /\
  filter net_timer
    (events_since (launch_start nonexistent_chrome [])
       (fst (Launcher_launch no_exec_host (launch_start nonexistent_chrome []))))
    = [].
Proof.
  assert (H : In (EvSpawn "/nonexistent" default_args (Some 2) (Some 3)
                    (mkChild None))
    (events_since (launch_start nonexistent_chrome [])
       (fst (Launcher_launch no_exec_host
               (launch_start nonexistent_chrome []))))).
  { vm_compute. tauto. }
  destruct (launch_child_without_pid no_exec_host
              (launch_start nonexistent_chrome []) "/nonexistent" default_args
              (Some 2) (Some 3) (mkChild None) H eq_refl)
    as (Ho & _ & _ & _ & Hnt).
  split; [exact Ho | exact Hnt].
Defined.
